(** * tBTC v2 client: key derivation, redemption builder, ledger gateway

    A shallow embedding of the TypeScript client code
    ([typescript/src/redemption.ts] and the Ethereum [Bridge] handle) and
    the properties its specification states about it. *)

From Stdlib Require Import ZArith NArith List Bool Lia.
From Stdlib Require Import Strings.String Strings.Ascii Strings.Byte.
Import ListNotations.

Local Open Scope Z_scope.

(** ** Thrown errors

    A JavaScript call either returns a value or throws an [Error] carrying a
    message. *)

Inductive outcome (A : Type) : Type :=
| Returned (a : A)
| Thrown (message : string).

Arguments Returned {A} a.
Arguments Thrown {A} message.

Definition bind {A B : Type} (c : outcome A) (k : A -> outcome B) : outcome B :=
  match c with
  | Returned a => k a
  | Thrown m => Thrown m
  end.

Declare Scope js_scope.
Delimit Scope js_scope with js.
Notation "x <- c ;; k" := (bind c (fun x => k))
  (at level 61, c at next level, right associativity) : js_scope.

(** ** Bytes and hexadecimal strings *)

Module HexCodec.

Definition byte_of_Z (z : Z) : byte :=
  match Byte.of_N (Z.to_N (z mod 256)) with
  | Some b => b
  | None => x00
  end.

Definition Z_of_byte (b : byte) : Z := Z.of_N (Byte.to_N b).

(** Lower-case digit of a nibble, as [toString("hex")] and [hexlify] print it. *)
Definition hexdigit (n : Z) : ascii :=
  match n with
  | 0 => "0" | 1 => "1" | 2 => "2" | 3 => "3"
  | 4 => "4" | 5 => "5" | 6 => "6" | 7 => "7"
  | 8 => "8" | 9 => "9" | 10 => "a" | 11 => "b"
  | 12 => "c" | 13 => "d" | 14 => "e" | _ => "f"
  end%char.

(** Value of a hexadecimal digit; both cases are read. *)
Definition unhex (c : ascii) : option Z :=
  let n := Z.of_N (N_of_ascii c) in
  if (48 <=? n) && (n <=? 57) then Some (n - 48)
  else if (97 <=? n) && (n <=? 102) then Some (n - 87)
  else if (65 <=? n) && (n <=? 70) then Some (n - 55)
  else None.

(** [buffer.toString("hex")]. *)
Fixpoint to_hex (bs : list byte) : string :=
  match bs with
  | [] => EmptyString
  | b :: rest =>
      String (hexdigit (Z_of_byte b / 16))
        (String (hexdigit (Z_of_byte b mod 16)) (to_hex rest))
  end.

(** [Buffer.from(s, "hex")]: pairs of digits are decoded from the left;
    decoding stops at the first pair that is not two hexadecimal digits,
    and a trailing single character is dropped. *)
Fixpoint Buffer_from_hex (s : string) : list byte :=
  match s with
  | String a (String b rest) =>
      match unhex a, unhex b with
      | Some hi, Some lo => byte_of_Z (16 * hi + lo) :: Buffer_from_hex rest
      | _, _ => []
      end
  | _ => []
  end.

(** [Buffer.from(array)]: every entry is truncated to its low eight bits. *)
Definition Buffer_from_array (entries : list Z) : list byte :=
  map byte_of_Z entries.

(** Every character is a hexadecimal digit. *)
Fixpoint all_hex (s : string) : bool :=
  match s with
  | EmptyString => true
  | String c rest =>
      match unhex c with
      | Some _ => all_hex rest
      | None => false
      end
  end.

(** Strict decoding of the digits after a [0x] prefix: pairs only. *)
Fixpoint digits_strict (s : string) : option (list byte) :=
  match s with
  | EmptyString => Some []
  | String a (String b rest) =>
      match unhex a, unhex b, digits_strict rest with
      | Some hi, Some lo, Some bs => Some (byte_of_Z (16 * hi + lo) :: bs)
      | _, _, _ => None
      end
  | String _ EmptyString => None
  end.

(** ethers' [arrayify] on a string: it must be [0x] followed by
    hexadecimal digits, an even number of them. *)
Definition arrayify (s : string) : outcome (list byte) :=
  match s with
  | String "0" (String "x" digits) =>
      if all_hex digits
      then match digits_strict digits with
           | Some bs => Returned bs
           | None => Thrown "hex data is odd-length"
           end
      else Thrown "invalid arrayify value"
  | _ => Thrown "invalid arrayify value"
  end.

(** ethers' [hexlify] on bytes. *)
Definition hexlify (bs : list byte) : string :=
  String "0" (String "x" (to_hex bs)).

(** Big-endian bytes of the [n] low-order bytes of [z]. *)
Fixpoint be_bytes (n : nat) (z : Z) : list byte :=
  match n with
  | O => []
  | S n' => be_bytes n' (z / 256) ++ [byte_of_Z z]
  end.

(** The reading of big-endian the statements below use: the byte of weight
    [256 ^ k] stands [k] places before the end. *)
Definition big_endian (n : nat) (z : Z) : list byte :=
  map (fun k => byte_of_Z (z / 256 ^ Z.of_nat k)) (rev (seq 0 n)).

End HexCodec.

(** ** ethers: tightly packed encoding and hashing

    [utils.solidityKeccak256(types, values)] hashes the concatenation of the
    tightly packed values.  Only the types the client uses are embedded; a
    type and its value travel together as one [SolArg]. *)

Module Ethers.
Import HexCodec.
Local Open Scope js_scope.

Inductive SolArg : Type :=
| Bytes (value : string)                 (* type "bytes"        *)
| BytesN (size : nat) (value : string)   (* type "bytes<size>"  *)
| UintN (bits : Z) (value : Z).          (* type "uint<bits>"   *)

(** [BN.inotn(width)] of bn.js, on a magnitude.  bn.js keeps a number in
    words of 26 bits and complements in place: the bits below [width] are
    flipped, the other bits of the last word that [width] reaches into are
    cleared, and the words above are left as they are. *)
Definition inotn (width : Z) (magnitude : Z) : Z :=
  let bytesNeeded := (width + 25) / 26 in
  Z.shiftl (Z.shiftr magnitude (26 * bytesNeeded)) (26 * bytesNeeded)
  + Z.lxor (Z.land magnitude (Z.ones width)) (Z.ones width).

(** [BigNumber.toTwos(width)] is bn.js's [toTwos]: a negative number becomes
    [abs().inotn(width).iaddn(1)], any other number is kept. *)
Definition toTwos (width : Z) (v : Z) : Z :=
  if v <? 0 then inotn width (Z.abs v) + 1 else v.

(** [zeroPad(value, length)]: left-pads the big-endian bytes of [value];
    it throws when they do not fit. *)
Definition zeroPad (v : Z) (len : nat) : outcome (list byte) :=
  if v <? 2 ^ (8 * Z.of_nat len) then Returned (be_bytes len v)
  else Thrown "value out of range".

(** One packed value.  The client packs a JavaScript number only as
    [uint32]: a number that [BigNumber.from] itself refuses (one beyond the
    safe integers) lies beyond what [zeroPad] accepts on four bytes; either
    way an error is thrown, and the message kept here is the latter's. *)
Definition pack_value (arg : SolArg) : outcome (list byte) :=
  match arg with
  | Bytes value => arrayify value
  | UintN bits value =>
      if (bits mod 8 =? 0) && (0 <? bits) && (bits <=? 256)
      then zeroPad (toTwos bits value) (Z.to_nat (bits / 8))
      else Thrown "invalid number type"
  | BytesN size value =>
      if (size =? 0)%nat || (32 <? size)%nat
      then Thrown "invalid bytes type"
      else
        bs <- arrayify value ;;
        if (List.length bs =? size)%nat then Returned bs
        else Thrown "invalid value for type"
  end.

Fixpoint pack_values (args : list SolArg) : outcome (list byte) :=
  match args with
  | [] => Returned []
  | arg :: rest =>
      bs <- pack_value arg ;;
      tail <- pack_values rest ;;
      Returned (bs ++ tail)
  end.

(** [utils.solidityPack]. *)
Definition solidityPack (args : list SolArg) : outcome string :=
  bs <- pack_values args ;;
  Returned (hexlify bs).

Section Keccak.
(** The Keccak-256 permutation itself is the library's primitive. *)
Variable keccak_256 : list byte -> list byte.

(** [utils.keccak256(data)]. *)
Definition keccak256 (data : string) : outcome string :=
  bs <- arrayify data ;;
  Returned (hexlify (keccak_256 bs)).

(** [utils.solidityKeccak256(types, values)]. *)
Definition solidityKeccak256 (args : list SolArg) : outcome string :=
  packed <- solidityPack args ;;
  keccak256 packed.
End Keccak.

End Ethers.

(** ** The [Hex] utility class

    Modelled from the spec: the [Hex] class of [lib/utils] is not among the
    sources.  It wraps a byte sequence; [reverse] is the byte-order reversal
    the spec's byte-order invariant speaks of, [toString] prints the bytes
    as unprefixed hexadecimal digits and [toPrefixedString] adds [0x].
    [from] reads a hexadecimal string with or without the [0x] prefix. *)

Module Hex.
Import HexCodec.

Record t : Type := of_bytes { bytes : list byte }.

Definition strip0x (s : string) : string :=
  match s with
  | String "0" (String "x" digits) => digits
  | _ => s
  end.

Definition from (s : string) : t := of_bytes (Buffer_from_hex (strip0x s)).
Definition reverse (h : t) : t := of_bytes (rev (bytes h)).
Definition toString (h : t) : string := to_hex (bytes h).
Definition toPrefixedString (h : t) : string := hexlify (bytes h).
End Hex.

(** ** The Bitcoin types of [../bitcoin] the handle takes *)

Module Bitcoin.

(** A Bitcoin transaction hash is a [Hex] value. *)
Definition BitcoinTxHash : Type := Hex.t.

Record BitcoinUtxo : Type := {
  transactionHash : BitcoinTxHash;
  outputIndex : Z;       (* number    *)
  value : Z              (* BigNumber *)
}.

End Bitcoin.

(** ** Retry and backoff

    The retrier and the transaction sender live in [lib/utils] and in the
    ethers adapter, which are not among the sources.  A wrapped remote call
    is a function from the attempt number (counted from zero) to what the
    remote side answers at that attempt; the waiting between attempts has
    no counterpart here.  A [Run] records how many times the wrapped call
    was invoked and how the whole retried operation settled. *)

Module Retry.
Local Open Scope string_scope.

Record Run (T : Type) : Type := mkRun { attempts : nat; settled : outcome T }.
Arguments mkRun {T} attempts settled.
Arguments attempts {T} r.
Arguments settled {T} r.

(** [message.includes(needle)]. *)
Fixpoint includes (needle message : string) : bool :=
  if String.prefix needle message then true
  else match message with
       | EmptyString => false
       | String _ rest => includes needle rest
       end.

Definition expectedError (expected : list string) (message : string) : bool :=
  existsb (fun needle => includes needle message) expected.

Fixpoint backoff_loop {T : Type}
    (fn : nat -> outcome T) (attempt budget : nat) : Run T :=
  match fn attempt with
  | Returned v => mkRun (S attempt) (Returned v)
  | Thrown m =>
      match budget with
      | O => mkRun (S attempt) (Thrown m)
      | S budget' => backoff_loop fn (S attempt) budget'
      end
  end.

(** Modelled from the spec: [backoffRetrier] is not among the sources.
    "A reusable wrapper parameterized by a maximum attempt count: invokes
    the wrapped operation; on a transient failure waits with an increasing
    delay and retries up to the configured limit; on exhausting attempts,
    surfaces the last error."  The operation is invoked once at least. *)
Definition backoffRetrier {T : Type}
    (retries : nat) (fn : nat -> outcome T) : Run T :=
  backoff_loop fn 0 (Nat.pred retries).

Fixpoint send_loop {T : Type}
    (fn : nat -> outcome T) (expected : list string) (completed : T)
    (attempt budget : nat) : Run T :=
  match fn attempt with
  | Returned v => mkRun (S attempt) (Returned v)
  | Thrown m =>
      if expectedError expected m then mkRun (S attempt) (Returned completed)
      else match budget with
           | O => mkRun (S attempt) (Thrown m)
           | S budget' => send_loop fn expected completed (S attempt) budget'
           end
  end.

(** Modelled from the spec: [EthersTransactionUtils.sendWithRetry] is not
    among the sources.  It is the retrier above for mutating calls: "on
    specific, caller-enumerated expected error substrings, a
    mutating-operation variant short-circuits and treats the call as
    successfully completed rather than retrying or failing".  The spec
    does not say which value the completed call resolves with; it is the
    parameter [completed]. *)
Definition sendWithRetry {T : Type}
    (fn : nat -> outcome T) (retries : nat) (expected : list string)
    (completed : T) : Run T :=
  send_loop fn expected completed 0 (Nat.pred retries).

End Retry.

(** ** The Ethereum Bridge handle *)

Module EthereumBridge.
Import HexCodec Ethers Retry Bitcoin.
Local Open Scope js_scope.
Local Open Scope string_scope.

Section KeyDerivation.
Variable keccak_256 : list byte -> list byte.

Definition buildRedemptionKey
    (walletPublicKeyHash redeemerOutputScript : string) : outcome string :=
  (* Convert the output script to raw bytes buffer. *)
  let rawRedeemerOutputScript := Buffer_from_hex redeemerOutputScript in
  (* Prefix the output script bytes buffer with 0x and its own length. *)
  let prefixedRawRedeemerOutputScript :=
    "0x" ++ to_hex
      (Buffer_from_array [Z.of_nat (List.length rawRedeemerOutputScript)]
         ++ rawRedeemerOutputScript) in
  inner <- solidityKeccak256 keccak_256
             [Bytes prefixedRawRedeemerOutputScript] ;;
  solidityKeccak256 keccak_256
    [BytesN 32 inner; BytesN 20 ("0x" ++ walletPublicKeyHash)].

Definition buildDepositKey
    (depositTxHash : BitcoinTxHash) (depositOutputIndex : Z)
  : outcome string :=
  let prefixedReversedDepositTxHash :=
    Hex.toPrefixedString (Hex.reverse depositTxHash) in
  solidityKeccak256 keccak_256
    [BytesN 32 prefixedReversedDepositTxHash; UintN 32 depositOutputIndex].

Definition buildUtxoHash (utxo : BitcoinUtxo) : outcome Hex.t :=
  digest <- solidityKeccak256 keccak_256
              [BytesN 32 (Hex.toPrefixedString
                            (Hex.reverse (transactionHash utxo)));
               UintN 32 (outputIndex utxo);
               UintN 64 (value utxo)] ;;
  Returned (Hex.from digest).
End KeyDerivation.

(** *** Calls to the remote contract *)

Definition AddressZero : string := "0x0000000000000000000000000000000000000000".

Record BitcoinRawTxVectors : Type := {
  version : string; inputs : string; outputs : string; locktime : string
}.

Record DepositReceipt : Type := {
  blindingFactor : string;
  walletPublicKeyHash : string;
  refundPublicKeyHash : string;
  refundLocktime : string
}.

Record ChainIdentifier : Type := { identifierHex : string }.

Record ContractTransaction : Type := { hash : string }.

Record DepositTxParam : Type := {
  p_version : string; p_inputVector : string;
  p_outputVector : string; p_locktime : string
}.

Record RevealParam : Type := {
  p_fundingOutputIndex : Z;
  p_blindingFactor : string;
  p_walletPubKeyHash : string;
  p_refundPubKeyHash : string;
  p_refundLocktime : string;
  p_vault : string
}.

(** The contract's [Wallets.Wallet] structure as typechain returns it. *)
Record WalletStructOutput : Type := {
  s_ecdsaWalletID : string;
  s_mainUtxoHash : string;
  s_pendingRedemptionsValue : Z;
  s_createdAt : Z;
  s_movingFundsRequestedAt : Z;
  s_closingStartedAt : Z;
  s_pendingMovedFundsSweepRequestsCount : Z;
  s_state : Z;
  s_movingFundsTargetWalletsCommitmentHash : string
}.

Section RemoteCalls.
(** The wallet states and their parser belong to [../contracts]. *)
Variable WalletState : Type.
Variable WalletState_parse : Z -> WalletState.

Record Wallet : Type := {
  ecdsaWalletID : Hex.t;
  walletPublicKey : Hex.t;
  mainUtxoHash : Hex.t;
  pendingRedemptionsValue : Z;
  createdAt : Z;
  movingFundsRequestedAt : Z;
  closingStartedAt : Z;
  pendingMovedFundsSweepRequestsCount : Z;
  state : WalletState;
  movingFundsTargetWalletsCommitmentHash : Hex.t
}.

(** The typechain contract instance: every method is a remote call,
    answered per attempt.  A [bytes20] result is decoded by ethers into
    its [0x]-prefixed lower-case digits. *)
Record BridgeTypechain : Type := {
  call_revealDeposit :
    DepositTxParam -> RevealParam -> nat -> outcome ContractTransaction;
  call_activeWalletPubKeyHash : nat -> outcome (list byte);
  call_wallets : string -> nat -> outcome WalletStructOutput;
  call_contractReferences : nat -> outcome string
}.

(** The handle's state: [_instance] and [_totalRetryAttempts]. *)
Record Handle : Type := {
  _instance : BridgeTypechain;
  _totalRetryAttempts : nat
}.

(** The wallet registry handle and the key compression belong to
    [./wallet-registry] and [../bitcoin]. *)
Variable registry_getWalletPublicKey : string -> Hex.t -> outcome Hex.t.
Variable compressPublicKey : Hex.t -> outcome string.

(** What a mutating call resolves with when an expected rejection is
    taken as completion. *)
Variable completed : ContractTransaction.

Variable this : Handle.

Definition revealDeposit
    (depositTx : BitcoinRawTxVectors) (depositOutputIndex : Z)
    (deposit : DepositReceipt) (vault : option ChainIdentifier)
  : Run string :=
  let depositTxParam :=
    {| p_version := "0x" ++ version depositTx;
       p_inputVector := "0x" ++ inputs depositTx;
       p_outputVector := "0x" ++ outputs depositTx;
       p_locktime := "0x" ++ locktime depositTx |} in
  let revealParam :=
    {| p_fundingOutputIndex := depositOutputIndex;
       p_blindingFactor := "0x" ++ blindingFactor deposit;
       p_walletPubKeyHash := "0x" ++ walletPublicKeyHash deposit;
       p_refundPubKeyHash := "0x" ++ refundPublicKeyHash deposit;
       p_refundLocktime := "0x" ++ refundLocktime deposit;
       p_vault := match vault with
                  | Some v => "0x" ++ identifierHex v
                  | None => AddressZero
                  end |} in
  let sent :=
    sendWithRetry
      (call_revealDeposit (_instance this) depositTxParam revealParam)
      (_totalRetryAttempts this)
      ["Deposit already revealed"]
      completed in
  mkRun (attempts sent) (tx <- settled sent ;; Returned (hash tx)).

Definition walletRegistry : outcome string :=
  settled (backoffRetrier (_totalRetryAttempts this)
             (call_contractReferences (_instance this))).

Definition getWalletCompressedPublicKey (ecdsaWalletID : Hex.t)
  : outcome Hex.t :=
  walletRegistry <- walletRegistry ;;
  uncompressedPublicKey <-
    registry_getWalletPublicKey walletRegistry ecdsaWalletID ;;
  compressed <- compressPublicKey uncompressedPublicKey ;;
  Returned (Hex.from compressed).

Definition parseWalletDetails (wallet : WalletStructOutput)
  : outcome Wallet :=
  let ecdsaWalletID := Hex.from (s_ecdsaWalletID wallet) in
  walletPublicKey <- getWalletCompressedPublicKey ecdsaWalletID ;;
  Returned
    {| ecdsaWalletID := ecdsaWalletID;
       walletPublicKey := walletPublicKey;
       mainUtxoHash := Hex.from (s_mainUtxoHash wallet);
       pendingRedemptionsValue := s_pendingRedemptionsValue wallet;
       createdAt := s_createdAt wallet;
       movingFundsRequestedAt := s_movingFundsRequestedAt wallet;
       closingStartedAt := s_closingStartedAt wallet;
       pendingMovedFundsSweepRequestsCount :=
         s_pendingMovedFundsSweepRequestsCount wallet;
       state := WalletState_parse (s_state wallet);
       movingFundsTargetWalletsCommitmentHash :=
         Hex.from (s_movingFundsTargetWalletsCommitmentHash wallet) |}.

Definition wallets (walletPublicKeyHash : Hex.t) : outcome Wallet :=
  wallet <- settled (backoffRetrier (_totalRetryAttempts this)
              (call_wallets (_instance this)
                 (Hex.toPrefixedString walletPublicKeyHash))) ;;
  parseWalletDetails wallet.

(** [undefined] is [None]. *)
Definition activeWalletPublicKey : outcome (option string) :=
  activeWalletPublicKeyHash <-
    settled (backoffRetrier (_totalRetryAttempts this)
      (fun attempt =>
         h <- call_activeWalletPubKeyHash (_instance this) attempt ;;
         Returned (hexlify h))) ;;
  if String.eqb activeWalletPublicKeyHash
       "0x0000000000000000000000000000000000000000"
  then
    (* If there is no active wallet currently, return undefined. *)
    Returned None
  else
    wallet <- wallets (Hex.from activeWalletPublicKeyHash) ;;
    Returned (Some (Hex.toString (walletPublicKey wallet))).
End RemoteCalls.

End EthereumBridge.

(** ** bcoin: transactions under construction

    The Bitcoin library is embedded as far as the client calls it.  A raw
    transaction stands for the structure it serialises, so [MTX.fromRaw]
    and [toRaw] are the two directions of that reading; an input names the
    transaction and the output index it spends.  Every call that changes a
    transaction under construction is recorded, in order, next to the way
    the computation settled. *)

Module Bcoin.
Local Open Scope string_scope.
Local Open Scope Z_scope.

Inductive Script : Type :=
| Script_fromRaw (raw : list byte)
| Script_fromAddress (address : string).

Record Output : Type := { script : Script; value : Z }.

(** What the client reads from a key ring. *)
Record KeyRing : Type := { getPublicKey : list byte; getAddress : string }.

Inductive TX : Type :=
| mkTX (inputs : list Outpoint) (outputs : list Output)
       (signedBy : option KeyRing)
with Outpoint : Type :=
| mkOutpoint (prev : TX) (index : Z).

Definition prev_tx (p : Outpoint) : TX :=
  match p with mkOutpoint t _ => t end.
Definition prev_index (p : Outpoint) : Z :=
  match p with mkOutpoint _ i => i end.

Definition tx_inputs (tx : TX) : list Outpoint :=
  match tx with mkTX i _ _ => i end.
Definition tx_outputs (tx : TX) : list Output :=
  match tx with mkTX _ o _ => o end.
Definition tx_signedBy (tx : TX) : option KeyRing :=
  match tx with mkTX _ _ s => s end.

Record Coin : Type := {
  coin_tx : TX; coin_index : Z; coin_value : Z; coin_script : Script
}.

Record MTX : Type := {
  mtx_inputs : list Coin;
  mtx_outputs : list Output;
  mtx_signedBy : option KeyRing
}.

Inductive LibCall : Type :=
| AddOutput (output : Output)
| Fund (coins : list Coin) (hardFee : Z)
| Sign (ring : KeyRing).

Record Traced (A : Type) : Type :=
  mkTraced { calls : list LibCall; settled : outcome A }.
Arguments mkTraced {A} calls settled.
Arguments calls {A} t.
Arguments settled {A} t.

Definition pure {A : Type} (a : A) : Traced A := mkTraced [] (Returned a).
Definition throw {A : Type} (m : string) : Traced A := mkTraced [] (Thrown m).
Definition lift {A : Type} (c : outcome A) : Traced A := mkTraced [] c.

Definition bindT {A B : Type} (c : Traced A) (k : A -> Traced B) : Traced B :=
  match settled c with
  | Returned a => mkTraced (calls c ++ calls (k a)) (settled (k a))
  | Thrown m => mkTraced (calls c) (Thrown m)
  end.

Definition MAX_SAFE_INTEGER : Z := 9007199254740991.

Definition new_MTX : MTX :=
  {| mtx_inputs := []; mtx_outputs := []; mtx_signedBy := None |}.

Definition MTX_fromRaw (raw : TX) : TX := raw.

Definition toRaw (tx : MTX) : TX :=
  mkTX (map (fun c => mkOutpoint (coin_tx c) (coin_index c)) (mtx_inputs tx))
       (mtx_outputs tx) (mtx_signedBy tx).

(** [Coin.fromTX(tx, index, height)]. *)
Definition Coin_fromTX (tx : TX) (index : Z) : outcome Coin :=
  if (0 <=? index) && (index <? Z.of_nat (List.length (tx_outputs tx)))
  then match nth_error (tx_outputs tx) (Z.to_nat index) with
       | Some o =>
           Returned {| coin_tx := tx; coin_index := index;
                       coin_value := value o; coin_script := script o |}
       | None => Thrown "Assertion failed."
       end
  else Thrown "Assertion failed.".

(** [mtx.addOutput(options)]: the value must be an unsigned safe integer. *)
Definition addOutput (tx : MTX) (o : Output) : Traced MTX :=
  mkTraced [AddOutput o]
    (if (0 <=? value o) && (value o <=? MAX_SAFE_INTEGER)
     then Returned {| mtx_inputs := mtx_inputs tx;
                      mtx_outputs := mtx_outputs tx ++ [o];
                      mtx_signedBy := mtx_signedBy tx |}
     else Thrown "Value must be a uint64.").

Definition inputValue (coins : list Coin) : Z :=
  fold_right (fun c acc => coin_value c + acc) 0 coins.

Definition outputValue (outs : list Output) : Z :=
  fold_right (fun o acc => value o + acc) 0 outs.

(** Coins are taken in turn until they cover [total]. *)
Fixpoint selectCoins (coins chosen : list Coin) (total : Z) : list Coin :=
  match coins with
  | [] => chosen
  | c :: rest =>
      let chosen' := (chosen ++ [c])%list in
      if total <=? inputValue chosen' then chosen'
      else selectCoins rest chosen' total
  end.

Section Fund.
(** The library's dust threshold of an output script; it is positive. *)
Variable dustThreshold : Script -> Z.
(** The library's cap on a hard fee ([CoinSelector.MAX_FEE]). *)
Variable MAX_FEE : Z.

(** [mtx.fund(coins, { changeAddress, hardFee, subtractFee: false })]:
    the fee is the hard fee, capped; the chosen coins become the inputs;
    what they hold beyond the outputs and the fee goes to a change output,
    unless it is dust, which is left to the fee.  The source always passes a non-negative hard fee;
    the library's rate-based estimate (asked for by a negative one) is
    not embedded and ends in an error here. *)
Definition fund (tx : MTX) (coins : list Coin) (changeAddress : string)
    (hardFee : Z) : Traced MTX :=
  mkTraced [Fund coins hardFee]
    (if negb (List.length (mtx_inputs tx) =? 0)%nat
     then Thrown "TX is already funded."
     else if hardFee <? 0 then Thrown "Fee estimation is not embedded."
     else
       let fee := Z.min hardFee MAX_FEE in
       let total := outputValue (mtx_outputs tx) + fee in
       let chosen := selectCoins coins [] total in
       if inputValue chosen <? total then Thrown "Not enough funds."
       else
         let change := inputValue chosen - total in
         let changeOutput :=
           {| script := Script_fromAddress changeAddress;
              value := change |} in
         if change <? dustThreshold (script changeOutput)
         then Returned {| mtx_inputs := chosen;
                          mtx_outputs := mtx_outputs tx;
                          mtx_signedBy := mtx_signedBy tx |}
         else Returned {| mtx_inputs := chosen;
                          mtx_outputs := mtx_outputs tx ++ [changeOutput];
                          mtx_signedBy := mtx_signedBy tx |}).
End Fund.

(** [mtx.sign(ring)]. *)
Definition sign (tx : MTX) (ring : KeyRing) : Traced MTX :=
  mkTraced [Sign ring]
    (Returned {| mtx_inputs := mtx_inputs tx;
                 mtx_outputs := mtx_outputs tx;
                 mtx_signedBy := Some ring |}).

(** The fee a transaction pays: what its inputs hold beyond its outputs. *)
Definition tx_fee (tx : TX) : Z :=
  fold_right
    (fun i acc =>
       match nth_error (tx_outputs (prev_tx i)) (Z.to_nat (prev_index i)) with
       | Some o => value o + acc
       | None => acc
       end) 0 (tx_inputs tx)
  - outputValue (tx_outputs tx).

End Bcoin.

Notation "x <~ c ;; k" := (Bcoin.bindT c (fun x => k))
  (at level 61, c at next level, right associativity) : js_scope.

(** ** typescript/src/redemption.ts *)

Module Redemption.
Import HexCodec Bcoin.
Local Open Scope string_scope.
Local Open Scope Z_scope.
Local Open Scope js_scope.

Record RedemptionRequest : Type := {
  redeemer : string;
  redeemerOutputScript : string;
  requestedAmount : Z;     (* BigNumber *)
  treasuryFee : Z;         (* BigNumber *)
  txMaxFee : Z;            (* BigNumber *)
  requestedAt : Z          (* number    *)
}.

Record UnspentTransactionOutput : Type := {
  transactionHash : string;
  outputIndex : Z;         (* number *)
  value : Z                (* number *)
}.

Record RawTransaction : Type := { transactionHex : TX }.

(** [UnspentTransactionOutput & RawTransaction]. *)
Record UtxoWithRaw : Type := {
  utxo : UnspentTransactionOutput;
  raw : RawTransaction
}.

(** The part of the [Bridge] interface of [./chain] the module calls.  The
    ledger is read as a snapshot: a lookup is a function of its arguments. *)
Record Bridge : Type := {
  pendingRedemptions : string -> string -> outcome RedemptionRequest
}.

(** The two errors the module throws itself, under the names of the
    spec's taxonomy. *)
Definition NotFound : string :=
  "Provided redeemer output script and wallet public key do not identify a pending redemption".
Definition InvalidRequestList : string :=
  "There must be at least one request to redeem".

(** [BigNumber.toNumber()] throws outside the safe integers.  The sums
    and differences of JavaScript numbers below are written with [Z]: they
    are the source's as long as every intermediate result stays within the
    safe integers, where the arithmetic of JavaScript numbers on integers
    is exact; the statements about amounts bound the totals accordingly. *)
Definition toNumber (b : Z) : outcome Z :=
  if (- MAX_SAFE_INTEGER <=? b) && (b <=? MAX_SAFE_INTEGER)
  then Returned b else Thrown "overflow".

(** The object literal [{ ...pendingRedemption, redeemerOutputScript }]. *)
Definition spread_with_script (pendingRedemption : RedemptionRequest)
    (script : string) : RedemptionRequest :=
  {| redeemer := redeemer pendingRedemption;
     redeemerOutputScript := script;
     requestedAmount := requestedAmount pendingRedemption;
     treasuryFee := treasuryFee pendingRedemption;
     txMaxFee := txMaxFee pendingRedemption;
     requestedAt := requestedAt pendingRedemption |}.

Section WithCollaborators.
(** [createKeyRing] belongs to [./bitcoin], [hash160] to bcrypto. *)
Variable createKeyRing : string -> option bool -> outcome KeyRing.
Variable hash160 : list byte -> list byte.
(** The library's dust threshold and its cap on a hard fee. *)
Variable dustThreshold : Script -> Z.
Variable MAX_FEE : Z.

Fixpoint fetch_loop (bridge : Bridge) (walletPubKeyHash : string)
    (redeemerOutputScripts : list string)
    (redemptionRequests : list RedemptionRequest)
  : outcome (list RedemptionRequest) :=
  match redeemerOutputScripts with
  | [] => Returned redemptionRequests
  | redeemerOutputScript :: rest =>
      pendingRedemption <-
        pendingRedemptions bridge walletPubKeyHash redeemerOutputScript ;;
      if requestedAt pendingRedemption =? 0
      then
        (* The requested redemption does not exist among
           `pendingRedemptions` in the Bridge. *)
        Thrown "Provided redeemer output script and wallet public key do not identify a pending redemption"
      else
        (* Redemption exists in the Bridge. Add it to the list. *)
        fetch_loop bridge walletPubKeyHash rest
          (redemptionRequests ++
             [spread_with_script pendingRedemption redeemerOutputScript])
  end.

Definition fetchRedemptionRequests (bridge : Bridge)
    (walletPrivateKey : string) (redeemerOutputScripts : list string)
  : outcome (list RedemptionRequest) :=
  walletKeyRing <- createKeyRing walletPrivateKey None ;;
  let walletPublicKey := to_hex (getPublicKey walletKeyRing) in
  (* Calculate un-prefixed wallet public key hash *)
  let walletPubKeyHash :=
    to_hex (hash160 (Buffer_from_hex walletPublicKey)) in
  fetch_loop bridge walletPubKeyHash redeemerOutputScripts [].

(** The body of the loop over the requests, with the three variables it
    updates. *)
Fixpoint process_requests (requests : list RedemptionRequest)
    (transaction : MTX) (txTotalFee totalOutputsValue : Z)
  : Traced (MTX * Z * Z) :=
  match requests with
  | [] => pure (transaction, txTotalFee, totalOutputsValue)
  | request :: rest =>
      (* Calculate the value of the output by subtracting tx fee and
         treasury fee for this particular output from the requested
         amount *)
      let outputValue :=
        requestedAmount request - txMaxFee request - treasuryFee request in
      (* Add the output value to the total output value *)
      n <~ lift (toNumber outputValue) ;;
      let totalOutputsValue := totalOutputsValue + n in
      (* Add the fee for this particular request to the overall
         transaction fee *)
      f <~ lift (toNumber (txMaxFee request)) ;;
      let txTotalFee := txTotalFee + f in
      v <~ lift (toNumber outputValue) ;;
      transaction <~
        addOutput transaction
          {| script := Script_fromRaw
                         (Buffer_from_hex (redeemerOutputScript request));
             Bcoin.value := v |} ;;
      process_requests rest transaction txTotalFee totalOutputsValue
  end.

Definition createRedemptionTransaction (walletPrivateKey : string)
    (mainUtxo : UtxoWithRaw) (redemptionRequests : list RedemptionRequest)
    (witness : bool) : Traced RawTransaction :=
  if (List.length redemptionRequests <? 1)%nat
  then throw "There must be at least one request to redeem"
  else
    walletKeyRing <~ lift (createKeyRing walletPrivateKey (Some witness)) ;;
    let walletAddress := getAddress walletKeyRing in
    (* Use the main UTXO as the single transaction input *)
    coin <~ lift (Coin_fromTX
                    (MTX_fromRaw (transactionHex (raw mainUtxo)))
                    (outputIndex (utxo mainUtxo))) ;;
    let inputCoins := [coin] in
    let transaction := new_MTX in
    (* Process the requests *)
    processed <~ process_requests redemptionRequests transaction 0 0 ;;
    let '(transaction, txTotalFee, totalOutputsValue) := processed in
    (* If there is a change output, add it explicitly to the
       transaction. *)
    let changeOutputValue :=
      value (utxo mainUtxo) - totalOutputsValue - txTotalFee in
    transaction <~
      (if 0 <? changeOutputValue
       then addOutput transaction
              {| script := Script_fromAddress walletAddress;
                 Bcoin.value := changeOutputValue |}
       else pure transaction) ;;
    transaction <~
      fund dustThreshold MAX_FEE transaction inputCoins walletAddress
        txTotalFee ;;
    transaction <~ sign transaction walletKeyRing ;;
    pure {| transactionHex := toRaw transaction |}.
End WithCollaborators.

End Redemption.

(** ** The quantities the specification names

    The transaction the spec describes for a list of requests, written
    from its words, to be compared with what the builder produces. *)

Module RedemptionSpec.
Import HexCodec Bcoin Redemption.
Local Open Scope Z_scope.

(** "each valued at requestedAmount - txMaxFee - treasuryFee" *)
Definition outputAmount (request : RedemptionRequest) : Z :=
  requestedAmount request - txMaxFee request - treasuryFee request.

(** "locked to the request's redeemerOutputScript verbatim" *)
Definition redemptionOutput (request : RedemptionRequest) : Output :=
  {| script := Script_fromRaw (Buffer_from_hex (redeemerOutputScript request));
     Bcoin.value := outputAmount request |}.

Definition totalOutputs (requests : list RedemptionRequest) : Z :=
  fold_right (fun r acc => outputAmount r + acc) 0 requests.

(** "the sum of each request's txMaxFee" *)
Definition totalFee (requests : list RedemptionRequest) : Z :=
  fold_right (fun r acc => txMaxFee r + acc) 0 requests.

(** "fundingValue - sum(outputs) - sum(fees)" *)
Definition changeAmount (fundingValue : Z) (requests : list RedemptionRequest)
  : Z :=
  fundingValue - totalOutputs requests - totalFee requests.

(** The change output, present when its amount is positive. *)
Definition changeOutputs (walletAddress : string) (fundingValue : Z)
    (requests : list RedemptionRequest) : list Output :=
  if 0 <? changeAmount fundingValue requests
  then [ {| script := Script_fromAddress walletAddress;
            Bcoin.value := changeAmount fundingValue requests |} ]
  else [].

(** One input, the funding output; the outputs in the order of the
    requests, then the change; signed with the wallet's key ring. *)
Definition redemptionTransaction (ring : KeyRing) (mainUtxo : UtxoWithRaw)
    (requests : list RedemptionRequest) : TX :=
  mkTX [mkOutpoint (transactionHex (raw mainUtxo)) (outputIndex (utxo mainUtxo))]
       (map redemptionOutput requests
          ++ changeOutputs (getAddress ring) (value (utxo mainUtxo)) requests)
       (Some ring).

(** A script whose lookup answers with a request that exists. *)
Definition pending (bridge : Bridge) (walletPubKeyHash script : string) : Prop :=
  exists p, pendingRedemptions bridge walletPubKeyHash script = Returned p /\
            requestedAt p <> 0.

(** The hash the lookups are addressed with. *)
Definition walletPubKeyHash_of (hash160 : list byte -> list byte)
    (ring : KeyRing) : string :=
  to_hex (hash160 (Buffer_from_hex (to_hex (getPublicKey ring)))).

(** A request whose amounts the loop body accepts. *)
Definition safe_request (r : RedemptionRequest) : Prop :=
  0 <= outputAmount r <= MAX_SAFE_INTEGER /\
  - MAX_SAFE_INTEGER <= txMaxFee r <= MAX_SAFE_INTEGER.

(** The funding output the main UTXO names in its raw transaction. *)
Definition fundingCoin (mainUtxo : UtxoWithRaw) (fundingOutput : Output) : Coin :=
  {| coin_tx := transactionHex (raw mainUtxo);
     coin_index := outputIndex (utxo mainUtxo);
     coin_value := Bcoin.value fundingOutput;
     coin_script := script fundingOutput |}.

End RedemptionSpec.

(** ** The Ethereum Bridge handle: reading requests

    The remaining read operations of the handle and the translation of
    what the contract returns.  [EthereumAddress.from] belongs to
    [./address] and [BitcoinHashUtils.computeHash160] and
    [BitcoinCompactSizeUint.read] to [../bitcoin]; they are parameters. *)

Module EthereumBridgeReads.
Import HexCodec Ethers Retry Bitcoin.
Local Open Scope string_scope.
Local Open Scope Z_scope.
Local Open Scope js_scope.

(** [Redemption.RedemptionRequestStructOutput] of typechain. *)
Record RedemptionRequestTypechain : Type := {
  t_redeemer : string;
  t_requestedAmount : Z;
  t_treasuryFee : Z;
  t_txMaxFee : Z;
  t_requestedAt : Z
}.

(** [Deposit.DepositRequestStructOutput] of typechain. *)
Record DepositRequestTypechain : Type := {
  t_depositor : string;
  t_amount : Z;
  t_vault : string;
  t_revealedAt : Z;
  t_sweptAt : Z;
  t_depositTreasuryFee : Z
}.

(** [RedemptionRequest] and [DepositRequest] of [../contracts]. *)
Record RedemptionRequest : Type := {
  redeemer : EthereumBridge.ChainIdentifier;
  redeemerOutputScript : string;
  requestedAmount : Z;
  treasuryFee : Z;
  txMaxFee : Z;
  requestedAt : Z
}.

Record DepositRequest : Type := {
  depositor : EthereumBridge.ChainIdentifier;
  amount : Z;
  vault : option EthereumBridge.ChainIdentifier;
  revealedAt : Z;
  sweptAt : Z;
  depositTreasuryFee : Z
}.

(** The methods of the contract instance read here, answered per attempt. *)
Record BridgeTypechain : Type := {
  call_pendingRedemptions : string -> nat -> outcome RedemptionRequestTypechain;
  call_timedOutRedemptions : string -> nat -> outcome RedemptionRequestTypechain;
  call_deposits : string -> nat -> outcome DepositRequestTypechain
}.

Record Handle : Type := {
  _instance : BridgeTypechain;
  _totalRetryAttempts : nat
}.

(** A [RedemptionRequested] event as ethers decodes it. *)
Record EthersEvent : Type := {
  blockNumber : Z;
  blockHash : string;
  transactionHash : string;
  args_walletPubKeyHash : string;
  args_redeemer : string;
  args_redeemerOutputScript : string;
  args_requestedAmount : Z;
  args_treasuryFee : Z;
  args_txMaxFee : Z
}.

Record RedemptionRequestedEvent : Type := {
  ev_blockNumber : Z;
  ev_blockHash : Hex.t;
  ev_transactionHash : Hex.t;
  ev_walletPublicKeyHash : string;
  ev_redeemer : EthereumBridge.ChainIdentifier;
  ev_redeemerOutputScript : string;
  ev_requestedAmount : Z;
  ev_treasuryFee : Z;
  ev_txMaxFee : Z
}.

(** [s.slice(start)] on a string. *)
Fixpoint drop_chars (n : nat) (s : string) : string :=
  match n, s with
  | O, _ => s
  | S n', String _ rest => drop_chars n' rest
  | S _, EmptyString => EmptyString
  end.

Definition slice (s : string) (start : Z) : string :=
  if start <? 0
  then drop_chars (Z.to_nat (Z.max (Z.of_nat (String.length s) + start) 0)) s
  else drop_chars (Z.to_nat start) s.

(** [array.map(f)] with a callback that may throw. *)
Fixpoint map_throwing {A B : Type} (f : A -> outcome B) (l : list A)
  : outcome (list B) :=
  match l with
  | [] => Returned []
  | a :: rest =>
      b <- f a ;;
      bs <- map_throwing f rest ;;
      Returned (b :: bs)
  end.

Section Reads.
Variable keccak_256 : list byte -> list byte.
Variable computeHash160 : string -> string.
Variable EthereumAddress_from : string -> outcome EthereumBridge.ChainIdentifier.
(** The [byteLength] of the compact size prefix that [read] finds. *)
Variable CompactSizeUint_read_byteLength : Hex.t -> outcome Z.
Variable this : Handle.

Definition parseRedemptionRequest (request : RedemptionRequestTypechain)
    (redeemerOutputScript : string) : outcome RedemptionRequest :=
  redeemer <- EthereumAddress_from (t_redeemer request) ;;
  requestedAt <- Redemption.toNumber (t_requestedAt request) ;;
  Returned
    {| redeemer := redeemer;
       redeemerOutputScript := redeemerOutputScript;
       requestedAmount := t_requestedAmount request;
       treasuryFee := t_treasuryFee request;
       txMaxFee := t_txMaxFee request;
       requestedAt := requestedAt |}.

Definition pendingRedemptions (walletPublicKey redeemerOutputScript : string)
  : Run RedemptionRequest :=
  match EthereumBridge.buildRedemptionKey keccak_256
          (computeHash160 walletPublicKey) redeemerOutputScript with
  | Thrown m => mkRun 0 (Thrown m)
  | Returned redemptionKey =>
      let request :=
        backoffRetrier (_totalRetryAttempts this)
          (call_pendingRedemptions (_instance this) redemptionKey) in
      mkRun (attempts request)
        (request <- settled request ;;
         parseRedemptionRequest request redeemerOutputScript)
  end.

Definition timedOutRedemptions (walletPublicKey redeemerOutputScript : string)
  : Run RedemptionRequest :=
  match EthereumBridge.buildRedemptionKey keccak_256
          (computeHash160 walletPublicKey) redeemerOutputScript with
  | Thrown m => mkRun 0 (Thrown m)
  | Returned redemptionKey =>
      let request :=
        backoffRetrier (_totalRetryAttempts this)
          (call_timedOutRedemptions (_instance this) redemptionKey) in
      mkRun (attempts request)
        (request <- settled request ;;
         parseRedemptionRequest request redeemerOutputScript)
  end.

Definition parseDepositRequest (deposit : DepositRequestTypechain)
  : outcome DepositRequest :=
  depositor <- EthereumAddress_from (t_depositor deposit) ;;
  vault <- (if String.eqb (t_vault deposit) EthereumBridge.AddressZero
            then Returned None
            else v <- EthereumAddress_from (t_vault deposit) ;;
                 Returned (Some v)) ;;
  revealedAt <- Redemption.toNumber (t_revealedAt deposit) ;;
  sweptAt <- Redemption.toNumber (t_sweptAt deposit) ;;
  Returned
    {| depositor := depositor;
       amount := t_amount deposit;
       vault := vault;
       revealedAt := revealedAt;
       sweptAt := sweptAt;
       depositTreasuryFee := t_depositTreasuryFee deposit |}.

Definition deposits (depositTxHash : BitcoinTxHash) (depositOutputIndex : Z)
  : Run DepositRequest :=
  match EthereumBridge.buildDepositKey keccak_256 depositTxHash
          depositOutputIndex with
  | Thrown m => mkRun 0 (Thrown m)
  | Returned depositKey =>
      let deposit :=
        backoffRetrier (_totalRetryAttempts this)
          (call_deposits (_instance this) depositKey) in
      mkRun (attempts deposit)
        (deposit <- settled deposit ;; parseDepositRequest deposit)
  end.

(** The callback of [getRedemptionRequestedEvents]. *)
Definition parseRedemptionRequestedEvent (event : EthersEvent)
  : outcome RedemptionRequestedEvent :=
  let prefixedRedeemerOutputScript :=
    Hex.from (args_redeemerOutputScript event) in
  byteLength <- CompactSizeUint_read_byteLength prefixedRedeemerOutputScript ;;
  let redeemerOutputScript :=
    slice (Hex.toString prefixedRedeemerOutputScript) (byteLength * 2) in
  blockNumber <- Redemption.toNumber (blockNumber event) ;;
  redeemer <- EthereumAddress_from (args_redeemer event) ;;
  Returned
    {| ev_blockNumber := blockNumber;
       ev_blockHash := Hex.from (blockHash event);
       ev_transactionHash := Hex.from (transactionHash event);
       ev_walletPublicKeyHash :=
         Hex.toString (Hex.from (args_walletPubKeyHash event));
       ev_redeemer := redeemer;
       ev_redeemerOutputScript := redeemerOutputScript;
       ev_requestedAmount := args_requestedAmount event;
       ev_treasuryFee := args_treasuryFee event;
       ev_txMaxFee := args_txMaxFee event |}.

(** [getRedemptionRequestedEvents], given what [getEvents] resolves with. *)
Definition getRedemptionRequestedEvents (events : outcome (list EthersEvent))
  : outcome (list RedemptionRequestedEvent) :=
  events <- events ;;
  map_throwing parseRedemptionRequestedEvent events.
End Reads.

End EthereumBridgeReads.

(** ** The Ethereum Bridge handle: requesting a redemption *)

Module EthereumBridgeWrites.
Import HexCodec Ethers Retry Bitcoin.
Local Open Scope string_scope.
Local Open Scope Z_scope.
Local Open Scope js_scope.

(** The [mainUtxo] argument of the contract's methods. *)
Record MainUtxoParam : Type := {
  txHash : string;
  txOutputIndex : Z;
  txOutputValue : Z
}.

(** The method of the contract instance called here, answered per attempt. *)
Record BridgeTypechain : Type := {
  call_requestRedemption :
    string -> MainUtxoParam -> string -> Z -> nat
    -> outcome EthereumBridge.ContractTransaction
}.

Record Handle : Type := {
  _instance : BridgeTypechain;
  _totalRetryAttempts : nat
}.

Section Writes.
Variable computeHash160 : string -> string.
(** No rejection is expected here, so this value is never resolved with. *)
Variable completed : EthereumBridge.ContractTransaction.
Variable this : Handle.

Definition requestRedemption (walletPublicKey : string)
    (mainUtxo : BitcoinUtxo) (redeemerOutputScript : string) (amount : Z)
  : Run unit :=
  let walletPublicKeyHash := "0x" ++ computeHash160 walletPublicKey in
  let mainUtxoParam :=
    (* The Ethereum Bridge expects this hash to be in the Bitcoin internal
       byte order. *)
    {| txHash := Hex.toPrefixedString (Hex.reverse (transactionHash mainUtxo));
       txOutputIndex := outputIndex mainUtxo;
       txOutputValue := value mainUtxo |} in
  (* Convert the output script to raw bytes buffer. *)
  let rawRedeemerOutputScript := Buffer_from_hex redeemerOutputScript in
  (* Prefix the output script bytes buffer with 0x and its own length. *)
  let prefixedRawRedeemerOutputScript :=
    "0x" ++ to_hex
      (Buffer_from_array [Z.of_nat (List.length rawRedeemerOutputScript)]
         ++ rawRedeemerOutputScript) in
  let sent :=
    sendWithRetry
      (call_requestRedemption (_instance this) walletPublicKeyHash
         mainUtxoParam prefixedRawRedeemerOutputScript amount)
      (_totalRetryAttempts this)
      []
      completed in
  mkRun (attempts sent) (_ <- settled sent ;; Returned tt).
End Writes.

End EthereumBridgeWrites.

(** ** typescript/src/redemption.ts: the whole redemption *)

Module RedemptionFlow.
Import HexCodec Bcoin Redemption.
Local Open Scope string_scope.
Local Open Scope Z_scope.
Local Open Scope js_scope.

(** The part of the Bitcoin [Client] of [./bitcoin] the module calls. *)
Record BitcoinClient : Type := {
  getRawTransaction : string -> outcome RawTransaction;
  broadcast : RawTransaction -> outcome unit
}.

(** How a redemption went: the calls made on the transaction under
    construction, the transactions handed to [broadcast], and how the
    function settled. *)
Record Flow : Type := mkFlow {
  libraryCalls : list LibCall;
  broadcasts : list RawTransaction;
  finished : outcome unit
}.

Section Flow.
Variable createKeyRing : string -> option bool -> outcome KeyRing.
Variable hash160 : list byte -> list byte.
Variable dustThreshold : Script -> Z.
Variable MAX_FEE : Z.

Definition makeRedemptions (bitcoinClient : BitcoinClient) (bridge : Bridge)
    (walletPrivateKey : string) (mainUtxo : UnspentTransactionOutput)
    (redeemerOutputScripts : list string) (witness : bool) : Flow :=
  match getRawTransaction bitcoinClient (transactionHash mainUtxo) with
  | Thrown m => mkFlow [] [] (Thrown m)
  | Returned rawTransaction =>
      let mainUtxoWithRaw :=
        {| utxo := mainUtxo;
           raw := {| transactionHex := transactionHex rawTransaction |} |} in
      match fetchRedemptionRequests createKeyRing hash160 bridge
              walletPrivateKey redeemerOutputScripts with
      | Thrown m => mkFlow [] [] (Thrown m)
      | Returned redemptionRequests =>
          let built :=
            createRedemptionTransaction createKeyRing dustThreshold MAX_FEE
              walletPrivateKey mainUtxoWithRaw redemptionRequests witness in
          match settled built with
          | Thrown m => mkFlow (calls built) [] (Thrown m)
          | Returned transaction =>
              mkFlow (calls built) [transaction]
                     (broadcast bitcoinClient transaction)
          end
      end
  end.
End Flow.

(** A script with the record the ledger holds for it, and the request the
    fetch makes of them. *)
Definition fetched (bridge : Bridge) (walletPubKeyHash : string)
    (script : string) (request : RedemptionRequest) : Prop :=
  exists p, pendingRedemptions bridge walletPubKeyHash script = Returned p /\
            requestedAt p <> 0 /\
            request = spread_with_script p script.

End RedemptionFlow.

(** ** Sample values

    Concrete inputs on which the statements below are exercised. *)

Module Samples.
Import HexCodec Bcoin Redemption.
Local Open Scope string_scope.
Local Open Scope Z_scope.

(** A stand-in for the hash primitive, with digests of the right length. *)
Definition sample_hash (bs : list byte) : list byte := repeat x00 32.

Definition sample_txHash : Bitcoin.BitcoinTxHash :=
  Hex.from "c580e0e352570d90e303d912a506055ceeb0ee06f97dce6988c69941374f5479".

Definition sample_utxo : Bitcoin.BitcoinUtxo :=
  {| Bitcoin.transactionHash := sample_txHash;
     Bitcoin.outputIndex := 1;
     Bitcoin.value := 100000 |}.

Definition sample_walletPublicKeyHash : string :=
  "8db50eb52063ea9d98b3eac91489a90f738986f6".

(** A pay-to-public-key-hash script, 25 bytes. *)
Definition sample_script : string :=
  "76a9144130879211c54df460e484ddf9aac009cb38ee7488ac".

(** A script of 256 zero bytes. *)
Definition long_script : string := to_hex (repeat x00 256).

(** A contract whose reveal is rejected with [msg k] at attempt [k]. *)
Definition rejecting_contract (msg : nat -> string)
  : EthereumBridge.BridgeTypechain :=
  {| EthereumBridge.call_revealDeposit := fun _ _ k => Thrown (msg k);
     EthereumBridge.call_activeWalletPubKeyHash := fun _ => Thrown "unused";
     EthereumBridge.call_wallets := fun _ _ => Thrown "unused";
     EthereumBridge.call_contractReferences := fun _ => Thrown "unused" |}.

Definition rejecting_handle (msg : nat -> string) : EthereumBridge.Handle :=
  {| EthereumBridge._instance := rejecting_contract msg;
     EthereumBridge._totalRetryAttempts := 3 |}.

(** A transient failure, then the rejection of a deposit revealed before. *)
Definition revealed_before (k : nat) : string :=
  match k with
  | O => "network timeout"
  | S _ => "execution reverted: Deposit already revealed"
  end.

Definition sample_tx : EthereumBridge.ContractTransaction :=
  {| EthereumBridge.hash := "0x01" |}.

Definition sample_depositTx : EthereumBridge.BitcoinRawTxVectors :=
  {| EthereumBridge.version := "01000000"; EthereumBridge.inputs := "00";
     EthereumBridge.outputs := "00"; EthereumBridge.locktime := "00000000" |}.

Definition sample_deposit : EthereumBridge.DepositReceipt :=
  {| EthereumBridge.blindingFactor := "f9f0c90d00039523";
     EthereumBridge.walletPublicKeyHash := sample_walletPublicKeyHash;
     EthereumBridge.refundPublicKeyHash := sample_walletPublicKeyHash;
     EthereumBridge.refundLocktime := "60bcea61" |}.

Definition active_hash : list byte := repeat x11 20.

Definition sample_wallet : EthereumBridge.WalletStructOutput :=
  {| EthereumBridge.s_ecdsaWalletID := "0x4ad6b3ccbca81645865d8d0d575797a15528e98ced22f29a6f906d3259569863";
     EthereumBridge.s_mainUtxoHash := "0x00";
     EthereumBridge.s_pendingRedemptionsValue := 0;
     EthereumBridge.s_createdAt := 1654846075;
     EthereumBridge.s_movingFundsRequestedAt := 0;
     EthereumBridge.s_closingStartedAt := 0;
     EthereumBridge.s_pendingMovedFundsSweepRequestsCount := 0;
     EthereumBridge.s_state := 1;
     EthereumBridge.s_movingFundsTargetWalletsCommitmentHash := "0x00" |}.

(** A contract with an active wallet. *)
Definition active_handle : EthereumBridge.Handle :=
  {| EthereumBridge._instance :=
       {| EthereumBridge.call_revealDeposit := fun _ _ _ => Thrown "unused";
          EthereumBridge.call_activeWalletPubKeyHash := fun _ => Returned active_hash;
          EthereumBridge.call_wallets := fun _ _ => Returned sample_wallet;
          EthereumBridge.call_contractReferences := fun _ => Returned "0x5499f54b4a1cb4816eefcf78962040461be3d80b" |};
     EthereumBridge._totalRetryAttempts := 3 |}.

Definition sample_registry (registry : string) (id : Hex.t) : outcome Hex.t :=
  Returned (Hex.from "04aa").

Definition sample_compress (key : Hex.t) : outcome string := Returned "02aa".

(** The builder's collaborators. *)
Definition sample_ring : KeyRing :=
  {| getPublicKey := Buffer_from_hex "02aa"; getAddress := "wallet" |}.

Definition sample_createKeyRing (key : string) (witness : option bool)
  : outcome KeyRing := Returned sample_ring.

Definition sample_dustThreshold (s : Script) : Z := 546.

Definition sample_MAX_FEE : Z := 10000000.

(** The example of the specification: a funding output of 100,000 and one
    request [{requestedAmount: 50,000, treasuryFee: 100, txMaxFee: 400}]. *)
Definition funding_tx (amount : Z) : TX :=
  mkTX [] [ {| script := Script_fromAddress "wallet"; Bcoin.value := amount |} ]
       None.

Definition sample_mainUtxo (amount : Z) : UtxoWithRaw :=
  {| utxo := {| Redemption.transactionHash := "c580e0e3";
                Redemption.outputIndex := 0;
                Redemption.value := amount |};
     raw := {| transactionHex := funding_tx amount |} |}.

Definition sample_request (amount : Z) : RedemptionRequest :=
  {| redeemer := "0x82883a4c7a8dd73ef165deb402d432613615ced4";
     redeemerOutputScript := sample_script;
     requestedAmount := amount;
     treasuryFee := 100;
     txMaxFee := 400;
     requestedAt := 1650623240 |}.

(** A ledger that holds a request for [sample_script] only; its records
    carry no script of their own. *)
Definition sample_record (script : string) : RedemptionRequest :=
  {| redeemer := "0x82883a4c7a8dd73ef165deb402d432613615ced4";
     redeemerOutputScript := "";
     requestedAmount := 50000;
     treasuryFee := 100;
     txMaxFee := 400;
     requestedAt :=
       if String.eqb script sample_script then 1650623240 else 0 |}.

Definition sample_bridge : Bridge :=
  {| pendingRedemptions := fun _ script => Returned (sample_record script) |}.

End Samples.

(** ** Further sample values *)

Module MoreSamples.
Import HexCodec Bcoin Redemption Samples.
Local Open Scope string_scope.
Local Open Scope Z_scope.

(** A main UTXO whose value is 300 below what its raw output holds. *)
Definition understated_mainUtxo : UtxoWithRaw :=
  {| utxo := {| Redemption.transactionHash := "c580e0e3";
                Redemption.outputIndex := 0;
                Redemption.value := 100000 |};
     raw := {| transactionHex := funding_tx 100300 |} |}.

(** A main UTXO that names an output its raw transaction does not have. *)
Definition misplaced_mainUtxo : UtxoWithRaw :=
  {| utxo := {| Redemption.transactionHash := "c580e0e3";
                Redemption.outputIndex := 1;
                Redemption.value := 100000 |};
     raw := {| transactionHex := funding_tx 100000 |} |}.

(** A client that holds the funding transaction and accepts broadcasts. *)
Definition sample_client : RedemptionFlow.BitcoinClient :=
  {| RedemptionFlow.getRawTransaction :=
       fun _ => Returned {| transactionHex := funding_tx 100000 |};
     RedemptionFlow.broadcast := fun _ => Returned tt |}.

(** The transaction of the specification's example. *)
Definition sample_built : RawTransaction :=
  {| transactionHex :=
       mkTX [mkOutpoint (funding_tx 100000) 0]
            [ {| script := Script_fromRaw (Buffer_from_hex sample_script);
                 Bcoin.value := 49500 |};
              {| script := Script_fromAddress "wallet";
                 Bcoin.value := 50100 |} ]
            (Some sample_ring) |}.

Definition sample_address (s : string)
  : outcome EthereumBridge.ChainIdentifier :=
  Returned {| EthereumBridge.identifierHex := Hex.strip0x s |}.

Definition sample_computeHash160 (publicKey : string) : string :=
  sample_walletPublicKeyHash.

Definition sample_redemption : EthereumBridgeReads.RedemptionRequestTypechain :=
  {| EthereumBridgeReads.t_redeemer :=
       "0x82883a4c7a8dd73ef165deb402d432613615ced4";
     EthereumBridgeReads.t_requestedAmount := 50000;
     EthereumBridgeReads.t_treasuryFee := 100;
     EthereumBridgeReads.t_txMaxFee := 400;
     EthereumBridgeReads.t_requestedAt := 1650623240 |}.

Definition sample_depositRequest : EthereumBridgeReads.DepositRequestTypechain :=
  {| EthereumBridgeReads.t_depositor :=
       "0x82883a4c7a8dd73ef165deb402d432613615ced4";
     EthereumBridgeReads.t_amount := 10000;
     EthereumBridgeReads.t_vault := EthereumBridge.AddressZero;
     EthereumBridgeReads.t_revealedAt := 1654774330;
     EthereumBridgeReads.t_sweptAt := 0;
     EthereumBridgeReads.t_depositTreasuryFee := 200 |}.

(** A contract that holds one redemption request and one deposit. *)
Definition reading_handle : EthereumBridgeReads.Handle :=
  {| EthereumBridgeReads._instance :=
       {| EthereumBridgeReads.call_pendingRedemptions :=
            fun _ _ => Returned sample_redemption;
          EthereumBridgeReads.call_timedOutRedemptions :=
            fun _ _ => Returned sample_redemption;
          EthereumBridgeReads.call_deposits :=
            fun _ _ => Returned sample_depositRequest |};
     EthereumBridgeReads._totalRetryAttempts := 3 |}.

(** An event whose script carries its length, 25, as a prefix byte. *)
Definition sample_event : EthereumBridgeReads.EthersEvent :=
  {| EthereumBridgeReads.blockNumber := 100;
     EthereumBridgeReads.blockHash := "0x01";
     EthereumBridgeReads.transactionHash := "0x02";
     EthereumBridgeReads.args_walletPubKeyHash :=
       "0x" ++ sample_walletPublicKeyHash;
     EthereumBridgeReads.args_redeemer :=
       "0x82883a4c7a8dd73ef165deb402d432613615ced4";
     EthereumBridgeReads.args_redeemerOutputScript :=
       "0x19" ++ sample_script;
     EthereumBridgeReads.args_requestedAmount := 50000;
     EthereumBridgeReads.args_treasuryFee := 100;
     EthereumBridgeReads.args_txMaxFee := 400 |}.

Definition sample_read (prefixed : Hex.t) : outcome Z := Returned 1.

(** A contract that accepts every redemption request. *)
Definition requesting_handle : EthereumBridgeWrites.Handle :=
  {| EthereumBridgeWrites._instance :=
       {| EthereumBridgeWrites.call_requestRedemption :=
            fun _ _ _ _ _ => Returned sample_tx |};
     EthereumBridgeWrites._totalRetryAttempts := 3 |}.

End MoreSamples.

(** * Properties *)

(** ** Hexadecimal strings and byte encodings *)

Module HexFacts.
Import HexCodec.

Lemma byte_digits (b : byte) :
  unhex (hexdigit (Z_of_byte b / 16)) = Some (Z_of_byte b / 16) /\
  unhex (hexdigit (Z_of_byte b mod 16)) = Some (Z_of_byte b mod 16) /\
  byte_of_Z (16 * (Z_of_byte b / 16) + Z_of_byte b mod 16) = b.
Proof. destruct b; vm_compute; repeat split. Qed.

Lemma digits_strict_to_hex (bs : list byte) :
  digits_strict (to_hex bs) = Some bs.
Proof.
  induction bs as [|b rest IH]; [reflexivity|].
  cbn [to_hex digits_strict].
  destruct (byte_digits b) as (Hhi & Hlo & Hb).
  now rewrite Hhi, Hlo, IH, Hb.
Qed.

Lemma Buffer_from_hex_to_hex (bs : list byte) :
  Buffer_from_hex (to_hex bs) = bs.
Proof.
  induction bs as [|b rest IH]; [reflexivity|].
  cbn [to_hex Buffer_from_hex].
  destruct (byte_digits b) as (Hhi & Hlo & Hb).
  now rewrite Hhi, Hlo, IH, Hb.
Qed.

Lemma all_hex_to_hex (bs : list byte) : all_hex (to_hex bs) = true.
Proof.
  induction bs as [|b rest IH]; [reflexivity|].
  cbn [to_hex all_hex].
  destruct (byte_digits b) as (Hhi & Hlo & _).
  now rewrite Hhi, Hlo.
Qed.

Lemma arrayify_hexlify (bs : list byte) : arrayify (hexlify bs) = Returned bs.
Proof.
  unfold arrayify, hexlify. now rewrite all_hex_to_hex, digits_strict_to_hex.
Qed.

Lemma hexlify_inj (a b : list byte) : hexlify a = hexlify b -> a = b.
Proof.
  intros H. apply (f_equal arrayify) in H.
  rewrite !arrayify_hexlify in H. now injection H.
Qed.

Lemma Hex_from_hexlify (bs : list byte) : Hex.from (hexlify bs) = Hex.of_bytes bs.
Proof.
  unfold Hex.from, hexlify. cbn [Hex.strip0x].
  now rewrite Buffer_from_hex_to_hex.
Qed.

Lemma Z_of_byte_range (b : byte) : 0 <= Z_of_byte b < 256.
Proof. destruct b; vm_compute; split; congruence. Qed.

Lemma Z_of_byte_of_Z (z : Z) : Z_of_byte (byte_of_Z z) = z mod 256.
Proof.
  unfold byte_of_Z, Z_of_byte.
  assert (Hr : 0 <= z mod 256 < 256) by (apply Z.mod_pos_bound; lia).
  destruct (Byte.of_N (Z.to_N (z mod 256))) as [b|] eqn:E.
  - apply Byte.to_of_N in E. rewrite E. lia.
  - apply Byte.of_N_None_iff in E. lia.
Qed.

Lemma be_bytes_length (n : nat) (z : Z) : List.length (be_bytes n z) = n.
Proof.
  revert z; induction n as [|n IH]; intros z; [reflexivity|].
  cbn [be_bytes]. rewrite length_app, IH. cbn. lia.
Qed.

Lemma be_bytes_big_endian (n : nat) (z : Z) : be_bytes n z = big_endian n z.
Proof.
  revert z; induction n as [|n IH]; intros z; [reflexivity|].
  cbn [be_bytes]. rewrite IH. unfold big_endian.
  change (seq 0 (S n)) with (0%nat :: seq 1 n).
  cbn [rev]. rewrite map_app. cbn [map].
  change (256 ^ Z.of_nat 0) with 1. rewrite Z.div_1_r.
  f_equal. rewrite <- seq_shift, <- map_rev, map_map.
  apply map_ext. intros k.
  rewrite Nat2Z.inj_succ, Z.pow_succ_r by lia.
  rewrite Z.div_div by lia. reflexivity.
Qed.

Example big_endian_uint32 : big_endian 4 258 = [x00; x00; x01; x02].
Proof. reflexivity. Qed.

Example Buffer_from_hex_stops_at_bad_digit :
  Buffer_from_hex "76A9zz14" = [x76; xa9] /\ Buffer_from_hex "76a" = [x76].
Proof. split; reflexivity. Qed.

Example arrayify_refuses_odd_length :
  arrayify "0x76a" = Thrown "hex data is odd-length" /\
  arrayify "76a9" = Thrown "invalid arrayify value".
Proof. split; reflexivity. Qed.

End HexFacts.

(** ** Key derivation *)

Module KeyDerivationFacts.
Import HexCodec Ethers HexFacts Bitcoin EthereumBridge.
Local Open Scope string_scope.
Local Open Scope Z_scope.

Lemma pack_fixed_bytes (n : nat) (bs : list byte) :
  List.length bs = n -> (0 < n <= 32)%nat ->
  pack_value (BytesN n (hexlify bs)) = Returned bs.
Proof.
  intros Hlen Hn. unfold pack_value.
  destruct (n =? 0)%nat eqn:E0; [apply Nat.eqb_eq in E0; lia|].
  destruct (32 <? n)%nat eqn:E32; [apply Nat.ltb_lt in E32; lia|].
  cbn [orb]. rewrite arrayify_hexlify. cbn [bind].
  now rewrite Hlen, Nat.eqb_refl.
Qed.

Lemma pack_uint32 (v : Z) :
  0 <= v < 2 ^ 32 -> pack_value (UintN 32 v) = Returned (big_endian 4 v).
Proof.
  intros Hv. unfold pack_value, toTwos, zeroPad.
  change ((32 mod 8 =? 0) && (0 <? 32) && (32 <=? 256)) with true.
  change (Z.to_nat (32 / 8)) with 4%nat.
  change (2 ^ (8 * Z.of_nat 4)) with (2 ^ 32).
  destruct (v <? 0) eqn:En; [apply Z.ltb_lt in En; lia|].
  destruct (v <? 2 ^ 32) eqn:Eb; [|apply Z.ltb_ge in Eb; lia].
  cbv iota. now rewrite be_bytes_big_endian.
Qed.

Lemma pack_uint64 (v : Z) :
  0 <= v < 2 ^ 64 -> pack_value (UintN 64 v) = Returned (big_endian 8 v).
Proof.
  intros Hv. unfold pack_value, toTwos, zeroPad.
  change ((64 mod 8 =? 0) && (0 <? 64) && (64 <=? 256)) with true.
  change (Z.to_nat (64 / 8)) with 8%nat.
  change (2 ^ (8 * Z.of_nat 8)) with (2 ^ 64).
  destruct (v <? 0) eqn:En; [apply Z.ltb_lt in En; lia|].
  destruct (v <? 2 ^ 64) eqn:Eb; [|apply Z.ltb_ge in Eb; lia].
  cbv iota. now rewrite be_bytes_big_endian.
Qed.

Section Keccak.
Variable keccak_256 : list byte -> list byte.

Lemma solidityKeccak256_of_packed (args : list SolArg) (bs : list byte) :
  pack_values args = Returned bs ->
  solidityKeccak256 keccak_256 args = Returned (hexlify (keccak_256 bs)).
Proof.
  intros H. unfold solidityKeccak256, solidityPack, keccak256.
  rewrite H. cbn [bind]. now rewrite arrayify_hexlify.
Qed.

(** C7: the deposit key is the hash of the byte-reversed transaction hash
    followed by the output index as four big-endian bytes. *)
Theorem buildDepositKey_reversed_hash_then_index
    (depositTxHash : BitcoinTxHash) (depositOutputIndex : Z) :
  List.length (Hex.bytes depositTxHash) = 32%nat ->
  0 <= depositOutputIndex < 2 ^ 32 ->
  buildDepositKey keccak_256 depositTxHash depositOutputIndex =
    Returned (hexlify (keccak_256
      (rev (Hex.bytes depositTxHash) ++ big_endian 4 depositOutputIndex))).
Proof.
  intros Hlen Hidx. unfold buildDepositKey.
  apply solidityKeccak256_of_packed.
  cbn [pack_values]. unfold Hex.toPrefixedString, Hex.reverse. cbn [Hex.bytes].
  rewrite pack_fixed_bytes by (rewrite ?length_rev; auto; lia).
  rewrite pack_uint32 by assumption.
  cbn [bind]. now rewrite app_nil_r.
Qed.

(** C8: the UTXO hash is the hash of the byte-reversed transaction hash,
    the output index on four bytes and the value on eight bytes. *)
Theorem buildUtxoHash_reversed_hash_index_value (utxo : BitcoinUtxo) :
  List.length (Hex.bytes (transactionHash utxo)) = 32%nat ->
  0 <= outputIndex utxo < 2 ^ 32 ->
  0 <= value utxo < 2 ^ 64 ->
  buildUtxoHash keccak_256 utxo =
    Returned (Hex.of_bytes (keccak_256
      (rev (Hex.bytes (transactionHash utxo))
         ++ big_endian 4 (outputIndex utxo)
         ++ big_endian 8 (value utxo)))).
Proof.
  intros Hlen Hidx Hval. unfold buildUtxoHash.
  rewrite (solidityKeccak256_of_packed _
             (rev (Hex.bytes (transactionHash utxo))
                ++ big_endian 4 (outputIndex utxo)
                ++ big_endian 8 (value utxo))).
  - cbn [bind]. now rewrite Hex_from_hexlify.
  - cbn [pack_values]. unfold Hex.toPrefixedString, Hex.reverse.
    cbn [Hex.bytes].
    rewrite pack_fixed_bytes by (rewrite ?length_rev; auto; lia).
    rewrite pack_uint32, pack_uint64 by assumption.
    cbn [bind]. now rewrite app_nil_r.
Qed.

Hypothesis keccak_256_length : forall bs, List.length (keccak_256 bs) = 32%nat.

(** What [buildRedemptionKey] computes for any script: the prefix is the
    low byte of the script's length. *)
Lemma buildRedemptionKey_eq
    (walletPublicKeyHash redeemerOutputScript : string) (pkh : list byte) :
  arrayify ("0x" ++ walletPublicKeyHash) = Returned pkh ->
  List.length pkh = 20%nat ->
  buildRedemptionKey keccak_256 walletPublicKeyHash redeemerOutputScript =
    Returned (hexlify (keccak_256
      (keccak_256
         (byte_of_Z (Z.of_nat (List.length (Buffer_from_hex redeemerOutputScript)))
            :: Buffer_from_hex redeemerOutputScript)
       ++ pkh))).
Proof.
  intros Hpkh Hlen. unfold buildRedemptionKey.
  set (raw := Buffer_from_hex redeemerOutputScript).
  change ("0x" ++ to_hex (Buffer_from_array [Z.of_nat (List.length raw)] ++ raw))
    with (hexlify (byte_of_Z (Z.of_nat (List.length raw)) :: raw)).
  rewrite (solidityKeccak256_of_packed _
             (byte_of_Z (Z.of_nat (List.length raw)) :: raw)).
  2:{ cbn [pack_values pack_value]. rewrite arrayify_hexlify. cbn [bind].
      now rewrite app_nil_r. }
  cbn [bind]. apply solidityKeccak256_of_packed.
  cbn [pack_values].
  rewrite pack_fixed_bytes by (rewrite ?keccak_256_length; auto; lia).
  cbn [bind]. unfold pack_value. cbn [Nat.eqb Nat.ltb Nat.leb orb].
  rewrite Hpkh. cbn [bind]. rewrite Hlen. cbn [Nat.eqb bind].
  now rewrite app_nil_r.
Qed.

(** C2: the redemption key is the hash of {the hash of the script prefixed
    with one byte holding its length, then the 20-byte wallet public key
    hash}. *)
Theorem buildRedemptionKey_two_stage
    (walletPublicKeyHash redeemerOutputScript : string) (pkh : list byte) :
  arrayify ("0x" ++ walletPublicKeyHash) = Returned pkh ->
  List.length pkh = 20%nat ->
  (List.length (Buffer_from_hex redeemerOutputScript) <= 255)%nat ->
  exists lengthByte : byte,
    Z_of_byte lengthByte =
      Z.of_nat (List.length (Buffer_from_hex redeemerOutputScript)) /\
    buildRedemptionKey keccak_256 walletPublicKeyHash redeemerOutputScript =
      Returned (hexlify (keccak_256
        (keccak_256 (lengthByte :: Buffer_from_hex redeemerOutputScript)
         ++ pkh))).
Proof.
  intros Hpkh Hlen Hfit.
  exists (byte_of_Z (Z.of_nat (List.length (Buffer_from_hex redeemerOutputScript)))).
  split.
  - rewrite Z_of_byte_of_Z. apply Z.mod_small. lia.
  - now apply buildRedemptionKey_eq.
Qed.

End Keccak.

Import Samples.

Lemma sample_hash_length (bs : list byte) :
  List.length (sample_hash bs) = 32%nat.
Proof. reflexivity. Qed.

Lemma buildDepositKey_sample :
  List.length (Hex.bytes sample_txHash) = 32%nat /\
  0 <= 7 < 2 ^ 32 /\
  buildDepositKey sample_hash sample_txHash 7 =
    Returned (hexlify (sample_hash
      (rev (Hex.bytes sample_txHash) ++ big_endian 4 7))).
Proof.
  assert (H1 : List.length (Hex.bytes sample_txHash) = 32%nat) by reflexivity.
  assert (H2 : 0 <= 7 < 2 ^ 32) by lia.
  exact (conj H1 (conj H2
    (buildDepositKey_reversed_hash_then_index sample_hash sample_txHash 7
       H1 H2))).
Defined.

Lemma buildUtxoHash_sample :
  List.length (Hex.bytes (transactionHash sample_utxo)) = 32%nat /\
  0 <= outputIndex sample_utxo < 2 ^ 32 /\
  0 <= value sample_utxo < 2 ^ 64 /\
  buildUtxoHash sample_hash sample_utxo =
    Returned (Hex.of_bytes (sample_hash
      (rev (Hex.bytes (transactionHash sample_utxo))
         ++ big_endian 4 (outputIndex sample_utxo)
         ++ big_endian 8 (value sample_utxo)))).
Proof.
  assert (H1 : List.length (Hex.bytes (transactionHash sample_utxo)) = 32%nat)
    by reflexivity.
  assert (H2 : 0 <= outputIndex sample_utxo < 2 ^ 32) by (cbn; lia).
  assert (H3 : 0 <= value sample_utxo < 2 ^ 64) by (cbn; lia).
  exact (conj H1 (conj H2 (conj H3
    (buildUtxoHash_reversed_hash_index_value sample_hash sample_utxo
       H1 H2 H3)))).
Defined.

Lemma buildRedemptionKey_sample :
  arrayify ("0x" ++ sample_walletPublicKeyHash)
    = Returned (Buffer_from_hex sample_walletPublicKeyHash) /\
  List.length (Buffer_from_hex sample_walletPublicKeyHash) = 20%nat /\
  (List.length (Buffer_from_hex sample_script) <= 255)%nat /\
  exists lengthByte : byte,
    Z_of_byte lengthByte = Z.of_nat (List.length (Buffer_from_hex sample_script)) /\
    buildRedemptionKey sample_hash sample_walletPublicKeyHash sample_script =
      Returned (hexlify (sample_hash
        (sample_hash (lengthByte :: Buffer_from_hex sample_script)
         ++ Buffer_from_hex sample_walletPublicKeyHash))).
Proof.
  assert (H1 : arrayify ("0x" ++ sample_walletPublicKeyHash)
               = Returned (Buffer_from_hex sample_walletPublicKeyHash))
    by reflexivity.
  assert (H2 : List.length (Buffer_from_hex sample_walletPublicKeyHash) = 20%nat)
    by reflexivity.
  assert (H3 : (List.length (Buffer_from_hex sample_script) <= 255)%nat)
    by (cbn; lia).
  exact (conj H1 (conj H2 (conj H3
    (buildRedemptionKey_two_stage sample_hash sample_hash_length
       sample_walletPublicKeyHash sample_script _ H1 H2 H3)))).
Defined.

(** C4, the code at a script of 256 bytes: the derivation does not fail; it
    returns a key, whatever the hash function, and the prefix byte it
    hashes is zero, the prefix of an empty script, and not the script's
    own length that the comment in the code speaks of. *)
Theorem buildRedemptionKey_long_script_returns :
  List.length (Buffer_from_hex long_script) = 256%nat /\
  forall keccak_256 : list byte -> list byte,
    (forall bs, List.length (keccak_256 bs) = 32%nat) ->
    buildRedemptionKey keccak_256 sample_walletPublicKeyHash long_script =
      Returned (hexlify (keccak_256
        (keccak_256 (x00 :: repeat x00 256)
         ++ Buffer_from_hex sample_walletPublicKeyHash)%list)).
Proof.
  split; [now vm_compute|].
  intros keccak_256 Hlen.
  rewrite (buildRedemptionKey_eq keccak_256 Hlen sample_walletPublicKeyHash
             long_script (Buffer_from_hex sample_walletPublicKeyHash))
    by reflexivity.
  unfold long_script. rewrite Buffer_from_hex_to_hex.
  reflexivity.
Qed.

Lemma buildRedemptionKey_long_script_returns_sample :
  (forall bs, List.length (sample_hash bs) = 32%nat) /\
  buildRedemptionKey sample_hash sample_walletPublicKeyHash long_script =
    Returned (hexlify (sample_hash
      (sample_hash (x00 :: repeat x00 256)
       ++ Buffer_from_hex sample_walletPublicKeyHash)%list)).
Proof.
  exact (conj sample_hash_length
    (proj2 buildRedemptionKey_long_script_returns sample_hash
       sample_hash_length)).
Defined.

End KeyDerivationFacts.

(** ** Retrying remote calls *)

Module RetryFacts.
Import Retry.
Local Open Scope string_scope.

Lemma backoff_loop_map {A B : Type} (f : A -> B) (fn : nat -> outcome A)
    (budget attempt : nat) :
  backoff_loop (fun k => bind (fn k) (fun x => Returned (f x))) attempt budget =
  mkRun (attempts (backoff_loop fn attempt budget))
        (bind (settled (backoff_loop fn attempt budget))
              (fun x => Returned (f x))).
Proof.
  revert attempt; induction budget as [|budget IH]; intros attempt;
    cbn [backoff_loop]; destruct (fn attempt) as [v|m]; cbn [bind];
    try reflexivity.
  apply IH.
Qed.

(** Every attempt of the budget fails with an error that is not expected:
    the last error is surfaced, after the budget is used up. *)
Lemma send_loop_exhausted {T : Type} (fn : nat -> outcome T)
    (expected : list string) (completed : T) (msg : nat -> string)
    (budget attempt : nat) :
  (forall k, (attempt <= k <= attempt + budget)%nat ->
             fn k = Thrown (msg k) /\ expectedError expected (msg k) = false) ->
  send_loop fn expected completed attempt budget =
    mkRun (S (attempt + budget)) (Thrown (msg (attempt + budget)%nat)).
Proof.
  revert attempt; induction budget as [|budget IH]; intros attempt H;
    cbn [send_loop]; destruct (H attempt ltac:(lia)) as [Hfn Hno];
    rewrite Hfn, Hno.
  - now rewrite Nat.add_0_r.
  - rewrite IH by (intros k Hk; apply H; lia).
    now rewrite Nat.add_succ_comm.
Qed.

(** Attempts fail with other errors until one, within the budget, fails
    with an expected error: the call settles as completed there. *)
Lemma send_loop_expected {T : Type} (fn : nat -> outcome T)
    (expected : list string) (completed : T) (msg : nat -> string)
    (last budget attempt : nat) :
  (attempt <= last <= attempt + budget)%nat ->
  (forall k, (attempt <= k < last)%nat ->
             fn k = Thrown (msg k) /\ expectedError expected (msg k) = false) ->
  fn last = Thrown (msg last) ->
  expectedError expected (msg last) = true ->
  send_loop fn expected completed attempt budget =
    mkRun (S last) (Returned completed).
Proof.
  revert attempt; induction budget as [|budget IH];
    intros attempt Hrange Hbefore Hlast Hexp; cbn [send_loop].
  - assert (last = attempt) by lia; subst last. now rewrite Hlast, Hexp.
  - destruct (Nat.eq_dec last attempt) as [->|Hne].
    + now rewrite Hlast, Hexp.
    + destruct (Hbefore attempt ltac:(lia)) as [Hfn Hno].
      rewrite Hfn, Hno. apply IH; auto; [lia|].
      intros k Hk; apply Hbefore; lia.
Qed.

Example includes_is_substring_search :
  includes "Deposit already revealed"
           "execution reverted: Deposit already revealed" = true /\
  includes "Deposit already revealed"
           "execution reverted: already revealed" = false.
Proof. split; reflexivity. Qed.

End RetryFacts.

(** ** The gateway's remote calls *)

Module GatewayFacts.
Import HexCodec HexFacts Retry RetryFacts EthereumBridge.
Local Open Scope string_scope.

Section Calls.
Variable WalletState : Type.
Variable WalletState_parse : Z -> WalletState.
Variable registry_getWalletPublicKey : string -> Hex.t -> outcome Hex.t.
Variable compressPublicKey : Hex.t -> outcome string.
Variable completed : ContractTransaction.
Variable this : Handle.

(** C5, with the substring the caller enumerates: when the remote call of
    a reveal fails at every attempt, a failure whose message contains
    "Deposit already revealed", met within the attempts after failures
    with other messages, completes the reveal without an error; and when
    no message contains it the reveal uses up its attempts and throws the
    last message unchanged. *)
Theorem revealDeposit_expected_or_exhausted
    (depositTx : BitcoinRawTxVectors) (depositOutputIndex : Z)
    (deposit : DepositReceipt) (vault : option ChainIdentifier)
    (msg : nat -> string) :
  (1 <= _totalRetryAttempts this)%nat ->
  (forall p r k, call_revealDeposit (_instance this) p r k = Thrown (msg k)) ->
  (forall last,
     (last < _totalRetryAttempts this)%nat ->
     (forall k, (k < last)%nat ->
                includes "Deposit already revealed" (msg k) = false) ->
     includes "Deposit already revealed" (msg last) = true ->
     revealDeposit completed this depositTx depositOutputIndex deposit vault =
       mkRun (S last) (Returned (hash completed))) /\
  ((forall k, (k < _totalRetryAttempts this)%nat ->
              includes "Deposit already revealed" (msg k) = false) ->
   revealDeposit completed this depositTx depositOutputIndex deposit vault =
     mkRun (_totalRetryAttempts this)
           (Thrown (msg (Nat.pred (_totalRetryAttempts this))))).
Proof.
  intros Hpos Hfail.
  assert (Hexp : forall m, expectedError ["Deposit already revealed"] m =
                           includes "Deposit already revealed" m).
  { intros m. unfold expectedError. cbn [existsb]. apply orb_false_r. }
  split.
  - intros last Hlast Hbefore Hyes. unfold revealDeposit, sendWithRetry.
    rewrite (send_loop_expected _ _ _ msg last).
    + reflexivity.
    + lia.
    + intros k Hk. split; [apply Hfail|]. rewrite Hexp. apply Hbefore; lia.
    + apply Hfail.
    + now rewrite Hexp.
  - intros Hnone. unfold revealDeposit, sendWithRetry.
    rewrite (send_loop_exhausted _ _ _ msg).
    + cbn [Nat.add attempts settled bind]. f_equal. lia.
    + intros k Hk. cbn [Nat.add] in Hk. split; [apply Hfail|].
      rewrite Hexp. apply Hnone; lia.
Qed.

Lemma zero_hash_string :
  "0x0000000000000000000000000000000000000000" = hexlify (repeat x00 20).
Proof. reflexivity. Qed.

(** C10: [undefined] is returned exactly for the all-zero hash; for any
    other hash the wallet is resolved and its compressed public key is
    returned. *)
Theorem activeWalletPublicKey_undefined_iff_zero_hash
    (activeHash : list byte) :
  List.length activeHash = 20%nat ->
  settled (backoffRetrier (_totalRetryAttempts this)
             (call_activeWalletPubKeyHash (_instance this)))
    = Returned activeHash ->
  (activeWalletPublicKey WalletState WalletState_parse registry_getWalletPublicKey
     compressPublicKey this = Returned None
   <-> activeHash = repeat x00 20) /\
  (forall wallet registry uncompressed compressed,
     activeHash <> repeat x00 20 ->
     settled (backoffRetrier (_totalRetryAttempts this)
                (call_wallets (_instance this) (hexlify activeHash)))
       = Returned wallet ->
     settled (backoffRetrier (_totalRetryAttempts this)
                (call_contractReferences (_instance this)))
       = Returned registry ->
     registry_getWalletPublicKey registry (Hex.from (s_ecdsaWalletID wallet))
       = Returned uncompressed ->
     compressPublicKey uncompressed = Returned compressed ->
     activeWalletPublicKey WalletState WalletState_parse registry_getWalletPublicKey
       compressPublicKey this
       = Returned (Some (Hex.toString (Hex.from compressed)))).
Proof.
  intros Hlen Hcall.
  assert (Hhash :
    settled (backoffRetrier (_totalRetryAttempts this)
      (fun attempt =>
         bind (call_activeWalletPubKeyHash (_instance this) attempt)
              (fun h => Returned (hexlify h))))
    = Returned (hexlify activeHash)).
  { unfold backoffRetrier in *. rewrite backoff_loop_map. cbn [settled].
    now rewrite Hcall. }
  unfold activeWalletPublicKey. rewrite Hhash. cbn [bind].
  rewrite zero_hash_string.
  destruct (String.eqb (hexlify activeHash) (hexlify (repeat x00 20))) eqn:E.
  - apply String.eqb_eq, hexlify_inj in E. split; [tauto|].
    intros; contradiction.
  - assert (Hne : activeHash <> repeat x00 20).
    { intros ->. now rewrite String.eqb_refl in E. }
    split.
    + split; [|intros; contradiction].
      destruct (wallets _ _ _ _ _) as [w|m]; cbn [bind]; discriminate.
    + intros wallet registry uncompressed compressed _ Hw Hreg Hpk Hc.
      unfold wallets. rewrite Hex_from_hexlify.
      unfold Hex.toPrefixedString. cbn [Hex.bytes]. rewrite Hw. cbn [bind].
      unfold parseWalletDetails, getWalletCompressedPublicKey, walletRegistry.
      rewrite Hreg. cbn [bind]. rewrite Hpk. cbn [bind]. rewrite Hc.
      reflexivity.
Qed.

End Calls.

Import Samples.

Lemma revealDeposit_sample :
  (1 <= _totalRetryAttempts (rejecting_handle revealed_before))%nat /\
  (forall p r k,
     call_revealDeposit (_instance (rejecting_handle revealed_before)) p r k
       = Thrown (revealed_before k)) /\
  revealDeposit sample_tx (rejecting_handle revealed_before)
    sample_depositTx 0 sample_deposit None
    = mkRun 2 (Returned (hash sample_tx)).
Proof.
  assert (H1 : (1 <= _totalRetryAttempts (rejecting_handle revealed_before))%nat)
    by (cbn; lia).
  assert (H2 : forall p r k,
            call_revealDeposit (_instance (rejecting_handle revealed_before)) p r k
              = Thrown (revealed_before k))
    by reflexivity.
  refine (conj H1 (conj H2 _)).
  refine (proj1 (revealDeposit_expected_or_exhausted sample_tx
                   (rejecting_handle revealed_before) sample_depositTx 0
                   sample_deposit None revealed_before H1 H2) 1%nat _ _ _).
  - cbn; lia.
  - intros k Hk. assert (k = 0%nat) as -> by lia. reflexivity.
  - reflexivity.
Defined.

(** C5 as stated fails: a rejection whose message contains "already
    revealed", but not the substring the caller enumerates, is retried
    like any other failure and thrown in the end. *)
Lemma revealDeposit_other_wording_is_thrown :
  includes "already revealed" "execution reverted: already revealed" = true /\
  forall completed depositTx depositOutputIndex deposit vault,
    revealDeposit completed
      (rejecting_handle (fun _ => "execution reverted: already revealed"))
      depositTx depositOutputIndex deposit vault
    = mkRun 3 (Thrown "execution reverted: already revealed").
Proof. split; reflexivity. Qed.

Lemma activeWalletPublicKey_sample :
  List.length active_hash = 20%nat /\
  settled (backoffRetrier (_totalRetryAttempts active_handle)
             (call_activeWalletPubKeyHash (_instance active_handle)))
    = Returned active_hash /\
  activeWalletPublicKey unit (fun _ => tt) sample_registry sample_compress
    active_handle = Returned (Some "02aa").
Proof.
  assert (H1 : List.length active_hash = 20%nat) by reflexivity.
  assert (H2 : settled (backoffRetrier (_totalRetryAttempts active_handle)
                          (call_activeWalletPubKeyHash (_instance active_handle)))
               = Returned active_hash) by reflexivity.
  refine (conj H1 (conj H2 _)).
  refine (proj2 (activeWalletPublicKey_undefined_iff_zero_hash unit
                   (fun _ => tt) sample_registry sample_compress active_handle
                   active_hash H1 H2)
            sample_wallet "0x5499f54b4a1cb4816eefcf78962040461be3d80b"
            (Hex.from "04aa") "02aa" _ _ _ _ _);
    try reflexivity.
  intros H. discriminate H.
Defined.

End GatewayFacts.

(** ** Fetching the pending redemption requests *)

Module FetchFacts.
Import HexCodec Bcoin Redemption RedemptionSpec.
Local Open Scope Z_scope.

Section Fetch.
Variable createKeyRing : string -> option bool -> outcome KeyRing.
Variable hash160 : list byte -> list byte.
Variable bridge : Bridge.

Lemma fetch_loop_pending (w : string) (scripts : list string) :
  forall acc,
  Forall (pending bridge w) scripts ->
  exists found,
    fetch_loop bridge w scripts acc = Returned (acc ++ found) /\
    Forall2 (fun script request =>
               exists p, pendingRedemptions bridge w script = Returned p /\
                         request = spread_with_script p script)
            scripts found.
Proof.
  induction scripts as [|s rest IH]; intros acc Hall.
  - exists []. cbn [fetch_loop]. rewrite app_nil_r. split; constructor.
  - inversion Hall as [|? ? (p & Hp & Hat) Hrest]; subst.
    destruct (IH (acc ++ [spread_with_script p s])%list Hrest)
      as (found & Hrun & Hfound).
    exists (spread_with_script p s :: found). split.
    + cbn [fetch_loop]. rewrite Hp. cbn [bind].
      destruct (requestedAt p =? 0) eqn:E; [apply Z.eqb_eq in E; contradiction|].
      rewrite Hrun. now rewrite <- app_assoc.
    + constructor; [exists p; auto | assumption].
Qed.

Lemma fetch_loop_absent (w : string) (found : list string) :
  forall acc script rest p,
  Forall (pending bridge w) found ->
  pendingRedemptions bridge w script = Returned p ->
  requestedAt p = 0 ->
  fetch_loop bridge w (found ++ script :: rest) acc = Thrown NotFound.
Proof.
  induction found as [|s more IH]; intros acc script rest p Hall Hp Hat.
  - cbn [app fetch_loop]. rewrite Hp. cbn [bind]. now rewrite Hat.
  - inversion Hall as [|? ? (q & Hq & Hqat) Hrest]; subst.
    cbn [app fetch_loop]. rewrite Hq. cbn [bind].
    destruct (requestedAt q =? 0) eqn:E; [apply Z.eqb_eq in E; contradiction|].
    now apply (IH _ script rest p).
Qed.

(** C6: a lookup that answers with a zero [requestedAt] makes the fetch
    throw the not-found error; a lookup that answers with a non-zero
    [requestedAt] has its request returned: the redeemer, the amounts and
    the timestamp of the record the lookup answered with, under the script
    asked for. *)
Theorem fetchRedemptionRequests_zero_timestamp_is_NotFound
    (walletPrivateKey : string) (ring : KeyRing) :
  createKeyRing walletPrivateKey None = Returned ring ->
  (forall found script rest p,
     Forall (pending bridge (walletPubKeyHash_of hash160 ring)) found ->
     pendingRedemptions bridge (walletPubKeyHash_of hash160 ring) script = Returned p ->
     requestedAt p = 0 ->
     fetchRedemptionRequests createKeyRing hash160 bridge walletPrivateKey
       (found ++ script :: rest) = Thrown NotFound) /\
  (forall script p,
     pendingRedemptions bridge (walletPubKeyHash_of hash160 ring) script = Returned p ->
     requestedAt p <> 0 ->
     fetchRedemptionRequests createKeyRing hash160 bridge walletPrivateKey
       [script]
     = Returned [ {| redeemer := redeemer p;
                     redeemerOutputScript := script;
                     requestedAmount := requestedAmount p;
                     treasuryFee := treasuryFee p;
                     txMaxFee := txMaxFee p;
                     requestedAt := requestedAt p |} ]).
Proof.
  intros Hring. unfold fetchRedemptionRequests. rewrite Hring. cbn [bind].
  fold (walletPubKeyHash_of hash160 ring). split.
  - intros found script rest p Hall Hp Hat.
    now apply (fetch_loop_absent _ found [] script rest p).
  - intros script p Hp Hat. cbn [fetch_loop]. rewrite Hp. cbn [bind].
    destruct (requestedAt p =? 0) eqn:E; [apply Z.eqb_eq in E; contradiction|].
    reflexivity.
Qed.

(** C9: when every lookup finds its request, the fetch returns one request
    per script, in the order of the scripts, each carrying the script it
    was asked for in place of what the remote record held. *)
Theorem fetchRedemptionRequests_follows_scripts
    (walletPrivateKey : string) (ring : KeyRing) (scripts : list string) :
  createKeyRing walletPrivateKey None = Returned ring ->
  Forall (pending bridge (walletPubKeyHash_of hash160 ring)) scripts ->
  exists requests,
    fetchRedemptionRequests createKeyRing hash160 bridge walletPrivateKey
      scripts = Returned requests /\
    List.length requests = List.length scripts /\
    map redeemerOutputScript requests = scripts /\
    forall i script, nth_error scripts i = Some script ->
      exists p,
        pendingRedemptions bridge (walletPubKeyHash_of hash160 ring) script
          = Returned p /\
        nth_error requests i = Some (spread_with_script p script).
Proof.
  intros Hring Hall. unfold fetchRedemptionRequests. rewrite Hring.
  cbn [bind]. fold (walletPubKeyHash_of hash160 ring).
  destruct (fetch_loop_pending (walletPubKeyHash_of hash160 ring) scripts [] Hall)
    as (found & Hrun & Hfound).
  exists found. cbn [app] in Hrun. split; [assumption|].
  clear Hrun Hall. induction Hfound as [|s r ss rs (p & Hp & ->) _ IH].
  - repeat split; auto. intros [|i] script H; discriminate H.
  - destruct IH as (Hlen & Hmap & Hnth). repeat split.
    + cbn [List.length]. now rewrite Hlen.
    + cbn [map spread_with_script redeemerOutputScript]. now rewrite Hmap.
    + intros [|i] script H; cbn [nth_error] in *.
      * injection H as <-. exists p. auto.
      * now apply Hnth.
Qed.

End Fetch.

Import Samples.

Lemma sample_script_pending :
  pending sample_bridge (walletPubKeyHash_of sample_hash sample_ring)
    sample_script.
Proof.
  eexists. split; [reflexivity|]. cbn. discriminate.
Qed.

Lemma fetchRedemptionRequests_absent_sample :
  sample_createKeyRing "key" None = Returned sample_ring /\
  fetchRedemptionRequests sample_createKeyRing sample_hash sample_bridge "key"
    [sample_script; "0014"%string] = Thrown NotFound /\
  fetchRedemptionRequests sample_createKeyRing sample_hash sample_bridge "key"
    [sample_script]
    = Returned [ {| redeemer := "0x82883a4c7a8dd73ef165deb402d432613615ced4";
                    redeemerOutputScript := sample_script;
                    requestedAmount := 50000;
                    treasuryFee := 100;
                    txMaxFee := 400;
                    requestedAt := 1650623240 |} ].
Proof.
  assert (H1 : sample_createKeyRing "key" None = Returned sample_ring)
    by reflexivity.
  refine (conj H1 _).
  pose proof (fetchRedemptionRequests_zero_timestamp_is_NotFound
                sample_createKeyRing sample_hash sample_bridge "key"
                sample_ring H1) as [Habsent Hfound].
  split.
  - refine (Habsent [sample_script] "0014"%string []
              (sample_record "0014") _ eq_refl eq_refl).
    constructor; [exact sample_script_pending|constructor].
  - refine (Hfound sample_script (sample_record sample_script) eq_refl _).
    cbn. discriminate.
Defined.

Lemma fetchRedemptionRequests_order_sample :
  sample_createKeyRing "key" None = Returned sample_ring /\
  Forall (pending sample_bridge (walletPubKeyHash_of sample_hash sample_ring))
         [sample_script; sample_script] /\
  exists requests,
    fetchRedemptionRequests sample_createKeyRing sample_hash sample_bridge
      "key" [sample_script; sample_script] = Returned requests /\
    List.length requests = 2%nat /\
    map redeemerOutputScript requests = [sample_script; sample_script] /\
    forall i script,
      nth_error [sample_script; sample_script] i = Some script ->
      exists p,
        pendingRedemptions sample_bridge
          (walletPubKeyHash_of sample_hash sample_ring) script = Returned p /\
        nth_error requests i = Some (spread_with_script p script).
Proof.
  assert (H1 : sample_createKeyRing "key" None = Returned sample_ring)
    by reflexivity.
  assert (H2 : Forall (pending sample_bridge
                         (walletPubKeyHash_of sample_hash sample_ring))
                      [sample_script; sample_script])
    by (repeat constructor; exact sample_script_pending).
  exact (conj H1 (conj H2
    (fetchRedemptionRequests_follows_scripts sample_createKeyRing sample_hash
       sample_bridge "key" sample_ring [sample_script; sample_script] H1 H2))).
Defined.

End FetchFacts.

(** ** Building the redemption transaction *)

Module BuilderFacts.
Import HexCodec Bcoin Redemption RedemptionSpec.
Local Open Scope Z_scope.

Lemma bindT_lift_returned {A B : Type} (a : A) (k : A -> Traced B) :
  bindT (lift (Returned a)) k = k a.
Proof. unfold bindT, lift. cbn. now destruct (k a). Qed.

Lemma bindT_lift_thrown {A B : Type} (m : string) (k : A -> Traced B) :
  bindT (lift (Thrown m)) k = mkTraced [] (Thrown m).
Proof. reflexivity. Qed.

Lemma bindT_returned {A B : Type} (c : Traced A) (k : A -> Traced B)
    (l : list LibCall) (a : A) (l' : list LibCall) (r : outcome B) :
  c = mkTraced l (Returned a) -> k a = mkTraced l' r ->
  bindT c k = mkTraced (l ++ l') r.
Proof. intros -> Hk. unfold bindT. cbn. now rewrite Hk. Qed.

Lemma bindT_thrown {A B : Type} (c : Traced A) (k : A -> Traced B)
    (l : list LibCall) (m : string) :
  c = mkTraced l (Thrown m) -> bindT c k = mkTraced l (Thrown m).
Proof. now intros ->. Qed.

Lemma toNumber_safe (b : Z) :
  - MAX_SAFE_INTEGER <= b <= MAX_SAFE_INTEGER -> toNumber b = Returned b.
Proof.
  intros H. unfold toNumber.
  destruct (- MAX_SAFE_INTEGER <=? b) eqn:E1; [|apply Z.leb_gt in E1; lia].
  destruct (b <=? MAX_SAFE_INTEGER) eqn:E2; [|apply Z.leb_gt in E2; lia].
  reflexivity.
Qed.

Lemma addOutput_uint (tx : MTX) (o : Output) :
  0 <= Bcoin.value o <= MAX_SAFE_INTEGER ->
  addOutput tx o =
    mkTraced [AddOutput o]
      (Returned {| mtx_inputs := mtx_inputs tx;
                   mtx_outputs := mtx_outputs tx ++ [o];
                   mtx_signedBy := mtx_signedBy tx |}).
Proof.
  intros H. unfold addOutput.
  destruct (0 <=? Bcoin.value o) eqn:E1; [|apply Z.leb_gt in E1; lia].
  destruct (Bcoin.value o <=? MAX_SAFE_INTEGER) eqn:E2;
    [|apply Z.leb_gt in E2; lia].
  reflexivity.
Qed.

Lemma outputValue_app (a b : list Output) :
  outputValue (a ++ b) = outputValue a + outputValue b.
Proof.
  unfold outputValue. induction a as [|o a IH]; cbn [app fold_right]; lia.
Qed.

Lemma outputValue_redemptionOutputs (requests : list RedemptionRequest) :
  outputValue (map redemptionOutput requests) = totalOutputs requests.
Proof.
  induction requests as [|r rest IH]; [reflexivity|].
  cbn [map outputValue fold_right totalOutputs].
  fold (outputValue (map redemptionOutput rest)). fold (totalOutputs rest).
  rewrite IH. reflexivity.
Qed.

Lemma process_requests_safe (requests : list RedemptionRequest) :
  forall (tx : MTX) (fee total : Z),
  Forall safe_request requests ->
  process_requests requests tx fee total =
    mkTraced (map AddOutput (map redemptionOutput requests))
      (Returned ({| mtx_inputs := mtx_inputs tx;
                    mtx_outputs := mtx_outputs tx ++ map redemptionOutput requests;
                    mtx_signedBy := mtx_signedBy tx |},
                 fee + totalFee requests,
                 total + totalOutputs requests)).
Proof.
  induction requests as [|r rest IH]; intros tx fee total Hall.
  - cbn [process_requests map totalFee totalOutputs fold_right].
    rewrite app_nil_r, !Z.add_0_r. now destruct tx.
  - inversion Hall as [|? ? [Hout Hfee] Hrest]; subst.
    assert (Hmax : 0 < MAX_SAFE_INTEGER) by reflexivity.
    cbn [process_requests]. fold (outputAmount r).
    rewrite (toNumber_safe (outputAmount r)) by lia.
    rewrite bindT_lift_returned.
    rewrite (toNumber_safe (txMaxFee r)) by lia.
    rewrite !bindT_lift_returned.
    change {| script := Script_fromRaw (Buffer_from_hex (redeemerOutputScript r));
              Bcoin.value := outputAmount r |} with (redemptionOutput r).
    rewrite (bindT_returned _ _ _ _ _ _
               (addOutput_uint tx (redemptionOutput r) Hout)
               (IH _ _ _ Hrest)).
    cbn [mtx_inputs mtx_outputs mtx_signedBy map app totalFee totalOutputs
         fold_right].
    fold (totalFee rest). fold (totalOutputs rest).
    rewrite <- app_assoc. cbn [app].
    now rewrite <- !Z.add_assoc.
Qed.

Lemma calls_bindT {A B : Type} (c : Traced A) (k : A -> Traced B)
    (x : LibCall) :
  In x (calls (bindT c k)) ->
  In x (calls c) \/ exists a, settled c = Returned a /\ In x (calls (k a)).
Proof.
  unfold bindT. destruct (settled c) as [a|m]; cbn [calls]; [|auto].
  rewrite in_app_iff. intros [H|H]; eauto.
Qed.

(** The loop never signs. *)
Lemma process_requests_no_sign (requests : list RedemptionRequest) :
  forall (tx : MTX) (fee total : Z) (ring : KeyRing),
  ~ In (Sign ring) (calls (process_requests requests tx fee total)).
Proof.
  induction requests as [|r rest IH]; intros tx fee total ring H;
    cbn [process_requests] in H; [exact H|].
  apply calls_bindT in H as [[]|(n & _ & H)].
  apply calls_bindT in H as [[]|(f & _ & H)].
  apply calls_bindT in H as [[]|(v & _ & H)].
  apply calls_bindT in H as [[H|[]]|(tx' & _ & H)]; [discriminate H|].
  now apply IH in H.
Qed.

Lemma bindT_pure {A B : Type} (a : A) (k : A -> Traced B) :
  bindT (pure a) k = k a.
Proof. apply bindT_lift_returned. Qed.

Lemma sign_after {A B : Type} (c : Traced A) (k : A -> Traced B)
    (ring : KeyRing) (m : string) :
  ~ In (Sign ring) (calls c) ->
  In (Sign ring) (calls (bindT c k)) ->
  settled (bindT c k) = Thrown m ->
  exists a, In (Sign ring) (calls (k a)) /\ settled (k a) = Thrown m.
Proof.
  intros Hc Hin Hthrown. unfold bindT in *.
  destruct (settled c) as [a|m']; cbn [calls settled] in *; [|contradiction].
  apply in_app_iff in Hin as [Hin|Hin]; [contradiction|]. eauto.
Qed.

Lemma lift_no_calls {A : Type} (c : outcome A) (x : LibCall) :
  ~ In x (calls (lift c)).
Proof. intros []. Qed.

Lemma totals_nonneg (requests : list RedemptionRequest) :
  Forall (fun r => 0 <= outputAmount r /\ 0 <= txMaxFee r) requests ->
  0 <= totalOutputs requests /\ 0 <= totalFee requests.
Proof.
  induction 1 as [|r rest [Ho Hf] _ [IHo IHf]];
    cbn [totalOutputs totalFee fold_right]; [lia|].
  fold (totalOutputs rest). fold (totalFee rest). lia.
Qed.

Lemma safe_requests_of_total (requests : list RedemptionRequest) (bound : Z) :
  Forall (fun r => 0 <= outputAmount r /\ 0 <= txMaxFee r) requests ->
  totalOutputs requests + totalFee requests <= bound <= MAX_SAFE_INTEGER ->
  Forall safe_request requests.
Proof.
  induction 1 as [|r rest [Ho Hf] Hrest IH]; intros Hb; constructor.
  - destruct (totals_nonneg rest Hrest) as [Hto Htf].
    cbn [totalOutputs totalFee fold_right] in Hb.
    fold (totalOutputs rest) in Hb. fold (totalFee rest) in Hb.
    unfold safe_request. lia.
  - apply IH. destruct (totals_nonneg rest Hrest) as [Hto Htf].
    cbn [totalOutputs totalFee fold_right] in Hb.
    fold (totalOutputs rest) in Hb. fold (totalFee rest) in Hb. lia.
Qed.

Section Builder.
Variable createKeyRing : string -> option bool -> outcome KeyRing.
Variable dustThreshold : Script -> Z.
Variable MAX_FEE : Z.
Hypothesis dustThreshold_positive : forall s, 0 < dustThreshold s.

(** Funding with a single coin that holds exactly the outputs and the fee:
    the coin becomes the only input and no output is added. *)
Lemma fund_exact (tx : MTX) (coin : Coin) (changeAddress : string) (fee : Z) :
  mtx_inputs tx = [] -> 0 <= fee <= MAX_FEE ->
  coin_value coin = outputValue (mtx_outputs tx) + fee ->
  fund dustThreshold MAX_FEE tx [coin] changeAddress fee =
    mkTraced [Fund [coin] fee]
      (Returned {| mtx_inputs := [coin];
                   mtx_outputs := mtx_outputs tx;
                   mtx_signedBy := mtx_signedBy tx |}).
Proof.
  intros Hin Hfee Hval. unfold fund. rewrite Hin. cbn [List.length Nat.eqb negb].
  destruct (fee <? 0) eqn:E; [apply Z.ltb_lt in E; lia|].
  rewrite (Z.min_l fee MAX_FEE) by lia.
  assert (Hsel : selectCoins [coin] [] (outputValue (mtx_outputs tx) + fee)
                 = [coin]).
  { cbn [selectCoins app]. now destruct (_ <=? _). }
  rewrite Hsel. cbn [inputValue fold_right]. rewrite Hval, Z.add_0_r.
  rewrite Z.ltb_irrefl, Z.sub_diag. cbn [script].
  pose proof (dustThreshold_positive (Script_fromAddress changeAddress)) as Hd.
  destruct (0 <? _) eqn:E0; [reflexivity|apply Z.ltb_ge in E0; lia].
Qed.

(** What the builder does when the main UTXO is the output its raw
    transaction holds at the given index, no output amount or fee is
    negative, and the funding covers outputs and fees. *)
Lemma createRedemptionTransaction_funded
    (walletPrivateKey : string) (mainUtxo : UtxoWithRaw)
    (requests : list RedemptionRequest) (witness : bool)
    (ring : KeyRing) (fundingOutput : Output) :
  requests <> [] ->
  createKeyRing walletPrivateKey (Some witness) = Returned ring ->
  0 <= outputIndex (utxo mainUtxo) ->
  nth_error (tx_outputs (transactionHex (raw mainUtxo)))
            (Z.to_nat (outputIndex (utxo mainUtxo))) = Some fundingOutput ->
  Bcoin.value fundingOutput = value (utxo mainUtxo) ->
  Forall (fun r => 0 <= outputAmount r /\ 0 <= txMaxFee r) requests ->
  totalOutputs requests + totalFee requests <= value (utxo mainUtxo)
    <= MAX_SAFE_INTEGER ->
  totalFee requests <= MAX_FEE ->
  createRedemptionTransaction createKeyRing dustThreshold MAX_FEE
    walletPrivateKey
    mainUtxo requests witness =
  mkTraced
    (map AddOutput
       (map redemptionOutput requests
          ++ changeOutputs (getAddress ring) (value (utxo mainUtxo)) requests)
     ++ [Fund [fundingCoin mainUtxo fundingOutput] (totalFee requests);
         Sign ring])
    (Returned {| transactionHex := redemptionTransaction ring mainUtxo requests |}).
Proof.
  intros Hne Hring Hidx Hnth Hval Hamounts Hfunds Hcap.
  destruct (totals_nonneg requests Hamounts) as [Hto Htf].
  assert (Hlt : outputIndex (utxo mainUtxo) <
                Z.of_nat (List.length (tx_outputs (transactionHex (raw mainUtxo))))).
  { assert (Z.to_nat (outputIndex (utxo mainUtxo)) <
            List.length (tx_outputs (transactionHex (raw mainUtxo))))%nat
      by (apply nth_error_Some; congruence).
    lia. }
  unfold redemptionTransaction, changeOutputs, changeAmount.
  unfold createRedemptionTransaction.
  destruct (List.length requests <? 1)%nat eqn:Elen.
  { apply Nat.ltb_lt in Elen. destruct requests; [congruence|cbn in Elen; lia]. }
  rewrite Hring, bindT_lift_returned.
  unfold MTX_fromRaw, Coin_fromTX.
  destruct (0 <=? _) eqn:E1; [|apply Z.leb_gt in E1; lia].
  destruct (_ <? _) eqn:E2; [|apply Z.ltb_ge in E2; lia].
  cbn [andb]. rewrite Hnth, bindT_lift_returned.
  fold (fundingCoin mainUtxo fundingOutput).
  destruct (0 <? value (utxo mainUtxo) - totalOutputs requests - totalFee requests)
    eqn:Echange.
  - apply Z.ltb_lt in Echange as Hpos.
    eapply eq_trans.
    { eapply bindT_returned.
      - apply process_requests_safe.
        exact (safe_requests_of_total _ _ Hamounts Hfunds).
      - cbv beta iota. rewrite !Z.add_0_l, Echange.
        eapply bindT_returned.
        + apply addOutput_uint. cbn [Bcoin.value]. lia.
        + eapply bindT_returned.
          * apply fund_exact; [reflexivity|lia|].
            cbn [mtx_outputs new_MTX fundingCoin coin_value app].
            rewrite outputValue_app, outputValue_redemptionOutputs, Hval.
            cbn [outputValue fold_right Bcoin.value]. lia.
          * reflexivity. }
    cbn [toRaw mtx_inputs mtx_outputs mtx_signedBy new_MTX map fundingCoin
         coin_tx coin_index app].
    rewrite !map_app. cbn [map]. rewrite <- !app_assoc. reflexivity.
  - apply Z.ltb_ge in Echange as Hzero.
    eapply eq_trans.
    { eapply bindT_returned.
      - apply process_requests_safe.
        exact (safe_requests_of_total _ _ Hamounts Hfunds).
      - cbv beta iota. rewrite !Z.add_0_l, Echange, bindT_pure.
        eapply bindT_returned.
        + apply fund_exact; [reflexivity|lia|].
          cbn [mtx_outputs new_MTX fundingCoin coin_value app].
          rewrite outputValue_redemptionOutputs, Hval. lia.
        + reflexivity. }
    cbn [toRaw mtx_inputs mtx_outputs mtx_signedBy new_MTX map fundingCoin
         coin_tx coin_index app].
    rewrite !app_nil_r. reflexivity.
Qed.

(** Funding with a single coin that holds less than the outputs and the
    fee is refused. *)
Lemma fund_short (tx : MTX) (coin : Coin) (changeAddress : string) (fee : Z) :
  mtx_inputs tx = [] -> 0 <= fee <= MAX_FEE ->
  coin_value coin < outputValue (mtx_outputs tx) + fee ->
  fund dustThreshold MAX_FEE tx [coin] changeAddress fee =
    mkTraced [Fund [coin] fee] (Thrown "Not enough funds.").
Proof.
  intros Hin Hfee Hval. unfold fund. rewrite Hin. cbn [List.length Nat.eqb negb].
  destruct (fee <? 0) eqn:E; [apply Z.ltb_lt in E; lia|].
  rewrite (Z.min_l fee MAX_FEE) by lia.
  assert (Hsel : selectCoins [coin] [] (outputValue (mtx_outputs tx) + fee)
                 = [coin]).
  { cbn [selectCoins app]. now destruct (_ <=? _). }
  rewrite Hsel. cbn [inputValue fold_right]. rewrite Z.add_0_r.
  destruct (coin_value coin <? _) eqn:E0;
    [reflexivity|apply Z.ltb_ge in E0; lia].
Qed.

(** What the builder does when the main UTXO does not cover the outputs
    and the fees: the library refuses to fund, and nothing is returned. *)
Lemma createRedemptionTransaction_underfunded
    (walletPrivateKey : string) (mainUtxo : UtxoWithRaw)
    (requests : list RedemptionRequest) (witness : bool)
    (ring : KeyRing) (fundingOutput : Output) :
  requests <> [] ->
  createKeyRing walletPrivateKey (Some witness) = Returned ring ->
  0 <= outputIndex (utxo mainUtxo) ->
  nth_error (tx_outputs (transactionHex (raw mainUtxo)))
            (Z.to_nat (outputIndex (utxo mainUtxo))) = Some fundingOutput ->
  Bcoin.value fundingOutput = value (utxo mainUtxo) ->
  Forall safe_request requests ->
  0 <= totalFee requests <= MAX_FEE ->
  value (utxo mainUtxo) < totalOutputs requests + totalFee requests ->
  settled (createRedemptionTransaction createKeyRing dustThreshold MAX_FEE
             walletPrivateKey mainUtxo requests witness)
    = Thrown "Not enough funds.".
Proof.
  intros Hne Hring Hidx Hnth Hval Hsafe Hcap Hshort.
  assert (Hlt : outputIndex (utxo mainUtxo) <
                Z.of_nat (List.length (tx_outputs (transactionHex (raw mainUtxo))))).
  { assert (Z.to_nat (outputIndex (utxo mainUtxo)) <
            List.length (tx_outputs (transactionHex (raw mainUtxo))))%nat
      by (apply nth_error_Some; congruence).
    lia. }
  unfold createRedemptionTransaction.
  destruct (List.length requests <? 1)%nat eqn:Elen.
  { apply Nat.ltb_lt in Elen. destruct requests; [congruence|cbn in Elen; lia]. }
  rewrite Hring, bindT_lift_returned.
  unfold MTX_fromRaw, Coin_fromTX.
  destruct (0 <=? _) eqn:E1; [|apply Z.leb_gt in E1; lia].
  destruct (_ <? _) eqn:E2; [|apply Z.ltb_ge in E2; lia].
  cbn [andb]. rewrite Hnth, bindT_lift_returned.
  fold (fundingCoin mainUtxo fundingOutput).
  erewrite bindT_returned;
    [ | apply process_requests_safe; exact Hsafe | ].
  2:{ cbv beta iota. rewrite !Z.add_0_l.
      destruct (0 <? _) eqn:Echange; [apply Z.ltb_lt in Echange; lia|].
      rewrite bindT_pure.
      apply bindT_thrown. apply fund_short; [reflexivity|lia|].
      cbn [mtx_outputs new_MTX fundingCoin coin_value app].
      rewrite outputValue_redemptionOutputs, Hval. lia. }
  reflexivity.
Qed.

Lemma redemptionTransaction_fee (ring : KeyRing) (mainUtxo : UtxoWithRaw)
    (requests : list RedemptionRequest) (fundingOutput : Output) :
  nth_error (tx_outputs (transactionHex (raw mainUtxo)))
            (Z.to_nat (outputIndex (utxo mainUtxo))) = Some fundingOutput ->
  Bcoin.value fundingOutput = value (utxo mainUtxo) ->
  totalOutputs requests + totalFee requests <= value (utxo mainUtxo) ->
  tx_fee (redemptionTransaction ring mainUtxo requests) = totalFee requests.
Proof.
  intros Hnth Hval Hfunds.
  unfold tx_fee, redemptionTransaction.
  cbn [tx_inputs tx_outputs fold_right prev_tx prev_index].
  rewrite Hnth, outputValue_app, outputValue_redemptionOutputs, Hval.
  unfold changeOutputs, changeAmount.
  destruct (0 <? _) eqn:E; cbn [outputValue fold_right Bcoin.value].
  - lia.
  - apply Z.ltb_ge in E. lia.
Qed.

(** Whenever the builder throws, nothing has been signed. *)
Lemma createRedemptionTransaction_throws_unsigned
    (walletPrivateKey : string) (mainUtxo : UtxoWithRaw)
    (requests : list RedemptionRequest) (witness : bool)
    (m : string) (ring : KeyRing) :
  settled (createRedemptionTransaction createKeyRing dustThreshold MAX_FEE
             walletPrivateKey mainUtxo requests witness) = Thrown m ->
  ~ In (Sign ring)
       (calls (createRedemptionTransaction createKeyRing dustThreshold MAX_FEE
                 walletPrivateKey mainUtxo requests witness)).
Proof.
  unfold createRedemptionTransaction.
  destruct (List.length requests <? 1)%nat; [cbn; tauto|].
  intros Hthrown Hin.
  destruct (sign_after _ _ ring m (lift_no_calls _ _) Hin Hthrown)
    as (walletKeyRing & Hin1 & Ht1).
  destruct (sign_after _ _ ring m (lift_no_calls _ _) Hin1 Ht1)
    as (coin & Hin2 & Ht2).
  destruct (sign_after _ _ ring m (process_requests_no_sign _ _ _ _ ring)
              Hin2 Ht2) as ([[tx fee] total] & Hin3 & Ht3).
  cbv beta iota in Hin3, Ht3.
  assert (Hchange : forall o,
    ~ In (Sign ring)
         (calls (if 0 <? value (utxo mainUtxo) - total - fee
                 then addOutput tx o else pure tx))).
  { intros o. destruct (0 <? _); cbn; [intros [H|[]]; discriminate H|tauto]. }
  destruct (sign_after _ _ ring m (Hchange _) Hin3 Ht3) as (tx' & Hin4 & Ht4).
  assert (Hfund : forall coins a f,
    ~ In (Sign ring) (calls (fund dustThreshold MAX_FEE tx' coins a f))).
  { intros coins a f. cbn. intros [H|[]]; discriminate H. }
  destruct (sign_after _ _ ring m (Hfund _ _ _) Hin4 Ht4) as (tx'' & _ & Ht5).
  cbn in Ht5. discriminate Ht5.
Qed.

(** C1, with the change the code computes: for a non-empty list of requests
    with non-negative output amounts and fees, the fees within the
    library's cap, and a main UTXO that is the output of its raw
    transaction and covers outputs and fees, the builder returns the
    transaction with the funding output as its only input, one output per
    request worth requestedAmount - txMaxFee - treasuryFee on the request's
    script, and the change fundingValue - sum(outputs) - sum(fees) as a last
    output when it is positive; the outputs are all added explicitly, the
    fee handed to the library is the sum of the txMaxFee, and it is the fee
    the transaction pays. *)
Theorem createRedemptionTransaction_builds_redemption
    (walletPrivateKey : string) (mainUtxo : UtxoWithRaw)
    (requests : list RedemptionRequest) (witness : bool)
    (ring : KeyRing) (fundingOutput : Output) :
  requests <> [] ->
  createKeyRing walletPrivateKey (Some witness) = Returned ring ->
  0 <= outputIndex (utxo mainUtxo) ->
  nth_error (tx_outputs (transactionHex (raw mainUtxo)))
            (Z.to_nat (outputIndex (utxo mainUtxo))) = Some fundingOutput ->
  Bcoin.value fundingOutput = value (utxo mainUtxo) ->
  Forall (fun r => 0 <= outputAmount r /\ 0 <= txMaxFee r) requests ->
  totalOutputs requests + totalFee requests <= value (utxo mainUtxo)
    <= MAX_SAFE_INTEGER ->
  totalFee requests <= MAX_FEE ->
  settled (createRedemptionTransaction createKeyRing dustThreshold MAX_FEE
             walletPrivateKey mainUtxo requests witness)
    = Returned {| transactionHex := redemptionTransaction ring mainUtxo requests |} /\
  calls (createRedemptionTransaction createKeyRing dustThreshold MAX_FEE
           walletPrivateKey mainUtxo requests witness)
    = map AddOutput
        (map redemptionOutput requests
           ++ changeOutputs (getAddress ring) (value (utxo mainUtxo)) requests)
      ++ [Fund [fundingCoin mainUtxo fundingOutput] (totalFee requests);
          Sign ring] /\
  tx_fee (redemptionTransaction ring mainUtxo requests) = totalFee requests.
Proof.
  intros Hne Hring Hidx Hnth Hval Hamounts Hfunds Hcap.
  rewrite (createRedemptionTransaction_funded walletPrivateKey mainUtxo
             requests witness ring fundingOutput) by assumption.
  cbn [settled calls]. repeat split.
  apply (redemptionTransaction_fee ring mainUtxo requests fundingOutput);
    [assumption|assumption|lia].
Qed.

(** C3, as the code has it: the builder refuses the empty list, before any
    call to the library; whenever it throws, nothing has been signed; and it
    does not check the amounts of the requests: a funded non-empty list
    whose requests have requestedAmount >= txMaxFee + treasuryFee, equality
    included, is built and signed. *)
Theorem createRedemptionTransaction_refuses_empty_list_only
    (walletPrivateKey : string) (mainUtxo : UtxoWithRaw) (witness : bool) :
  createRedemptionTransaction createKeyRing dustThreshold MAX_FEE
    walletPrivateKey mainUtxo [] witness
    = mkTraced [] (Thrown InvalidRequestList) /\
  (forall requests m ring,
     settled (createRedemptionTransaction createKeyRing dustThreshold MAX_FEE
                walletPrivateKey mainUtxo requests witness) = Thrown m ->
     ~ In (Sign ring)
          (calls (createRedemptionTransaction createKeyRing dustThreshold MAX_FEE
                    walletPrivateKey mainUtxo requests witness))) /\
  (forall requests ring fundingOutput,
     requests <> [] ->
     createKeyRing walletPrivateKey (Some witness) = Returned ring ->
     0 <= outputIndex (utxo mainUtxo) ->
     nth_error (tx_outputs (transactionHex (raw mainUtxo)))
               (Z.to_nat (outputIndex (utxo mainUtxo))) = Some fundingOutput ->
     Bcoin.value fundingOutput = value (utxo mainUtxo) ->
     Forall (fun r => txMaxFee r + treasuryFee r <= requestedAmount r /\
                      0 <= txMaxFee r) requests ->
     totalOutputs requests + totalFee requests <= value (utxo mainUtxo)
       <= MAX_SAFE_INTEGER ->
     totalFee requests <= MAX_FEE ->
     settled (createRedemptionTransaction createKeyRing dustThreshold MAX_FEE
                walletPrivateKey mainUtxo requests witness)
       = Returned {| transactionHex :=
                       redemptionTransaction ring mainUtxo requests |}).
Proof.
  split; [reflexivity|]. split.
  - intros requests m ring.
    apply createRedemptionTransaction_throws_unsigned.
  - intros requests ring fundingOutput Hne Hring Hidx Hnth Hval Hamounts Hfunds
      Hcap.
    rewrite (createRedemptionTransaction_funded walletPrivateKey mainUtxo
               requests witness ring fundingOutput); auto.
    eapply Forall_impl; [|exact Hamounts].
    intros r [H1 H2]. unfold outputAmount. lia.
Qed.

End Builder.

Import Samples.

Lemma sample_dustThreshold_positive (s : Script) : 0 < sample_dustThreshold s.
Proof. reflexivity. Qed.

(** The example of the specification. *)
Lemma createRedemptionTransaction_spec_example :
  [sample_request 50000] <> [] /\
  sample_createKeyRing "key" (Some true) = Returned sample_ring /\
  0 <= outputIndex (utxo (sample_mainUtxo 100000)) /\
  Forall (fun r => 0 <= outputAmount r /\ 0 <= txMaxFee r)
         [sample_request 50000] /\
  totalOutputs [sample_request 50000] + totalFee [sample_request 50000]
    <= value (utxo (sample_mainUtxo 100000)) <= MAX_SAFE_INTEGER /\
  totalFee [sample_request 50000] <= sample_MAX_FEE /\
  settled (createRedemptionTransaction sample_createKeyRing
             sample_dustThreshold sample_MAX_FEE "key" (sample_mainUtxo 100000)
             [sample_request 50000] true)
    = Returned
        {| transactionHex :=
             mkTX [mkOutpoint (funding_tx 100000) 0]
                  [ {| script := Script_fromRaw (Buffer_from_hex sample_script);
                       Bcoin.value := 49500 |};
                    {| script := Script_fromAddress "wallet";
                       Bcoin.value := 50100 |} ]
                  (Some sample_ring) |} /\
  tx_fee (redemptionTransaction sample_ring (sample_mainUtxo 100000)
            [sample_request 50000]) = 400.
Proof.
  assert (H1 : [sample_request 50000] <> []) by discriminate.
  assert (H2 : sample_createKeyRing "key" (Some true) = Returned sample_ring)
    by reflexivity.
  assert (H3 : 0 <= outputIndex (utxo (sample_mainUtxo 100000))) by (cbn; lia).
  assert (H4 : Forall (fun r => 0 <= outputAmount r /\ 0 <= txMaxFee r)
                      [sample_request 50000])
    by (repeat constructor; cbn; lia).
  assert (H5 : totalOutputs [sample_request 50000]
               + totalFee [sample_request 50000]
               <= value (utxo (sample_mainUtxo 100000)) <= MAX_SAFE_INTEGER)
    by (cbn; unfold MAX_SAFE_INTEGER; lia).
  assert (H6 : totalFee [sample_request 50000] <= sample_MAX_FEE)
    by (cbn; unfold sample_MAX_FEE; lia).
  refine (conj H1 (conj H2 (conj H3 (conj H4 (conj H5 (conj H6 _)))))).
  pose proof (createRedemptionTransaction_builds_redemption
                sample_createKeyRing sample_dustThreshold sample_MAX_FEE
                sample_dustThreshold_positive "key" (sample_mainUtxo 100000)
                [sample_request 50000] true sample_ring
                {| script := Script_fromAddress "wallet";
                   Bcoin.value := 100000 |}
                H1 H2 H3 eq_refl eq_refl H4 H5 H6) as (Hsettled & _ & Hfee).
  exact (conj Hsettled Hfee).
Defined.

(** C1 as stated fails on its own example: the change is
    100,000 - 49,500 - 400 = 50,100 and not 49,600; and a funding output
    that does not cover outputs and fees gives no transaction at all. *)
Lemma createRedemptionTransaction_change_is_50100 :
  (forall createKeyRing dustThreshold MAX_FEE,
     (forall s, 0 < dustThreshold s) ->
     400 <= MAX_FEE ->
     createKeyRing "key"%string (Some true) = Returned sample_ring ->
     settled (createRedemptionTransaction createKeyRing dustThreshold MAX_FEE
                "key" (sample_mainUtxo 100000) [sample_request 50000] true)
       = Returned
           {| transactionHex :=
                mkTX [mkOutpoint (funding_tx 100000) 0]
                     [ {| script := Script_fromRaw (Buffer_from_hex sample_script);
                          Bcoin.value := 49500 |};
                       {| script := Script_fromAddress "wallet";
                          Bcoin.value := 50100 |} ]
                     (Some sample_ring) |}) /\
  (forall createKeyRing dustThreshold MAX_FEE,
     400 <= MAX_FEE ->
     createKeyRing "key"%string (Some true) = Returned sample_ring ->
     settled (createRedemptionTransaction createKeyRing dustThreshold MAX_FEE
                "key" (sample_mainUtxo 100) [sample_request 50000] true)
       = Thrown "Not enough funds.").
Proof.
  split.
  - intros createKeyRing dustThreshold MAX_FEE Hdust Hcap Hring.
    rewrite (createRedemptionTransaction_funded createKeyRing dustThreshold
               MAX_FEE Hdust "key" (sample_mainUtxo 100000)
               [sample_request 50000] true sample_ring
               {| script := Script_fromAddress "wallet";
                  Bcoin.value := 100000 |}).
    + reflexivity.
    + discriminate.
    + assumption.
    + cbn; lia.
    + reflexivity.
    + reflexivity.
    + repeat constructor; cbn; lia.
    + cbn; unfold MAX_SAFE_INTEGER; lia.
    + cbn; lia.
  - intros createKeyRing dustThreshold MAX_FEE Hcap Hring.
    apply (createRedemptionTransaction_underfunded createKeyRing dustThreshold
             MAX_FEE "key" (sample_mainUtxo 100) [sample_request 50000] true
             sample_ring
             {| script := Script_fromAddress "wallet"; Bcoin.value := 100 |}).
    + discriminate.
    + assumption.
    + cbn; lia.
    + reflexivity.
    + reflexivity.
    + repeat constructor; cbn; unfold MAX_SAFE_INTEGER; lia.
    + cbn; lia.
    + cbn; lia.
Qed.

Lemma createRedemptionTransaction_empty_sample :
  (forall s, 0 < sample_dustThreshold s) /\
  createRedemptionTransaction sample_createKeyRing sample_dustThreshold
    sample_MAX_FEE "key" (sample_mainUtxo 100000) [] true
    = mkTraced [] (Thrown InvalidRequestList).
Proof.
  exact (conj sample_dustThreshold_positive
    (proj1 (createRedemptionTransaction_refuses_empty_list_only
              sample_createKeyRing sample_dustThreshold sample_MAX_FEE
              sample_dustThreshold_positive "key" (sample_mainUtxo 100000)
              true))).
Defined.

(** C3 as stated fails: a request with
    requestedAmount = txMaxFee + treasuryFee is not refused; the builder
    adds an output of value zero for it, funds and signs. *)
Lemma createRedemptionTransaction_signs_zero_output :
  requestedAmount (sample_request 500)
    <= txMaxFee (sample_request 500) + treasuryFee (sample_request 500) /\
  forall createKeyRing dustThreshold MAX_FEE,
    (forall s, 0 < dustThreshold s) ->
    400 <= MAX_FEE ->
    createKeyRing "key"%string (Some true) = Returned sample_ring ->
    createRedemptionTransaction createKeyRing dustThreshold MAX_FEE "key"
      (sample_mainUtxo 100000) [sample_request 500] true
    = mkTraced
        [AddOutput {| script := Script_fromRaw (Buffer_from_hex sample_script);
                      Bcoin.value := 0 |};
         AddOutput {| script := Script_fromAddress "wallet";
                      Bcoin.value := 99600 |};
         Fund [fundingCoin (sample_mainUtxo 100000)
                 {| script := Script_fromAddress "wallet";
                    Bcoin.value := 100000 |}] 400;
         Sign sample_ring]
        (Returned
           {| transactionHex :=
                mkTX [mkOutpoint (funding_tx 100000) 0]
                     [ {| script := Script_fromRaw (Buffer_from_hex sample_script);
                          Bcoin.value := 0 |};
                       {| script := Script_fromAddress "wallet";
                          Bcoin.value := 99600 |} ]
                     (Some sample_ring) |}).
Proof.
  split; [cbn; lia|].
  intros createKeyRing dustThreshold MAX_FEE Hdust Hcap Hring.
  rewrite (createRedemptionTransaction_funded createKeyRing dustThreshold
             MAX_FEE Hdust "key" (sample_mainUtxo 100000) [sample_request 500]
             true sample_ring
             {| script := Script_fromAddress "wallet";
                Bcoin.value := 100000 |}).
  - reflexivity.
  - discriminate.
  - assumption.
  - cbn; lia.
  - reflexivity.
  - reflexivity.
  - repeat constructor; cbn; lia.
  - cbn; unfold MAX_SAFE_INTEGER; lia.
  - cbn; lia.
Qed.

End BuilderFacts.

(** ** Key derivation: failures, aliases and collisions *)

Module KeyDerivationMore.
Import HexCodec Ethers HexFacts Bitcoin EthereumBridge KeyDerivationFacts.
Local Open Scope string_scope.
Local Open Scope Z_scope.

Lemma Buffer_from_hex_app (raw : list byte) (tail : string) :
  Buffer_from_hex (to_hex raw ++ tail) = (raw ++ Buffer_from_hex tail)%list.
Proof.
  induction raw as [|b rest IH]; [reflexivity|].
  cbn [to_hex String.append Buffer_from_hex app].
  destruct (byte_digits b) as (Hhi & Hlo & Hb).
  now rewrite Hhi, Hlo, IH, Hb.
Qed.

Lemma Buffer_from_hex_bad_start (c : ascii) (rest : string) :
  unhex c = None -> Buffer_from_hex (String c rest) = [].
Proof.
  intros H. cbn [Buffer_from_hex]. destruct rest; [reflexivity|].
  now rewrite H.
Qed.

Lemma lxor_low_ones (a n : Z) :
  0 <= n -> Z.lxor a (2 ^ n - 1) = a + (2 ^ n - 1) - 2 * (a mod 2 ^ n).
Proof.
  intros Hn.
  replace (2 ^ n - 1) with (Z.ones n) by (rewrite Z.ones_equiv; lia).
  pose proof (Z.sub_lor_land a (Z.ones n)) as H1.
  pose proof (Z.add_lor_land a (Z.ones n)) as H2.
  rewrite Z.land_ones in H1, H2 by assumption. lia.
Qed.

(** What [inotn] and [toTwos] give on 32 bits: two words of 26 bits. *)
Lemma inotn_32 (m : Z) :
  0 <= m -> inotn 32 m = m / 2 ^ 52 * 2 ^ 52 + (2 ^ 32 - 1 - m mod 2 ^ 32).
Proof.
  intros Hm. unfold inotn. change ((32 + 25) / 26) with 2.
  change (26 * 2) with 52.
  rewrite Z.shiftr_div_pow2, Z.shiftl_mul_pow2, Z.land_ones by lia.
  change (Z.ones 32) with (2 ^ 32 - 1).
  rewrite lxor_low_ones by lia. rewrite Z.mod_mod by lia. lia.
Qed.

Lemma toTwos_32_negative (v : Z) :
  v < 0 ->
  toTwos 32 v = (- v) / 2 ^ 52 * 2 ^ 52 + (2 ^ 32 - (- v) mod 2 ^ 32).
Proof.
  intros Hv. unfold toTwos.
  destruct (v <? 0) eqn:E; [|apply Z.ltb_ge in E; lia].
  rewrite Z.abs_neq by lia. rewrite inotn_32 by lia. lia.
Qed.

(** The low 32 bits of a negative number and of its magnitude. *)
Lemma mod_opp_32 (v : Z) :
  v mod 2 ^ 32 =
    if (- v) mod 2 ^ 32 =? 0 then 0 else 2 ^ 32 - (- v) mod 2 ^ 32.
Proof.
  pose proof (Z.mod_pos_bound (- v) (2 ^ 32) ltac:(lia)) as Hr.
  pose proof (Z.div_mod (- v) (2 ^ 32) ltac:(lia)) as Hd.
  destruct ((- v) mod 2 ^ 32 =? 0) eqn:E.
  - apply Z.eqb_eq in E. symmetry.
    apply (Z.mod_unique _ _ (- ((- v) / 2 ^ 32))); lia.
  - apply Z.eqb_neq in E. symmetry.
    apply (Z.mod_unique _ _ (- ((- v) / 2 ^ 32) - 1)); lia.
Qed.

Lemma be_bytes_inj (n : nat) :
  forall a b : Z,
  0 <= a < 256 ^ Z.of_nat n -> 0 <= b < 256 ^ Z.of_nat n ->
  be_bytes n a = be_bytes n b -> a = b.
Proof.
  induction n as [|n IH]; intros a b Ha Hb Heq.
  - change (256 ^ Z.of_nat 0) with 1 in *. lia.
  - cbn [be_bytes] in Heq. apply app_inj_tail in Heq as [Hhigh Hlow].
    apply (f_equal Z_of_byte) in Hlow. rewrite !Z_of_byte_of_Z in Hlow.
    rewrite Nat2Z.inj_succ, Z.pow_succ_r in Ha, Hb by lia.
    assert (a / 256 = b / 256).
    { apply IH; auto.
      - split; [apply Z.div_pos; lia|apply Z.div_lt_upper_bound; lia].
      - split; [apply Z.div_pos; lia|apply Z.div_lt_upper_bound; lia]. }
    rewrite (Z.div_mod a 256), (Z.div_mod b 256) by lia. congruence.
Qed.

Lemma big_endian_inj (n : nat) (a b : Z) :
  0 <= a < 256 ^ Z.of_nat n -> 0 <= b < 256 ^ Z.of_nat n ->
  big_endian n a = big_endian n b -> a = b.
Proof. rewrite <- !be_bytes_big_endian. apply be_bytes_inj. Qed.

Lemma big_endian_length (n : nat) (z : Z) : List.length (big_endian n z) = n.
Proof. rewrite <- be_bytes_big_endian. apply be_bytes_length. Qed.

Lemma app_inj_length {A : Type} (a a' b b' : list A) :
  List.length a = List.length a' ->
  (a ++ b = a' ++ b')%list -> a = a' /\ b = b'.
Proof.
  revert a'; induction a as [|x a IH]; intros [|x' a'] Hlen Heq;
    try discriminate Hlen; [auto|].
  cbn [app] in Heq. injection Heq as -> Heq.
  destruct (IH a' ltac:(cbn in Hlen; lia) Heq) as [-> ->]. auto.
Qed.

Lemma Returned_hexlify_inj (a b : list byte) :
  Returned (hexlify a) = Returned (hexlify b) -> a = b.
Proof. intros H. apply hexlify_inj. congruence. Qed.

Lemma bytes_eq_dec (p q : list byte) : {p = q} + {p <> q}.
Proof. apply list_eq_dec, Byte.byte_eq_dec. Qed.

(** The packing of an unsigned 32-bit value, over all integers: a number
    of 32 bits is packed as it is, and a negative number above -2^52 that
    is not a multiple of 2^32 is packed as its low 32 bits. *)
Lemma pack_uint32_cases (v : Z) :
  pack_value (UintN 32 v) =
    if ((0 <=? v) && (v <? 2 ^ 32))
       || ((- 2 ^ 52 <? v) && (v <? 0) && negb (v mod 2 ^ 32 =? 0))
    then Returned (big_endian 4 (v mod 2 ^ 32))
    else Thrown "value out of range".
Proof.
  unfold pack_value, zeroPad.
  change ((32 mod 8 =? 0) && (0 <? 32) && (32 <=? 256)) with true.
  change (Z.to_nat (32 / 8)) with 4%nat.
  change (2 ^ (8 * Z.of_nat 4)) with (2 ^ 32). cbv iota.
  destruct (Z.lt_ge_cases v 0) as [Hneg|Hpos].
  - rewrite toTwos_32_negative by assumption.
    pose proof (Z.mod_pos_bound (- v) (2 ^ 32) ltac:(lia)) as Hr.
    pose proof (mod_opp_32 v) as Hlow.
    destruct (0 <=? v) eqn:E0; [apply Z.leb_le in E0; lia|].
    destruct (v <? 0) eqn:E1; [|apply Z.ltb_ge in E1; lia].
    cbn [andb orb]. rewrite Bool.andb_true_r.
    destruct (Z.lt_ge_cases (- 2 ^ 52) v) as [Hin|Hout].
    + rewrite (Z.div_small (- v) (2 ^ 52)) by lia.
      destruct (- 2 ^ 52 <? v) eqn:E2; [|apply Z.ltb_ge in E2; lia].
      cbn [andb]. rewrite Z.mul_0_l, Z.add_0_l.
      destruct ((- v) mod 2 ^ 32 =? 0) eqn:E3.
      * apply Z.eqb_eq in E3. rewrite Hlow, E3. cbn [Z.eqb negb].
        destruct (2 ^ 32 - 0 <? 2 ^ 32) eqn:E4;
          [apply Z.ltb_lt in E4; lia|reflexivity].
      * apply Z.eqb_neq in E3.
        destruct (v mod 2 ^ 32 =? 0) eqn:E5; [apply Z.eqb_eq in E5; lia|].
        cbn [negb].
        destruct (2 ^ 32 - _ <? 2 ^ 32) eqn:E4; [|apply Z.ltb_ge in E4; lia].
        rewrite be_bytes_big_endian, Hlow. reflexivity.
    + destruct (- 2 ^ 52 <? v) eqn:E2; [apply Z.ltb_lt in E2; lia|].
      cbn [andb].
      assert (1 <= (- v) / 2 ^ 52) by (apply Z.div_le_lower_bound; lia).
      destruct (_ <? 2 ^ 32) eqn:E4; [apply Z.ltb_lt in E4; nia|reflexivity].
  - unfold toTwos.
    destruct (v <? 0) eqn:E; [apply Z.ltb_lt in E; lia|].
    destruct (0 <=? v) eqn:E0; [|apply Z.leb_gt in E0; lia].
    cbn [andb]. rewrite Bool.andb_false_r, Bool.orb_false_r.
    destruct (v <? 2 ^ 32) eqn:E2; [|reflexivity].
    apply Z.ltb_lt in E2. rewrite Z.mod_small by lia.
    now rewrite be_bytes_big_endian.
Qed.

(** When the packing accepts a number as [uint32]. *)
Lemma uint32_accepted (v : Z) :
  ((0 <=? v) && (v <? 2 ^ 32))
  || ((- 2 ^ 52 <? v) && (v <? 0) && negb (v mod 2 ^ 32 =? 0)) = true
  <-> (0 <= v < 2 ^ 32 \/ (- 2 ^ 52 < v < 0 /\ v mod 2 ^ 32 <> 0)).
Proof.
  rewrite Bool.orb_true_iff, !Bool.andb_true_iff, Bool.negb_true_iff.
  rewrite Z.leb_le, !Z.ltb_lt, Z.eqb_neq. tauto.
Qed.

Section Keccak.
Variable keccak_256 : list byte -> list byte.

(** What [buildDepositKey] computes, over all arguments. *)
Lemma buildDepositKey_cases (depositTxHash : BitcoinTxHash)
    (depositOutputIndex : Z) :
  buildDepositKey keccak_256 depositTxHash depositOutputIndex =
    if (List.length (Hex.bytes depositTxHash) =? 32)%nat
    then if ((0 <=? depositOutputIndex) && (depositOutputIndex <? 2 ^ 32))
            || ((- 2 ^ 52 <? depositOutputIndex) && (depositOutputIndex <? 0)
                && negb (depositOutputIndex mod 2 ^ 32 =? 0))
         then Returned (hexlify (keccak_256
                (rev (Hex.bytes depositTxHash)
                   ++ big_endian 4 (depositOutputIndex mod 2 ^ 32))))
         else Thrown "value out of range"
    else Thrown "invalid value for type".
Proof.
  unfold buildDepositKey, solidityKeccak256, solidityPack.
  cbn [pack_values]. rewrite pack_uint32_cases.
  unfold pack_value, Hex.toPrefixedString, Hex.reverse.
  cbn [Hex.bytes Nat.eqb Nat.ltb Nat.leb orb].
  rewrite arrayify_hexlify. cbn [bind]. rewrite length_rev.
  destruct (_ =? 32)%nat; [|reflexivity]. cbn [bind].
  destruct (_ || _); [|reflexivity]. cbn [bind].
  unfold keccak256. rewrite arrayify_hexlify. cbn [bind].
  now rewrite app_nil_r.
Qed.

Lemma buildDepositKey_accepted (depositTxHash : BitcoinTxHash)
    (depositOutputIndex : Z) :
  List.length (Hex.bytes depositTxHash) = 32%nat ->
  0 <= depositOutputIndex < 2 ^ 32 \/
  (- 2 ^ 52 < depositOutputIndex < 0 /\ depositOutputIndex mod 2 ^ 32 <> 0) ->
  buildDepositKey keccak_256 depositTxHash depositOutputIndex =
    Returned (hexlify (keccak_256
      (rev (Hex.bytes depositTxHash)
         ++ big_endian 4 (depositOutputIndex mod 2 ^ 32)))).
Proof.
  intros Hlen Hidx. rewrite buildDepositKey_cases, Hlen. cbn [Nat.eqb].
  apply uint32_accepted in Hidx. now rewrite Hidx.
Qed.

Lemma buildDepositKey_refused (depositTxHash : BitcoinTxHash)
    (depositOutputIndex : Z) :
  ~ (List.length (Hex.bytes depositTxHash) = 32%nat /\
     (0 <= depositOutputIndex < 2 ^ 32 \/
      (- 2 ^ 52 < depositOutputIndex < 0 /\
       depositOutputIndex mod 2 ^ 32 <> 0))) ->
  exists m,
    buildDepositKey keccak_256 depositTxHash depositOutputIndex = Thrown m.
Proof.
  intros Hbad. rewrite buildDepositKey_cases.
  destruct (_ =? 32)%nat eqn:El; [|eauto].
  apply Nat.eqb_eq in El.
  destruct (_ || _) eqn:Ea; [|eauto].
  apply uint32_accepted in Ea. tauto.
Qed.

(** X1: [buildDepositKey] returns a key exactly when the hash has 32 bytes
    and the index is either a number of 32 bits or a negative number above
    -2^52 that is not a multiple of 2^32; a negative index is not refused
    as such: it gets the key of its low 32 bits. *)
Theorem buildDepositKey_index_range_and_wrap
    (depositTxHash : BitcoinTxHash) (depositOutputIndex : Z) :
  ((exists key, buildDepositKey keccak_256 depositTxHash depositOutputIndex
                = Returned key)
   <-> (List.length (Hex.bytes depositTxHash) = 32%nat /\
        (0 <= depositOutputIndex < 2 ^ 32 \/
         (- 2 ^ 52 < depositOutputIndex < 0 /\
          depositOutputIndex mod 2 ^ 32 <> 0)))) /\
  (- 2 ^ 52 < depositOutputIndex < 0 ->
   depositOutputIndex mod 2 ^ 32 <> 0 ->
   buildDepositKey keccak_256 depositTxHash depositOutputIndex =
   buildDepositKey keccak_256 depositTxHash (depositOutputIndex mod 2 ^ 32)).
Proof.
  split.
  - split.
    + intros [key Hkey].
      destruct (Nat.eq_dec (List.length (Hex.bytes depositTxHash)) 32)
        as [Hlen|Hlen].
      * split; [exact Hlen|].
        rewrite buildDepositKey_cases, Hlen in Hkey. cbn [Nat.eqb] in Hkey.
        destruct (_ || _) eqn:Ea in Hkey; [|discriminate Hkey].
        now apply uint32_accepted.
      * apply Nat.eqb_neq in Hlen.
        rewrite buildDepositKey_cases, Hlen in Hkey. discriminate Hkey.
    + intros [Hlen Hidx]. eexists. now apply buildDepositKey_accepted.
  - intros Hneg Hlow. rewrite !buildDepositKey_cases.
    destruct (_ =? 32)%nat; [|reflexivity].
    pose proof (Z.mod_pos_bound depositOutputIndex (2 ^ 32) ltac:(lia)) as Hr.
    assert (H1 : 0 <= depositOutputIndex < 2 ^ 32 \/
                 (- 2 ^ 52 < depositOutputIndex < 0 /\
                  depositOutputIndex mod 2 ^ 32 <> 0)) by lia.
    assert (H2 : 0 <= depositOutputIndex mod 2 ^ 32 < 2 ^ 32 \/
                 (- 2 ^ 52 < depositOutputIndex mod 2 ^ 32 < 0 /\
                  (depositOutputIndex mod 2 ^ 32) mod 2 ^ 32 <> 0)) by lia.
    apply uint32_accepted in H1, H2. rewrite H1, H2.
    now rewrite Z.mod_mod by lia.
Qed.

(** X2: two deposits with 32-byte hashes and indices of 32 bits that get
    the same deposit key are the same deposit, or the hash function has
    a collision. *)
Theorem buildDepositKey_same_key_same_deposit
    (h h' : BitcoinTxHash) (i i' : Z) :
  List.length (Hex.bytes h) = 32%nat ->
  List.length (Hex.bytes h') = 32%nat ->
  0 <= i < 2 ^ 32 -> 0 <= i' < 2 ^ 32 ->
  buildDepositKey keccak_256 h i = buildDepositKey keccak_256 h' i' ->
  (Hex.bytes h = Hex.bytes h' /\ i = i') \/
  (exists p p', p <> p' /\ keccak_256 p = keccak_256 p').
Proof.
  intros Hh Hh' Hi Hi' Hkey.
  rewrite (buildDepositKey_accepted h i Hh (or_introl Hi)),
    (buildDepositKey_accepted h' i' Hh' (or_introl Hi')) in Hkey.
  rewrite !Z.mod_small in Hkey by lia.
  apply Returned_hexlify_inj in Hkey.
  destruct (bytes_eq_dec (rev (Hex.bytes h) ++ big_endian 4 i)
                         (rev (Hex.bytes h') ++ big_endian 4 i'))
    as [Hsame|Hdiff]; [left|right; eauto].
  apply app_inj_length in Hsame; [|now rewrite !length_rev, Hh, Hh'].
  destruct Hsame as [Hrev Hbe]. split.
  - apply (f_equal (@rev byte)) in Hrev. now rewrite !rev_involutive in Hrev.
  - apply (big_endian_inj 4); auto.
Qed.

(** X3: characters of the script string from the first one that is not a
    hexadecimal digit on are ignored: the key is that of the script before
    them. *)
Theorem buildRedemptionKey_ignores_malformed_tail
    (walletPublicKeyHash : string) (raw : list byte) (c : ascii)
    (rest : string) :
  unhex c = None ->
  buildRedemptionKey keccak_256 walletPublicKeyHash
    (to_hex raw ++ String c rest) =
  buildRedemptionKey keccak_256 walletPublicKeyHash (to_hex raw).
Proof.
  intros Hc. unfold buildRedemptionKey.
  now rewrite Buffer_from_hex_app, Buffer_from_hex_bad_start, app_nil_r,
    Buffer_from_hex_to_hex by assumption.
Qed.

Lemma buildUtxoHash_eq (utxo : BitcoinUtxo) :
  List.length (Hex.bytes (transactionHash utxo)) = 32%nat ->
  0 <= outputIndex utxo < 2 ^ 32 ->
  0 <= value utxo < 2 ^ 64 ->
  buildUtxoHash keccak_256 utxo =
    Returned (Hex.of_bytes (keccak_256
      (rev (Hex.bytes (transactionHash utxo))
         ++ big_endian 4 (outputIndex utxo)
         ++ big_endian 8 (value utxo)))).
Proof.
  intros Hlen Hidx Hval. unfold buildUtxoHash.
  rewrite (solidityKeccak256_of_packed _ _
             (rev (Hex.bytes (transactionHash utxo))
                ++ big_endian 4 (outputIndex utxo)
                ++ big_endian 8 (value utxo))).
  - cbn [bind]. now rewrite Hex_from_hexlify.
  - cbn [pack_values]. unfold Hex.toPrefixedString, Hex.reverse.
    cbn [Hex.bytes].
    rewrite pack_fixed_bytes by (rewrite ?length_rev; auto; lia).
    rewrite pack_uint32, pack_uint64 by assumption.
    cbn [bind]. now rewrite app_nil_r.
Qed.

(** X4: two well-formed UTXOs with the same UTXO hash have the same
    transaction hash, output index and value, or the hash function has a
    collision. *)
Theorem buildUtxoHash_same_hash_same_utxo (u u' : BitcoinUtxo) :
  List.length (Hex.bytes (transactionHash u)) = 32%nat ->
  List.length (Hex.bytes (transactionHash u')) = 32%nat ->
  0 <= outputIndex u < 2 ^ 32 -> 0 <= outputIndex u' < 2 ^ 32 ->
  0 <= value u < 2 ^ 64 -> 0 <= value u' < 2 ^ 64 ->
  buildUtxoHash keccak_256 u = buildUtxoHash keccak_256 u' ->
  (Hex.bytes (transactionHash u) = Hex.bytes (transactionHash u') /\
   outputIndex u = outputIndex u' /\ value u = value u') \/
  (exists p p', p <> p' /\ keccak_256 p = keccak_256 p').
Proof.
  intros Hh Hh' Hi Hi' Hv Hv' Hkey.
  rewrite !buildUtxoHash_eq in Hkey by assumption.
  injection Hkey as Hkey.
  match type of Hkey with
  | keccak_256 ?p = keccak_256 ?q =>
      destruct (bytes_eq_dec p q) as [Hsame|Hdiff]; [left|right; eauto]
  end.
  apply app_inj_length in Hsame; [|now rewrite !length_rev, Hh, Hh'].
  destruct Hsame as [Hrev Hrest].
  apply (app_inj_length (big_endian 4 (outputIndex u))
           (big_endian 4 (outputIndex u')) (big_endian 8 (value u))
           (big_endian 8 (value u'))) in Hrest;
    [|now rewrite !big_endian_length].
  destruct Hrest as [Hidx Hval]. repeat split.
  - apply (f_equal (@rev byte)) in Hrev. now rewrite !rev_involutive in Hrev.
  - apply (big_endian_inj 4); auto.
  - apply (big_endian_inj 8); auto.
Qed.

Hypothesis keccak_256_length : forall bs, List.length (keccak_256 bs) = 32%nat.

(** What [buildRedemptionKey] computes, over all arguments. *)
Lemma buildRedemptionKey_cases
    (walletPublicKeyHash redeemerOutputScript : string) :
  buildRedemptionKey keccak_256 walletPublicKeyHash redeemerOutputScript =
    match arrayify ("0x" ++ walletPublicKeyHash) with
    | Returned pkh =>
        if (List.length pkh =? 20)%nat
        then Returned (hexlify (keccak_256
               (keccak_256
                  (byte_of_Z (Z.of_nat (List.length
                                 (Buffer_from_hex redeemerOutputScript)))
                     :: Buffer_from_hex redeemerOutputScript)
                ++ pkh)))
        else Thrown "invalid value for type"
    | Thrown m => Thrown m
    end.
Proof.
  destruct (arrayify ("0x" ++ walletPublicKeyHash)) as [pkh|m] eqn:Hw.
  - destruct (List.length pkh =? 20)%nat eqn:Hl.
    + apply Nat.eqb_eq in Hl. now apply buildRedemptionKey_eq.
    + unfold buildRedemptionKey.
      set (raw := Buffer_from_hex redeemerOutputScript).
      change ("0x" ++ to_hex (Buffer_from_array [Z.of_nat (List.length raw)]
                                ++ raw))
        with (hexlify (byte_of_Z (Z.of_nat (List.length raw)) :: raw)).
      rewrite (solidityKeccak256_of_packed _ _
                 (byte_of_Z (Z.of_nat (List.length raw)) :: raw)).
      2:{ cbn [pack_values pack_value]. rewrite arrayify_hexlify. cbn [bind].
          now rewrite app_nil_r. }
      cbn [bind]. unfold solidityKeccak256, solidityPack. cbn [pack_values].
      rewrite pack_fixed_bytes by (rewrite ?keccak_256_length; auto; lia).
      cbn [bind]. unfold pack_value. cbn [Nat.eqb Nat.ltb Nat.leb orb].
      rewrite Hw. cbn [bind]. now rewrite Hl.
  - unfold buildRedemptionKey.
    set (raw := Buffer_from_hex redeemerOutputScript).
    change ("0x" ++ to_hex (Buffer_from_array [Z.of_nat (List.length raw)]
                              ++ raw))
      with (hexlify (byte_of_Z (Z.of_nat (List.length raw)) :: raw)).
    rewrite (solidityKeccak256_of_packed _ _
               (byte_of_Z (Z.of_nat (List.length raw)) :: raw)).
    2:{ cbn [pack_values pack_value]. rewrite arrayify_hexlify. cbn [bind].
        now rewrite app_nil_r. }
    cbn [bind]. unfold solidityKeccak256, solidityPack. cbn [pack_values].
    rewrite pack_fixed_bytes by (rewrite ?keccak_256_length; auto; lia).
    cbn [bind]. unfold pack_value. cbn [Nat.eqb Nat.ltb Nat.leb orb].
    now rewrite Hw.
Qed.

(** X5: [buildRedemptionKey] returns a key exactly when the wallet public
    key hash is given as the hexadecimal digits of 20 bytes; no script
    string makes it throw. *)
Theorem buildRedemptionKey_returns_iff_wallet_hash_20_bytes
    (walletPublicKeyHash redeemerOutputScript : string) :
  (exists key,
     buildRedemptionKey keccak_256 walletPublicKeyHash redeemerOutputScript
       = Returned key)
  <-> (exists pkh, arrayify ("0x" ++ walletPublicKeyHash) = Returned pkh /\
                   List.length pkh = 20%nat).
Proof.
  rewrite buildRedemptionKey_cases.
  destruct (arrayify ("0x" ++ walletPublicKeyHash)) as [pkh|m].
  - destruct (List.length pkh =? 20)%nat eqn:Hl.
    + apply Nat.eqb_eq in Hl. split; eauto.
    + apply Nat.eqb_neq in Hl. split.
      * intros [key H]; discriminate H.
      * intros (pkh' & H & Hlen). injection H as <-. contradiction.
  - split.
    + intros [key H]; discriminate H.
    + intros (pkh' & H & _). discriminate H.
Qed.

(** X6: two redemption requests with 20-byte wallet hashes that get the
    same redemption key have the same script bytes and the same wallet
    hash, unless the hash function takes the same value on their two
    length-prefixed scripts, which differ, or on their two outer buffers
    (the digest of the prefixed script followed by the wallet hash), which
    differ. *)
Theorem buildRedemptionKey_same_key_same_request
    (w w' s s' : string) (pkh pkh' : list byte) :
  arrayify ("0x" ++ w) = Returned pkh -> List.length pkh = 20%nat ->
  arrayify ("0x" ++ w') = Returned pkh' -> List.length pkh' = 20%nat ->
  buildRedemptionKey keccak_256 w s = buildRedemptionKey keccak_256 w' s' ->
  let prefixed :=
    byte_of_Z (Z.of_nat (List.length (Buffer_from_hex s)))
      :: Buffer_from_hex s in
  let prefixed' :=
    byte_of_Z (Z.of_nat (List.length (Buffer_from_hex s')))
      :: Buffer_from_hex s' in
  (Buffer_from_hex s = Buffer_from_hex s' /\ pkh = pkh') \/
  (prefixed <> prefixed' /\ keccak_256 prefixed = keccak_256 prefixed') \/
  ((keccak_256 prefixed ++ pkh)%list <> (keccak_256 prefixed' ++ pkh')%list /\
   keccak_256 (keccak_256 prefixed ++ pkh)
     = keccak_256 (keccak_256 prefixed' ++ pkh')).
Proof.
  intros Hw Hl Hw' Hl' Hkey prefixed prefixed'.
  rewrite (buildRedemptionKey_eq keccak_256 keccak_256_length w s pkh Hw Hl),
    (buildRedemptionKey_eq keccak_256 keccak_256_length w' s' pkh' Hw' Hl')
    in Hkey.
  apply Returned_hexlify_inj in Hkey. fold prefixed prefixed' in Hkey.
  destruct (bytes_eq_dec (keccak_256 prefixed ++ pkh)
                         (keccak_256 prefixed' ++ pkh'))
    as [Hsame|Hdiff]; [|right; right; auto].
  apply app_inj_length in Hsame; [|now rewrite !keccak_256_length].
  destruct Hsame as [Hinner ->].
  destruct (bytes_eq_dec prefixed prefixed') as [Hsame|Hdiff];
    [left|right; left; auto].
  unfold prefixed, prefixed' in Hsame. injection Hsame as _ Hraw. auto.
Qed.

End Keccak.

Import Samples.

Lemma buildDepositKey_negative_index_sample :
  - 2 ^ 52 < -4294967297 < 0 /\
  (-4294967297) mod 2 ^ 32 <> 0 /\
  buildDepositKey sample_hash sample_txHash (-4294967297) =
  buildDepositKey sample_hash sample_txHash 4294967295.
Proof.
  assert (H1 : - 2 ^ 52 < -4294967297 < 0) by lia.
  assert (H2 : (-4294967297) mod 2 ^ 32 <> 0) by (intros H; discriminate H).
  exact (conj H1 (conj H2
    (proj2 (buildDepositKey_index_range_and_wrap sample_hash sample_txHash
              (-4294967297)) H1 H2))).
Defined.

Lemma buildDepositKey_same_key_sample :
  List.length (Hex.bytes sample_txHash) = 32%nat /\
  0 <= 7 < 2 ^ 32 /\
  ((Hex.bytes sample_txHash = Hex.bytes sample_txHash /\ 7 = 7) \/
   (exists p p', p <> p' /\ sample_hash p = sample_hash p')).
Proof.
  assert (H1 : List.length (Hex.bytes sample_txHash) = 32%nat) by reflexivity.
  assert (H2 : 0 <= 7 < 2 ^ 32) by lia.
  exact (conj H1 (conj H2
    (buildDepositKey_same_key_same_deposit sample_hash sample_txHash
       sample_txHash 7 7 H1 H1 H2 H2 eq_refl))).
Defined.

Lemma buildRedemptionKey_malformed_tail_sample :
  unhex "z" = None /\
  buildRedemptionKey sample_hash sample_walletPublicKeyHash
    (to_hex [x76; xa9] ++ String "z" "14") =
  buildRedemptionKey sample_hash sample_walletPublicKeyHash
    (to_hex [x76; xa9]).
Proof.
  assert (H1 : unhex "z" = None) by reflexivity.
  exact (conj H1
    (buildRedemptionKey_ignores_malformed_tail sample_hash
       sample_walletPublicKeyHash [x76; xa9] "z" "14" H1)).
Defined.

Lemma buildUtxoHash_same_hash_sample :
  List.length (Hex.bytes (transactionHash sample_utxo)) = 32%nat /\
  0 <= outputIndex sample_utxo < 2 ^ 32 /\
  0 <= value sample_utxo < 2 ^ 64 /\
  ((Hex.bytes (transactionHash sample_utxo)
      = Hex.bytes (transactionHash sample_utxo) /\
    outputIndex sample_utxo = outputIndex sample_utxo /\
    value sample_utxo = value sample_utxo) \/
   (exists p p', p <> p' /\ sample_hash p = sample_hash p')).
Proof.
  assert (H1 : List.length (Hex.bytes (transactionHash sample_utxo)) = 32%nat)
    by reflexivity.
  assert (H2 : 0 <= outputIndex sample_utxo < 2 ^ 32) by (cbn; lia).
  assert (H3 : 0 <= value sample_utxo < 2 ^ 64) by (cbn; lia).
  exact (conj H1 (conj H2 (conj H3
    (buildUtxoHash_same_hash_same_utxo sample_hash sample_utxo sample_utxo
       H1 H1 H2 H2 H3 H3 eq_refl)))).
Defined.

Lemma buildRedemptionKey_returns_sample :
  (forall bs, List.length (sample_hash bs) = 32%nat) /\
  ((exists key,
      buildRedemptionKey sample_hash sample_walletPublicKeyHash "zz"
        = Returned key)
   <-> (exists pkh,
          arrayify ("0x" ++ sample_walletPublicKeyHash) = Returned pkh /\
          List.length pkh = 20%nat)).
Proof.
  exact (conj sample_hash_length
    (buildRedemptionKey_returns_iff_wallet_hash_20_bytes sample_hash
       sample_hash_length sample_walletPublicKeyHash "zz")).
Defined.

Lemma buildRedemptionKey_same_key_sample :
  (forall bs, List.length (sample_hash bs) = 32%nat) /\
  arrayify ("0x" ++ sample_walletPublicKeyHash)
    = Returned (Buffer_from_hex sample_walletPublicKeyHash) /\
  List.length (Buffer_from_hex sample_walletPublicKeyHash) = 20%nat /\
  buildRedemptionKey sample_hash sample_walletPublicKeyHash sample_script
    = buildRedemptionKey sample_hash sample_walletPublicKeyHash "76a9" /\
  ((Buffer_from_hex sample_script = Buffer_from_hex "76a9" /\
    Buffer_from_hex sample_walletPublicKeyHash
      = Buffer_from_hex sample_walletPublicKeyHash) \/
   (byte_of_Z (Z.of_nat (List.length (Buffer_from_hex sample_script)))
      :: Buffer_from_hex sample_script
    <> byte_of_Z (Z.of_nat (List.length (Buffer_from_hex "76a9")))
         :: Buffer_from_hex "76a9" /\
    sample_hash
      (byte_of_Z (Z.of_nat (List.length (Buffer_from_hex sample_script)))
         :: Buffer_from_hex sample_script)
    = sample_hash
        (byte_of_Z (Z.of_nat (List.length (Buffer_from_hex "76a9")))
           :: Buffer_from_hex "76a9")) \/
   ((sample_hash
       (byte_of_Z (Z.of_nat (List.length (Buffer_from_hex sample_script)))
          :: Buffer_from_hex sample_script)
     ++ Buffer_from_hex sample_walletPublicKeyHash)%list
    <> (sample_hash
          (byte_of_Z (Z.of_nat (List.length (Buffer_from_hex "76a9")))
             :: Buffer_from_hex "76a9")
        ++ Buffer_from_hex sample_walletPublicKeyHash)%list /\
    sample_hash
      (sample_hash
         (byte_of_Z (Z.of_nat (List.length (Buffer_from_hex sample_script)))
            :: Buffer_from_hex sample_script)
       ++ Buffer_from_hex sample_walletPublicKeyHash)
    = sample_hash
        (sample_hash
           (byte_of_Z (Z.of_nat (List.length (Buffer_from_hex "76a9")))
              :: Buffer_from_hex "76a9")
         ++ Buffer_from_hex sample_walletPublicKeyHash))).
Proof.
  assert (H1 : arrayify ("0x" ++ sample_walletPublicKeyHash)
               = Returned (Buffer_from_hex sample_walletPublicKeyHash))
    by reflexivity.
  assert (H2 : List.length (Buffer_from_hex sample_walletPublicKeyHash) = 20%nat)
    by reflexivity.
  assert (H3 : buildRedemptionKey sample_hash sample_walletPublicKeyHash
                 sample_script
               = buildRedemptionKey sample_hash sample_walletPublicKeyHash
                   "76a9") by reflexivity.
  exact (conj sample_hash_length (conj H1 (conj H2 (conj H3
    (buildRedemptionKey_same_key_same_request sample_hash sample_hash_length
       sample_walletPublicKeyHash sample_walletPublicKeyHash
       sample_script "76a9" _ _ H1 H2 H1 H2 H3))))).
Defined.

End KeyDerivationMore.

(** ** Reading requests and events from the contract *)

Module ReadsFacts.
Import HexCodec Ethers HexFacts Retry Bitcoin KeyDerivationFacts
  KeyDerivationMore EthereumBridgeReads.
Local Open Scope Z_scope.

Lemma slice_to_hex (bs : list byte) : slice (to_hex bs) 2 = to_hex (tl bs).
Proof. destruct bs; reflexivity. Qed.

Section Reads.
Variable keccak_256 : list byte -> list byte.
Variable computeHash160 : string -> string.
Variable EthereumAddress_from : string -> outcome EthereumBridge.ChainIdentifier.
Variable CompactSizeUint_read_byteLength : Hex.t -> outcome Z.
Variable this : Handle.

Lemma parseRedemptionRequest_returned (request : RedemptionRequestTypechain)
    (script : string) (who : EthereumBridge.ChainIdentifier) :
  EthereumAddress_from (t_redeemer request) = Returned who ->
  - Bcoin.MAX_SAFE_INTEGER <= t_requestedAt request <= Bcoin.MAX_SAFE_INTEGER ->
  parseRedemptionRequest EthereumAddress_from request script =
    Returned {| redeemer := who;
                redeemerOutputScript := script;
                requestedAmount := t_requestedAmount request;
                treasuryFee := t_treasuryFee request;
                txMaxFee := t_txMaxFee request;
                requestedAt := t_requestedAt request |}.
Proof.
  intros Hwho Hat. unfold parseRedemptionRequest. rewrite Hwho. cbn [bind].
  now rewrite BuilderFacts.toNumber_safe by assumption.
Qed.

(** X7: [deposits] throws without calling the contract when the hash is
    not 32 bytes or the index is one the packing refuses: 2^32 or more,
    -2^52 or less, or a negative multiple of 2^32.  Otherwise it looks the
    deposit up under the deposit key of the low 32 bits of the index, a
    negative index included, and returns it with the vault absent exactly
    when the contract holds the zero address. *)
Theorem deposits_lookup (depositTxHash : BitcoinTxHash)
    (depositOutputIndex : Z) :
  ((List.length (Hex.bytes depositTxHash) <> 32%nat \/
    2 ^ 32 <= depositOutputIndex \/ depositOutputIndex <= - 2 ^ 52 \/
    (depositOutputIndex < 0 /\ depositOutputIndex mod 2 ^ 32 = 0)) ->
   exists m,
     deposits keccak_256 EthereumAddress_from this depositTxHash
       depositOutputIndex = mkRun 0 (Thrown m)) /\
  (forall deposit who vault,
     List.length (Hex.bytes depositTxHash) = 32%nat ->
     0 <= depositOutputIndex < 2 ^ 32 \/
     (- 2 ^ 52 < depositOutputIndex < 0 /\
      depositOutputIndex mod 2 ^ 32 <> 0) ->
     settled (backoffRetrier (_totalRetryAttempts this)
                (call_deposits (_instance this)
                   (hexlify (keccak_256
                      (rev (Hex.bytes depositTxHash)
                         ++ big_endian 4 (depositOutputIndex mod 2 ^ 32))))))
       = Returned deposit ->
     EthereumAddress_from (t_depositor deposit) = Returned who ->
     (t_vault deposit <> EthereumBridge.AddressZero ->
      EthereumAddress_from (t_vault deposit) = Returned vault) ->
     - Bcoin.MAX_SAFE_INTEGER <= t_revealedAt deposit <= Bcoin.MAX_SAFE_INTEGER ->
     - Bcoin.MAX_SAFE_INTEGER <= t_sweptAt deposit <= Bcoin.MAX_SAFE_INTEGER ->
     settled (deposits keccak_256 EthereumAddress_from this depositTxHash
                depositOutputIndex)
       = Returned
           {| depositor := who;
              amount := t_amount deposit;
              EthereumBridgeReads.vault :=
                if String.eqb (t_vault deposit) EthereumBridge.AddressZero
                then None else Some vault;
              revealedAt := t_revealedAt deposit;
              sweptAt := t_sweptAt deposit;
              depositTreasuryFee := t_depositTreasuryFee deposit |}).
Proof.
  split.
  - intros Hbad. unfold deposits.
    destruct (buildDepositKey_refused keccak_256 depositTxHash
                depositOutputIndex) as [m Hm]; [lia|].
    rewrite Hm. eauto.
  - intros deposit who vault Hlen Hidx Hcall Hwho Hvault Hrev Hswept.
    unfold deposits.
    rewrite (buildDepositKey_accepted keccak_256 _ _ Hlen Hidx).
    cbn [settled]. rewrite Hcall. cbn [bind]. unfold parseDepositRequest.
    rewrite Hwho. cbn [bind].
    destruct (String.eqb (t_vault deposit) EthereumBridge.AddressZero) eqn:Ez.
    + cbn [bind]. now rewrite !BuilderFacts.toNumber_safe by assumption.
    + rewrite Hvault by (intros H; rewrite H, String.eqb_refl in Ez;
                         discriminate Ez).
      cbn [bind]. now rewrite !BuilderFacts.toNumber_safe by assumption.
Qed.

(** X8: for events whose prefix is read as one byte long,
    [getRedemptionRequestedEvents] returns one record per event, in order,
    whose script is the event's script without its first byte, in
    lower-case digits: the script that was prefixed with its length. *)
Theorem getRedemptionRequestedEvents_strips_prefix (events : list EthersEvent) :
  Forall (fun e =>
            CompactSizeUint_read_byteLength
              (Hex.from (args_redeemerOutputScript e)) = Returned 1 /\
            - Bcoin.MAX_SAFE_INTEGER <= blockNumber e <= Bcoin.MAX_SAFE_INTEGER /\
            exists who, EthereumAddress_from (args_redeemer e) = Returned who)
         events ->
  exists records,
    getRedemptionRequestedEvents EthereumAddress_from
      CompactSizeUint_read_byteLength (Returned events) = Returned records /\
    List.length records = List.length events /\
    map ev_redeemerOutputScript records =
      map (fun e => to_hex (tl (Hex.bytes
                                  (Hex.from (args_redeemerOutputScript e)))))
          events /\
    forall prefix raw,
      Hex.bytes (Hex.from (hexlify (prefix :: raw))) = prefix :: raw.
Proof.
  intros Hall. unfold getRedemptionRequestedEvents. cbn [bind].
  induction Hall as [|e rest (Hread & Hblock & who & Hwho) _ IH].
  - exists []. repeat split. intros prefix raw. now rewrite Hex_from_hexlify.
  - destruct IH as (records & Hrun & Hlen & Hmap & Hround).
    eexists. cbn [map_throwing]. unfold parseRedemptionRequestedEvent at 1.
    rewrite Hread. cbn [bind].
    rewrite BuilderFacts.toNumber_safe by assumption. cbn [bind].
    rewrite Hwho. cbn [bind]. rewrite Hrun. cbn [bind].
    split; [reflexivity|]. cbn [List.length map ev_redeemerOutputScript].
    rewrite Hlen, Hmap. repeat split; [|assumption].
    f_equal. unfold Hex.toString. change (1 * 2) with 2.
    apply slice_to_hex.
Qed.

Hypothesis keccak_256_length : forall bs, List.length (keccak_256 bs) = 32%nat.

(** X9: [pendingRedemptions] and [timedOutRedemptions] throw without
    calling the contract when the hash of the wallet public key is not 20
    bytes of hexadecimal digits; otherwise they look the request up under
    the redemption key and return what the contract holds, a zero
    [requestedAt] included, with the script they were called with. *)
Theorem pendingRedemptions_lookup (walletPublicKey script : string) :
  ((~ exists pkh,
        arrayify ("0x" ++ computeHash160 walletPublicKey) = Returned pkh /\
        List.length pkh = 20%nat) ->
   exists m,
     pendingRedemptions keccak_256 computeHash160 EthereumAddress_from this
       walletPublicKey script = mkRun 0 (Thrown m) /\
     timedOutRedemptions keccak_256 computeHash160 EthereumAddress_from this
       walletPublicKey script = mkRun 0 (Thrown m)) /\
  (forall pkh request who,
     arrayify ("0x" ++ computeHash160 walletPublicKey) = Returned pkh ->
     List.length pkh = 20%nat ->
     EthereumAddress_from (t_redeemer request) = Returned who ->
     - Bcoin.MAX_SAFE_INTEGER <= t_requestedAt request <= Bcoin.MAX_SAFE_INTEGER ->
     let key :=
       hexlify (keccak_256
         (keccak_256
            (byte_of_Z (Z.of_nat (List.length (Buffer_from_hex script)))
               :: Buffer_from_hex script) ++ pkh)) in
     let found :=
       {| redeemer := who;
          redeemerOutputScript := script;
          requestedAmount := t_requestedAmount request;
          treasuryFee := t_treasuryFee request;
          txMaxFee := t_txMaxFee request;
          requestedAt := t_requestedAt request |} in
     (settled (backoffRetrier (_totalRetryAttempts this)
                 (call_pendingRedemptions (_instance this) key))
        = Returned request ->
      settled (pendingRedemptions keccak_256 computeHash160
                 EthereumAddress_from this walletPublicKey script)
        = Returned found) /\
     (settled (backoffRetrier (_totalRetryAttempts this)
                 (call_timedOutRedemptions (_instance this) key))
        = Returned request ->
      settled (timedOutRedemptions keccak_256 computeHash160
                 EthereumAddress_from this walletPublicKey script)
        = Returned found)).
Proof.
  split.
  - intros Hbad. unfold pendingRedemptions, timedOutRedemptions.
    rewrite (buildRedemptionKey_cases keccak_256 keccak_256_length).
    destruct (arrayify _) as [pkh|m] eqn:Hw; [|eauto].
    destruct (List.length pkh =? 20)%nat eqn:Hl; [|eauto].
    apply Nat.eqb_eq in Hl. exfalso. apply Hbad. eauto.
  - intros pkh request who Hw Hl Hwho Hat key found.
    unfold pendingRedemptions, timedOutRedemptions.
    rewrite (buildRedemptionKey_eq keccak_256 keccak_256_length _ script pkh
               Hw Hl).
    fold key. cbn [settled].
    split; intros Hcall; rewrite Hcall; cbn [bind];
      now apply parseRedemptionRequest_returned.
Qed.

End Reads.

Import Samples MoreSamples.

Lemma deposits_lookup_sample :
  List.length (Hex.bytes sample_txHash) = 32%nat /\
  - 2 ^ 52 < -4294967297 < 0 /\
  (-4294967297) mod 2 ^ 32 <> 0 /\
  settled (backoffRetrier (_totalRetryAttempts reading_handle)
             (call_deposits (_instance reading_handle)
                (hexlify (sample_hash
                   (rev (Hex.bytes sample_txHash)
                      ++ big_endian 4 4294967295)))))
    = Returned sample_depositRequest /\
  settled (deposits sample_hash sample_address reading_handle sample_txHash
             (-4294967297))
    = Returned
        {| depositor :=
             {| EthereumBridge.identifierHex :=
                  "82883a4c7a8dd73ef165deb402d432613615ced4" |};
           amount := 10000;
           EthereumBridgeReads.vault := None;
           revealedAt := 1654774330;
           sweptAt := 0;
           depositTreasuryFee := 200 |}.
Proof.
  assert (H1 : List.length (Hex.bytes sample_txHash) = 32%nat) by reflexivity.
  assert (H2 : - 2 ^ 52 < -4294967297 < 0) by lia.
  assert (H3 : (-4294967297) mod 2 ^ 32 <> 0) by (intros H; discriminate H).
  assert (H4 : settled (backoffRetrier (_totalRetryAttempts reading_handle)
                 (call_deposits (_instance reading_handle)
                    (hexlify (sample_hash
                       (rev (Hex.bytes sample_txHash)
                          ++ big_endian 4 4294967295)))))
               = Returned sample_depositRequest) by reflexivity.
  assert (H5 : - Bcoin.MAX_SAFE_INTEGER <= t_revealedAt sample_depositRequest
               <= Bcoin.MAX_SAFE_INTEGER)
    by (cbn; unfold Bcoin.MAX_SAFE_INTEGER; lia).
  assert (H6 : - Bcoin.MAX_SAFE_INTEGER <= t_sweptAt sample_depositRequest
               <= Bcoin.MAX_SAFE_INTEGER)
    by (cbn; unfold Bcoin.MAX_SAFE_INTEGER; lia).
  exact (conj H1 (conj H2 (conj H3 (conj H4
    (proj2 (deposits_lookup sample_hash sample_address reading_handle
              sample_txHash (-4294967297))
       sample_depositRequest
       {| EthereumBridge.identifierHex :=
            "82883a4c7a8dd73ef165deb402d432613615ced4" |}
       {| EthereumBridge.identifierHex := "" |}
       H1 (or_intror (conj H2 H3)) H4 eq_refl
       (fun H => False_ind _ (H eq_refl)) H5 H6))))).
Defined.

Lemma getRedemptionRequestedEvents_sample :
  Forall (fun e =>
            sample_read (Hex.from (args_redeemerOutputScript e)) = Returned 1 /\
            - Bcoin.MAX_SAFE_INTEGER <= blockNumber e <= Bcoin.MAX_SAFE_INTEGER /\
            exists who, sample_address (args_redeemer e) = Returned who)
         [sample_event] /\
  exists records,
    getRedemptionRequestedEvents sample_address sample_read
      (Returned [sample_event]) = Returned records /\
    List.length records = 1%nat /\
    map ev_redeemerOutputScript records = [sample_script] /\
    forall prefix raw,
      Hex.bytes (Hex.from (hexlify (prefix :: raw))) = prefix :: raw.
Proof.
  assert (H1 : Forall (fun e =>
            sample_read (Hex.from (args_redeemerOutputScript e)) = Returned 1 /\
            - Bcoin.MAX_SAFE_INTEGER <= blockNumber e <= Bcoin.MAX_SAFE_INTEGER /\
            exists who, sample_address (args_redeemer e) = Returned who)
         [sample_event]).
  { repeat constructor; cbn; unfold Bcoin.MAX_SAFE_INTEGER; try lia.
    eexists; reflexivity. }
  exact (conj H1
    (getRedemptionRequestedEvents_strips_prefix sample_address sample_read
       [sample_event] H1)).
Defined.

Lemma pendingRedemptions_lookup_sample :
  (forall bs, List.length (sample_hash bs) = 32%nat) /\
  arrayify ("0x" ++ sample_computeHash160 "02aa")
    = Returned (Buffer_from_hex sample_walletPublicKeyHash) /\
  settled (pendingRedemptions sample_hash sample_computeHash160 sample_address
             reading_handle "02aa" sample_script)
    = Returned
        {| redeemer :=
             {| EthereumBridge.identifierHex :=
                  "82883a4c7a8dd73ef165deb402d432613615ced4" |};
           redeemerOutputScript := sample_script;
           requestedAmount := 50000;
           treasuryFee := 100;
           txMaxFee := 400;
           requestedAt := 1650623240 |}.
Proof.
  assert (H1 : arrayify ("0x" ++ sample_computeHash160 "02aa")
               = Returned (Buffer_from_hex sample_walletPublicKeyHash))
    by reflexivity.
  assert (H2 : - Bcoin.MAX_SAFE_INTEGER <= t_requestedAt sample_redemption
               <= Bcoin.MAX_SAFE_INTEGER)
    by (cbn; unfold Bcoin.MAX_SAFE_INTEGER; lia).
  pose proof (proj2 (pendingRedemptions_lookup sample_hash sample_computeHash160
                       sample_address reading_handle sample_hash_length
                       "02aa" sample_script)
                (Buffer_from_hex sample_walletPublicKeyHash) sample_redemption
                {| EthereumBridge.identifierHex :=
                     "82883a4c7a8dd73ef165deb402d432613615ced4" |}
                H1 eq_refl eq_refl H2) as H.
  cbv zeta in H.
  exact (conj sample_hash_length (conj H1 (proj1 H eq_refl))).
Defined.

End ReadsFacts.

(** ** The builder: what it returns and what it leaves to the library *)

Module BuilderMore.
Import HexCodec Bcoin Redemption RedemptionSpec BuilderFacts.
Local Open Scope Z_scope.

Lemma settled_bindT {A B : Type} (c : Traced A) (k : A -> Traced B) (b : B) :
  settled (bindT c k) = Returned b ->
  exists a, settled c = Returned a /\ settled (k a) = Returned b.
Proof.
  unfold bindT. destruct (settled c) as [a|m]; cbn [settled];
    [eauto|discriminate].
Qed.

Lemma bindT_mk_returned {A B : Type} (l : list LibCall) (a : A)
    (k : A -> Traced B) :
  bindT (mkTraced l (Returned a)) k
    = mkTraced (l ++ calls (k a)) (settled (k a)).
Proof. reflexivity. Qed.

Lemma toNumber_returned (b n : Z) :
  toNumber b = Returned n ->
  n = b /\ - MAX_SAFE_INTEGER <= b <= MAX_SAFE_INTEGER.
Proof.
  unfold toNumber.
  destruct (- MAX_SAFE_INTEGER <=? b) eqn:E1;
    destruct (b <=? MAX_SAFE_INTEGER) eqn:E2; cbn [andb]; try discriminate.
  intros H; injection H as <-. apply Z.leb_le in E1, E2. auto.
Qed.

Lemma addOutput_returned (tx tx' : MTX) (o : Output) :
  settled (addOutput tx o) = Returned tx' ->
  0 <= Bcoin.value o <= MAX_SAFE_INTEGER /\
  tx' = {| mtx_inputs := mtx_inputs tx;
           mtx_outputs := mtx_outputs tx ++ [o];
           mtx_signedBy := mtx_signedBy tx |}.
Proof.
  unfold addOutput. cbn [settled].
  destruct (0 <=? Bcoin.value o) eqn:E1;
    destruct (Bcoin.value o <=? MAX_SAFE_INTEGER) eqn:E2; cbn [andb];
    try discriminate.
  intros H; injection H as <-. apply Z.leb_le in E1, E2. auto.
Qed.

(** The loop returns only when every amount is one the library accepts. *)
Lemma process_requests_returned (requests : list RedemptionRequest) :
  forall tx fee total x,
  settled (process_requests requests tx fee total) = Returned x ->
  Forall safe_request requests.
Proof.
  induction requests as [|r rest IH]; intros tx fee total x H; [constructor|].
  cbn [process_requests] in H.
  apply settled_bindT in H as (n & Hn & H).
  apply settled_bindT in H as (f & Hf & H).
  apply settled_bindT in H as (v & Hv & H).
  apply settled_bindT in H as (tx' & Htx & H).
  cbn [settled lift] in Hn, Hf, Hv.
  apply toNumber_returned in Hn as [-> Hn].
  apply toNumber_returned in Hf as [-> Hf].
  apply toNumber_returned in Hv as [-> _].
  apply addOutput_returned in Htx as [Hval _]. cbn [Bcoin.value] in Hval.
  constructor; [|eapply IH; eassumption].
  split; [exact Hval|exact Hf].
Qed.

(** The loop stops at the first request whose output amount is negative:
    the library refuses the output. *)
Lemma process_requests_negative (before : list RedemptionRequest) :
  forall request after tx fee total,
  Forall safe_request before ->
  - MAX_SAFE_INTEGER <= outputAmount request < 0 ->
  - MAX_SAFE_INTEGER <= txMaxFee request <= MAX_SAFE_INTEGER ->
  process_requests (before ++ request :: after) tx fee total =
    mkTraced (map AddOutput (map redemptionOutput (before ++ [request])))
      (Thrown "Value must be a uint64.").
Proof.
  induction before as [|r rest IH]; intros request after tx fee total Hall Hneg
    Hfee.
  - cbn [app process_requests]. fold (outputAmount request).
    rewrite (toNumber_safe (outputAmount request)) by lia.
    rewrite bindT_lift_returned.
    rewrite (toNumber_safe (txMaxFee request)) by lia.
    rewrite !bindT_lift_returned.
    apply bindT_thrown. unfold addOutput. cbn [Bcoin.value map].
    destruct (0 <=? outputAmount request) eqn:E; [apply Z.leb_le in E; lia|].
    reflexivity.
  - inversion Hall as [|? ? [Hout Hf] Hrest]; subst.
    cbn [app process_requests]. fold (outputAmount r).
    rewrite (toNumber_safe (outputAmount r)) by lia.
    rewrite bindT_lift_returned.
    rewrite (toNumber_safe (txMaxFee r)) by lia.
    rewrite !bindT_lift_returned.
    change {| script := Script_fromRaw (Buffer_from_hex (redeemerOutputScript r));
              Bcoin.value := outputAmount r |} with (redemptionOutput r).
    rewrite (bindT_returned _ _ _ _ _ _
               (addOutput_uint tx (redemptionOutput r) Hout)
               (IH _ _ _ _ _ Hrest Hneg Hfee)).
    reflexivity.
Qed.

Lemma Coin_fromTX_nth (tx : TX) (index : Z) (o : Output) :
  0 <= index -> nth_error (tx_outputs tx) (Z.to_nat index) = Some o ->
  Coin_fromTX tx index =
    Returned {| coin_tx := tx; coin_index := index;
                coin_value := Bcoin.value o; coin_script := script o |}.
Proof.
  intros Hidx Hnth. unfold Coin_fromTX.
  assert (Z.to_nat index < List.length (tx_outputs tx))%nat
    by (apply nth_error_Some; congruence).
  destruct (0 <=? index) eqn:E1; [|apply Z.leb_gt in E1; lia].
  destruct (index <? _) eqn:E2; [|apply Z.ltb_ge in E2; lia].
  cbn [andb]. now rewrite Hnth.
Qed.

Lemma Coin_fromTX_returned (tx : TX) (index : Z) (coin : Coin) :
  Coin_fromTX tx index = Returned coin ->
  0 <= index /\
  exists o, nth_error (tx_outputs tx) (Z.to_nat index) = Some o /\
            coin = {| coin_tx := tx; coin_index := index;
                      coin_value := Bcoin.value o; coin_script := script o |}.
Proof.
  unfold Coin_fromTX.
  destruct (0 <=? index) eqn:E1; cbn [andb]; [|discriminate].
  destruct (index <? _); [|discriminate].
  destruct (nth_error _ _) as [o|]; [|discriminate].
  intros H; injection H as <-. apply Z.leb_le in E1. eauto.
Qed.

Lemma Coin_fromTX_out_of_range (tx : TX) (index : Z) :
  index < 0 \/ Z.of_nat (List.length (tx_outputs tx)) <= index ->
  exists m, Coin_fromTX tx index = Thrown m.
Proof.
  intros H. unfold Coin_fromTX.
  destruct (0 <=? index) eqn:E1; cbn [andb]; [|eauto].
  destruct (index <? _) eqn:E2; [|eauto].
  apply Z.leb_le in E1. apply Z.ltb_lt in E2. lia.
Qed.

(** The outputs the builder adds itself are worth the larger of the main
    UTXO's value and the outputs plus the fees, less the fees. *)
Lemma outputValue_explicit (address : string) (fundingValue : Z)
    (requests : list RedemptionRequest) :
  outputValue (map redemptionOutput requests
                 ++ changeOutputs address fundingValue requests)
  = Z.max fundingValue (totalOutputs requests + totalFee requests)
    - totalFee requests.
Proof.
  rewrite outputValue_app, outputValue_redemptionOutputs.
  unfold changeOutputs, changeAmount.
  destruct (0 <? _) eqn:E; cbn [outputValue fold_right Bcoin.value].
  - apply Z.ltb_lt in E. lia.
  - apply Z.ltb_ge in E. lia.
Qed.

Section Builder.
Variable createKeyRing : string -> option bool -> outcome KeyRing.
Variable dustThreshold : Script -> Z.
Variable MAX_FEE : Z.

(** Funding a transaction without inputs from a single coin. *)
Lemma fund_single (tx : MTX) (coin : Coin) (changeAddress : string)
    (hardFee : Z) :
  mtx_inputs tx = [] -> 0 <= hardFee ->
  fund dustThreshold MAX_FEE tx [coin] changeAddress hardFee =
    mkTraced [Fund [coin] hardFee]
      (let total := outputValue (mtx_outputs tx) + Z.min hardFee MAX_FEE in
       if coin_value coin <? total then Thrown "Not enough funds."
       else if coin_value coin - total
                 <? dustThreshold (Script_fromAddress changeAddress)
            then Returned {| mtx_inputs := [coin];
                             mtx_outputs := mtx_outputs tx;
                             mtx_signedBy := mtx_signedBy tx |}
            else Returned
                   {| mtx_inputs := [coin];
                      mtx_outputs :=
                        mtx_outputs tx
                          ++ [ {| script := Script_fromAddress changeAddress;
                                  Bcoin.value := coin_value coin - total |} ];
                      mtx_signedBy := mtx_signedBy tx |}).
Proof.
  intros Hin Hfee. unfold fund. rewrite Hin. cbn [List.length Nat.eqb negb].
  destruct (hardFee <? 0) eqn:E; [apply Z.ltb_lt in E; lia|].
  assert (Hsel : forall total, selectCoins [coin] [] total = [coin]).
  { intros total. cbn [selectCoins app]. now destruct (_ <=? _). }
  rewrite Hsel. cbn [inputValue fold_right script]. rewrite Z.add_0_r.
  reflexivity.
Qed.

Lemma fund_returned (tx tx' : MTX) (coin : Coin) (changeAddress : string)
    (hardFee : Z) :
  mtx_inputs tx = [] ->
  settled (fund dustThreshold MAX_FEE tx [coin] changeAddress hardFee)
    = Returned tx' ->
  exists left,
    tx' = {| mtx_inputs := [coin];
             mtx_outputs := mtx_outputs tx ++ left;
             mtx_signedBy := mtx_signedBy tx |} /\
    Forall (fun o => script o = Script_fromAddress changeAddress) left /\
    outputValue (mtx_outputs tx ++ left) + Z.min hardFee MAX_FEE
      <= coin_value coin.
Proof.
  intros Hin H.
  destruct (hardFee <? 0) eqn:E.
  { unfold fund in H. rewrite Hin, E in H. cbn in H. discriminate H. }
  apply Z.ltb_ge in E. rewrite fund_single in H by assumption.
  cbn [settled] in H. cbv zeta in H.
  destruct (coin_value coin <? _) eqn:E1; [discriminate H|].
  apply Z.ltb_ge in E1.
  destruct (_ <? dustThreshold _) eqn:E2; injection H as <-.
  - exists []. rewrite app_nil_r. repeat split; [constructor|exact E1].
  - eexists. split; [reflexivity|]. split; [repeat constructor|].
    rewrite outputValue_app. cbn [outputValue fold_right Bcoin.value]. lia.
Qed.

(** The builder up to the funding: with a key ring, a funding output and
    amounts the library accepts, the outputs of the requests and the
    change are added, and the rest is the library's funding, then the
    signature. *)
Lemma createRedemptionTransaction_to_fund
    (walletPrivateKey : string) (mainUtxo : UtxoWithRaw)
    (requests : list RedemptionRequest) (witness : bool)
    (ring : KeyRing) (fundingOutput : Output) :
  requests <> [] ->
  createKeyRing walletPrivateKey (Some witness) = Returned ring ->
  0 <= outputIndex (utxo mainUtxo) ->
  nth_error (tx_outputs (transactionHex (raw mainUtxo)))
            (Z.to_nat (outputIndex (utxo mainUtxo))) = Some fundingOutput ->
  Forall safe_request requests ->
  changeAmount (value (utxo mainUtxo)) requests <= MAX_SAFE_INTEGER ->
  createRedemptionTransaction createKeyRing dustThreshold MAX_FEE
    walletPrivateKey mainUtxo requests witness =
  bindT
    (mkTraced
       (map AddOutput
          (map redemptionOutput requests
             ++ changeOutputs (getAddress ring) (value (utxo mainUtxo))
                  requests))
       (Returned
          {| mtx_inputs := [];
             mtx_outputs :=
               map redemptionOutput requests
                 ++ changeOutputs (getAddress ring) (value (utxo mainUtxo))
                      requests;
             mtx_signedBy := None |}))
    (fun transaction =>
       bindT (fund dustThreshold MAX_FEE transaction
                [fundingCoin mainUtxo fundingOutput] (getAddress ring)
                (totalFee requests))
         (fun transaction =>
            bindT (sign transaction ring)
              (fun transaction => pure {| transactionHex := toRaw transaction |}))).
Proof.
  intros Hne Hring Hidx Hnth Hsafe Hchange.
  unfold createRedemptionTransaction.
  destruct (List.length requests <? 1)%nat eqn:Elen.
  { apply Nat.ltb_lt in Elen. destruct requests; [congruence|cbn in Elen; lia]. }
  rewrite Hring, bindT_lift_returned. unfold MTX_fromRaw.
  rewrite (Coin_fromTX_nth _ _ fundingOutput Hidx Hnth), bindT_lift_returned.
  fold (fundingCoin mainUtxo fundingOutput).
  rewrite (process_requests_safe requests new_MTX 0 0 Hsafe).
  rewrite !bindT_mk_returned. cbv beta iota. rewrite !Z.add_0_l.
  cbn [new_MTX mtx_inputs mtx_outputs mtx_signedBy app].
  unfold changeOutputs, changeAmount in *.
  destruct (0 <? value (utxo mainUtxo) - totalOutputs requests
                 - totalFee requests) eqn:Echange.
  - apply Z.ltb_lt in Echange.
    rewrite addOutput_uint by (cbn [Bcoin.value]; lia).
    rewrite bindT_mk_returned.
    cbn [calls settled mtx_inputs mtx_outputs mtx_signedBy].
    rewrite !map_app, <- !app_assoc. reflexivity.
  - rewrite bindT_pure, !app_nil_r. reflexivity.
Qed.

(** What a returned transaction looks like, whatever the arguments. *)
Lemma createRedemptionTransaction_returned_inv
    (walletPrivateKey : string) (mainUtxo : UtxoWithRaw)
    (requests : list RedemptionRequest) (witness : bool)
    (t : RawTransaction) :
  settled (createRedemptionTransaction createKeyRing dustThreshold MAX_FEE
             walletPrivateKey mainUtxo requests witness) = Returned t ->
  requests <> [] /\
  exists ring fundingOutput left,
    createKeyRing walletPrivateKey (Some witness) = Returned ring /\
    0 <= outputIndex (utxo mainUtxo) /\
    nth_error (tx_outputs (transactionHex (raw mainUtxo)))
              (Z.to_nat (outputIndex (utxo mainUtxo))) = Some fundingOutput /\
    Forall safe_request requests /\
    t = {| transactionHex :=
             mkTX [mkOutpoint (transactionHex (raw mainUtxo))
                     (outputIndex (utxo mainUtxo))]
                  (map redemptionOutput requests
                     ++ changeOutputs (getAddress ring)
                          (value (utxo mainUtxo)) requests
                     ++ left)
                  (Some ring) |} /\
    Forall (fun o => script o = Script_fromAddress (getAddress ring)) left /\
    outputValue (map redemptionOutput requests
                   ++ changeOutputs (getAddress ring)
                        (value (utxo mainUtxo)) requests
                   ++ left)
      + Z.min (totalFee requests) MAX_FEE <= Bcoin.value fundingOutput.
Proof.
  intros H.
  assert (Hne : requests <> []).
  { intros ->. cbn in H. discriminate H. }
  split; [exact Hne|].
  pose proof H as H0. unfold createRedemptionTransaction in H0.
  destruct (List.length requests <? 1)%nat; [discriminate H0|].
  apply settled_bindT in H0 as (ring & Hring & H0).
  apply settled_bindT in H0 as (coin & Hcoin & H0).
  apply settled_bindT in H0 as ([[tx fee] total] & Hproc & H0).
  cbn [settled lift] in Hring, Hcoin. unfold MTX_fromRaw in Hcoin.
  apply Coin_fromTX_returned in Hcoin as (Hidx & fundingOutput & Hnth & Hcoin).
  pose proof (process_requests_returned _ _ _ _ _ Hproc) as Hsafe.
  rewrite (process_requests_safe _ _ _ _ Hsafe) in Hproc.
  cbn [settled] in Hproc. injection Hproc as <- <- <-.
  cbv beta iota in H0. rewrite ?Z.add_0_l in H0.
  apply settled_bindT in H0 as (tx1 & Hchange & _).
  assert (Hmax : changeAmount (value (utxo mainUtxo)) requests
                 <= MAX_SAFE_INTEGER).
  { unfold changeAmount.
    destruct (0 <? _) eqn:E in Hchange.
    - apply addOutput_returned in Hchange as [Hv _]. cbn [Bcoin.value] in Hv.
      lia.
    - apply Z.ltb_ge in E. assert (0 < MAX_SAFE_INTEGER) by reflexivity. lia. }
  rewrite (createRedemptionTransaction_to_fund walletPrivateKey mainUtxo
             requests witness ring fundingOutput Hne Hring Hidx Hnth Hsafe Hmax)
    in H.
  rewrite bindT_mk_returned in H. cbn [settled] in H.
  apply settled_bindT in H as (tx2 & Hfund & H).
  apply settled_bindT in H as (tx3 & Hsign & H).
  apply fund_returned in Hfund as (left & -> & Hleft & Hvalue); [|reflexivity].
  cbn [sign settled mtx_inputs mtx_outputs mtx_signedBy] in Hsign.
  injection Hsign as <-. cbn [pure settled] in H. injection H as <-.
  exists ring, fundingOutput, left.
  cbn [mtx_outputs fundingCoin coin_value] in Hvalue.
  rewrite <- app_assoc in Hvalue.
  repeat split; try assumption.
  cbn [toRaw mtx_inputs mtx_outputs mtx_signedBy map fundingCoin coin_tx
       coin_index].
  now rewrite <- app_assoc.
Qed.

(** X10: when no fee share is negative and the value of the main UTXO and
    the sum of the amounts and fee shares are within the safe integers (so
    that the sums of the source are exact), every transaction the builder
    returns, whatever its other arguments, spends exactly the output the
    main UTXO names in its raw transaction, is signed with the key ring of
    the private key, pays each request, in order, its amount (which is not
    negative) on its script, then the change computed from
    [mainUtxo.value], then only outputs on the wallet's address, and pays a
    fee of at least the sum of the fee shares, capped by the library. *)
Theorem createRedemptionTransaction_returns_signed_redemption
    (walletPrivateKey : string) (mainUtxo : UtxoWithRaw)
    (requests : list RedemptionRequest) (witness : bool)
    (t : RawTransaction) :
  settled (createRedemptionTransaction createKeyRing dustThreshold MAX_FEE
             walletPrivateKey mainUtxo requests witness) = Returned t ->
  Forall (fun r => 0 <= txMaxFee r) requests ->
  totalOutputs requests + totalFee requests <= MAX_SAFE_INTEGER ->
  0 <= value (utxo mainUtxo) <= MAX_SAFE_INTEGER ->
  requests <> [] /\
  exists ring left,
    createKeyRing walletPrivateKey (Some witness) = Returned ring /\
    transactionHex t =
      mkTX [mkOutpoint (transactionHex (raw mainUtxo))
              (outputIndex (utxo mainUtxo))]
           (map redemptionOutput requests
              ++ changeOutputs (getAddress ring) (value (utxo mainUtxo))
                   requests
              ++ left)
           (Some ring) /\
    Forall (fun o => script o = Script_fromAddress (getAddress ring)) left /\
    Forall (fun r => 0 <= outputAmount r) requests /\
    Z.min (totalFee requests) MAX_FEE <= tx_fee (transactionHex t).
Proof.
  intros H _ _ _.
  apply createRedemptionTransaction_returned_inv in H
    as (Hne & ring & fundingOutput & left & Hring & Hidx & Hnth & Hsafe & ->
        & Hleft & Hvalue).
  split; [exact Hne|]. exists ring, left.
  repeat split; try assumption.
  - eapply Forall_impl; [|exact Hsafe]. intros r [[Hout _] _]. exact Hout.
  - unfold tx_fee.
    cbn [transactionHex tx_inputs tx_outputs fold_right prev_tx prev_index].
    rewrite Hnth. lia.
Qed.

(** X11: the value of the main UTXO is not compared with the output the
    raw transaction holds.  When that output holds at least the larger of
    [mainUtxo.value] and the outputs plus the fees, the transaction is
    built, and what the output holds beyond that goes to a further output
    on the wallet's address, or, below the dust threshold, to the fee. *)
Theorem createRedemptionTransaction_surplus_to_change_or_fee
    (walletPrivateKey : string) (mainUtxo : UtxoWithRaw)
    (requests : list RedemptionRequest) (witness : bool)
    (ring : KeyRing) (fundingOutput : Output) :
  requests <> [] ->
  createKeyRing walletPrivateKey (Some witness) = Returned ring ->
  0 <= outputIndex (utxo mainUtxo) ->
  nth_error (tx_outputs (transactionHex (raw mainUtxo)))
            (Z.to_nat (outputIndex (utxo mainUtxo))) = Some fundingOutput ->
  Forall (fun r => 0 <= outputAmount r /\ 0 <= txMaxFee r) requests ->
  totalOutputs requests + totalFee requests <= MAX_SAFE_INTEGER ->
  value (utxo mainUtxo) <= MAX_SAFE_INTEGER ->
  totalFee requests <= MAX_FEE ->
  Z.max (value (utxo mainUtxo)) (totalOutputs requests + totalFee requests)
    <= Bcoin.value fundingOutput ->
  let surplus :=
    Bcoin.value fundingOutput
    - Z.max (value (utxo mainUtxo))
            (totalOutputs requests + totalFee requests) in
  let wallet := Script_fromAddress (getAddress ring) in
  let built :=
    mkTX [mkOutpoint (transactionHex (raw mainUtxo))
            (outputIndex (utxo mainUtxo))]
         (map redemptionOutput requests
            ++ changeOutputs (getAddress ring) (value (utxo mainUtxo)) requests
            ++ (if surplus <? dustThreshold wallet then []
                else [ {| script := wallet; Bcoin.value := surplus |} ]))
         (Some ring) in
  settled (createRedemptionTransaction createKeyRing dustThreshold MAX_FEE
             walletPrivateKey mainUtxo requests witness)
    = Returned {| transactionHex := built |} /\
  tx_fee built
    = totalFee requests + (if surplus <? dustThreshold wallet then surplus else 0).
Proof.
  intros Hne Hring Hidx Hnth Hamounts Htotal Hvalue Hcap Hcover surplus wallet.
  destruct (totals_nonneg requests Hamounts) as [Hto Htf].
  assert (Hsafe : Forall safe_request requests).
  { apply (safe_requests_of_total requests MAX_SAFE_INTEGER Hamounts). lia. }
  assert (Hchange : changeAmount (value (utxo mainUtxo)) requests
                    <= MAX_SAFE_INTEGER) by (unfold changeAmount; lia).
  rewrite (createRedemptionTransaction_to_fund walletPrivateKey mainUtxo
             requests witness ring fundingOutput Hne Hring Hidx Hnth Hsafe
             Hchange).
  rewrite bindT_mk_returned, fund_single by (auto; reflexivity).
  cbn [settled mtx_outputs mtx_inputs mtx_signedBy fundingCoin coin_value].
  cbv zeta. rewrite outputValue_explicit, (Z.min_l _ _ Hcap).
  replace (Z.max (value (utxo mainUtxo))
                 (totalOutputs requests + totalFee requests)
           - totalFee requests + totalFee requests)
    with (Z.max (value (utxo mainUtxo))
                (totalOutputs requests + totalFee requests)) by lia.
  destruct (Bcoin.value fundingOutput <? _) eqn:E1;
    [apply Z.ltb_lt in E1; lia|].
  fold surplus. fold wallet.
  unfold tx_fee.
  cbn [tx_inputs tx_outputs fold_right prev_tx prev_index]. rewrite Hnth.
  rewrite app_assoc, outputValue_app, outputValue_explicit.
  destruct (surplus <? dustThreshold wallet) eqn:E2.
  - split.
    + unfold bindT. cbn. now rewrite !app_nil_r.
    + cbn [outputValue fold_right]. unfold surplus. lia.
  - split.
    + unfold bindT. cbn. now rewrite <- !app_assoc.
    + cbn [outputValue fold_right Bcoin.value]. unfold surplus. lia.
Qed.

(** X12: when the output the raw transaction holds is worth less than the
    larger of [mainUtxo.value] and the outputs plus the fees, the builder
    adds its outputs, the library refuses to fund them, and the builder
    throws without a signature. *)
Theorem createRedemptionTransaction_not_enough_funds
    (walletPrivateKey : string) (mainUtxo : UtxoWithRaw)
    (requests : list RedemptionRequest) (witness : bool)
    (ring : KeyRing) (fundingOutput : Output) :
  requests <> [] ->
  createKeyRing walletPrivateKey (Some witness) = Returned ring ->
  0 <= outputIndex (utxo mainUtxo) ->
  nth_error (tx_outputs (transactionHex (raw mainUtxo)))
            (Z.to_nat (outputIndex (utxo mainUtxo))) = Some fundingOutput ->
  Forall (fun r => 0 <= outputAmount r /\ 0 <= txMaxFee r) requests ->
  totalOutputs requests + totalFee requests <= MAX_SAFE_INTEGER ->
  value (utxo mainUtxo) <= MAX_SAFE_INTEGER ->
  totalFee requests <= MAX_FEE ->
  Bcoin.value fundingOutput
    < Z.max (value (utxo mainUtxo))
            (totalOutputs requests + totalFee requests) ->
  createRedemptionTransaction createKeyRing dustThreshold MAX_FEE
    walletPrivateKey mainUtxo requests witness
  = mkTraced
      (map AddOutput
         (map redemptionOutput requests
            ++ changeOutputs (getAddress ring) (value (utxo mainUtxo)) requests)
       ++ [Fund [fundingCoin mainUtxo fundingOutput] (totalFee requests)])
      (Thrown "Not enough funds.").
Proof.
  intros Hne Hring Hidx Hnth Hamounts Htotal Hvalue Hcap Hshort.
  destruct (totals_nonneg requests Hamounts) as [Hto Htf].
  assert (Hsafe : Forall safe_request requests).
  { apply (safe_requests_of_total requests MAX_SAFE_INTEGER Hamounts). lia. }
  assert (Hchange : changeAmount (value (utxo mainUtxo)) requests
                    <= MAX_SAFE_INTEGER) by (unfold changeAmount; lia).
  rewrite (createRedemptionTransaction_to_fund walletPrivateKey mainUtxo
             requests witness ring fundingOutput Hne Hring Hidx Hnth Hsafe
             Hchange).
  rewrite bindT_mk_returned, fund_single by (auto; reflexivity).
  cbn [settled mtx_outputs mtx_inputs mtx_signedBy fundingCoin coin_value].
  cbv zeta. rewrite outputValue_explicit, (Z.min_l _ _ Hcap).
  destruct (Bcoin.value fundingOutput <? _) eqn:E1;
    [|apply Z.ltb_ge in E1; lia].
  reflexivity.
Qed.

(** X13: a request whose amount is less than its fee share and treasury fee
    is not checked by the builder, but its negative output is refused by the
    library: the outputs of the requests before it have been added, nothing
    is funded or signed, and the builder throws. *)
Theorem createRedemptionTransaction_negative_output_refused
    (walletPrivateKey : string) (mainUtxo : UtxoWithRaw)
    (before : list RedemptionRequest) (request : RedemptionRequest)
    (after : list RedemptionRequest) (witness : bool)
    (ring : KeyRing) (fundingOutput : Output) :
  createKeyRing walletPrivateKey (Some witness) = Returned ring ->
  0 <= outputIndex (utxo mainUtxo) ->
  nth_error (tx_outputs (transactionHex (raw mainUtxo)))
            (Z.to_nat (outputIndex (utxo mainUtxo))) = Some fundingOutput ->
  Forall safe_request before ->
  requestedAmount request < txMaxFee request + treasuryFee request ->
  - MAX_SAFE_INTEGER <= outputAmount request ->
  - MAX_SAFE_INTEGER <= txMaxFee request <= MAX_SAFE_INTEGER ->
  createRedemptionTransaction createKeyRing dustThreshold MAX_FEE
    walletPrivateKey mainUtxo (before ++ request :: after) witness
  = mkTraced (map AddOutput (map redemptionOutput (before ++ [request])))
      (Thrown "Value must be a uint64.").
Proof.
  intros Hring Hidx Hnth Hsafe Hless Hmin Hfee.
  unfold createRedemptionTransaction.
  destruct (List.length (before ++ request :: after) <? 1)%nat eqn:Elen.
  { apply Nat.ltb_lt in Elen. rewrite length_app in Elen. cbn in Elen. lia. }
  rewrite Hring, bindT_lift_returned. unfold MTX_fromRaw.
  rewrite (Coin_fromTX_nth _ _ fundingOutput Hidx Hnth), bindT_lift_returned.
  apply bindT_thrown. apply process_requests_negative; auto.
  unfold outputAmount in *. lia.
Qed.

(** X14: with a non-empty list, the builder throws before anything is
    added to the transaction when the key ring cannot be created or when
    the output index is outside the outputs of the raw transaction. *)
Theorem createRedemptionTransaction_fails_before_any_output
    (walletPrivateKey : string) (mainUtxo : UtxoWithRaw)
    (requests : list RedemptionRequest) (witness : bool) :
  requests <> [] ->
  (exists m, createKeyRing walletPrivateKey (Some witness) = Thrown m) \/
  outputIndex (utxo mainUtxo) < 0 \/
  Z.of_nat (List.length (tx_outputs (transactionHex (raw mainUtxo))))
    <= outputIndex (utxo mainUtxo) ->
  exists m,
    createRedemptionTransaction createKeyRing dustThreshold MAX_FEE
      walletPrivateKey mainUtxo requests witness = mkTraced [] (Thrown m).
Proof.
  intros Hne Hbad. unfold createRedemptionTransaction.
  destruct (List.length requests <? 1)%nat eqn:Elen.
  { apply Nat.ltb_lt in Elen. destruct requests; [congruence|cbn in Elen; lia]. }
  destruct (createKeyRing walletPrivateKey (Some witness)) as [ring|m] eqn:Hring.
  - rewrite bindT_lift_returned.
    destruct Hbad as [[m Hm]|Hrange]; [discriminate Hm|].
    destruct (Coin_fromTX_out_of_range (transactionHex (raw mainUtxo))
                (outputIndex (utxo mainUtxo)) Hrange) as [m Hm].
    unfold MTX_fromRaw. rewrite Hm, bindT_lift_thrown. eauto.
  - rewrite bindT_lift_thrown. eauto.
Qed.

End Builder.

Import Samples MoreSamples.

Lemma createRedemptionTransaction_returned_sample :
  settled (createRedemptionTransaction sample_createKeyRing
             sample_dustThreshold sample_MAX_FEE "key" (sample_mainUtxo 100000)
             [sample_request 50000] true) = Returned sample_built /\
  Forall (fun r => 0 <= txMaxFee r) [sample_request 50000] /\
  totalOutputs [sample_request 50000] + totalFee [sample_request 50000]
    <= MAX_SAFE_INTEGER /\
  0 <= value (utxo (sample_mainUtxo 100000)) <= MAX_SAFE_INTEGER /\
  [sample_request 50000] <> [] /\
  exists ring left,
    sample_createKeyRing "key" (Some true) = Returned ring /\
    transactionHex sample_built =
      mkTX [mkOutpoint (funding_tx 100000) 0]
           (map redemptionOutput [sample_request 50000]
              ++ changeOutputs (getAddress ring) 100000 [sample_request 50000]
              ++ left)
           (Some ring) /\
    Forall (fun o => script o = Script_fromAddress (getAddress ring)) left /\
    Forall (fun r => 0 <= outputAmount r) [sample_request 50000] /\
    Z.min (totalFee [sample_request 50000]) sample_MAX_FEE
      <= tx_fee (transactionHex sample_built).
Proof.
  assert (H1 : settled (createRedemptionTransaction sample_createKeyRing
                          sample_dustThreshold sample_MAX_FEE "key"
                          (sample_mainUtxo 100000) [sample_request 50000] true)
               = Returned sample_built) by reflexivity.
  assert (H2 : Forall (fun r => 0 <= txMaxFee r) [sample_request 50000])
    by (repeat constructor; cbn; lia).
  assert (H3 : totalOutputs [sample_request 50000]
               + totalFee [sample_request 50000] <= MAX_SAFE_INTEGER)
    by (cbn; unfold MAX_SAFE_INTEGER; lia).
  assert (H4 : 0 <= value (utxo (sample_mainUtxo 100000)) <= MAX_SAFE_INTEGER)
    by (cbn; unfold MAX_SAFE_INTEGER; lia).
  exact (conj H1 (conj H2 (conj H3 (conj H4
    (createRedemptionTransaction_returns_signed_redemption sample_createKeyRing
       sample_dustThreshold sample_MAX_FEE "key" (sample_mainUtxo 100000)
       [sample_request 50000] true sample_built H1 H2 H3 H4))))).
Defined.

Lemma createRedemptionTransaction_surplus_sample :
  [sample_request 50000] <> [] /\
  Forall (fun r => 0 <= outputAmount r /\ 0 <= txMaxFee r)
         [sample_request 50000] /\
  totalFee [sample_request 50000] <= sample_MAX_FEE /\
  Z.max (value (utxo understated_mainUtxo))
        (totalOutputs [sample_request 50000] + totalFee [sample_request 50000])
    <= 100300 /\
  settled (createRedemptionTransaction sample_createKeyRing
             sample_dustThreshold sample_MAX_FEE "key" understated_mainUtxo
             [sample_request 50000] true)
    = Returned
        {| transactionHex :=
             mkTX [mkOutpoint (funding_tx 100300) 0]
                  [ {| script := Script_fromRaw (Buffer_from_hex sample_script);
                       Bcoin.value := 49500 |};
                    {| script := Script_fromAddress "wallet";
                       Bcoin.value := 50100 |} ]
                  (Some sample_ring) |} /\
  tx_fee (mkTX [mkOutpoint (funding_tx 100300) 0]
               [ {| script := Script_fromRaw (Buffer_from_hex sample_script);
                    Bcoin.value := 49500 |};
                 {| script := Script_fromAddress "wallet";
                    Bcoin.value := 50100 |} ]
               (Some sample_ring)) = 700.
Proof.
  assert (H1 : [sample_request 50000] <> []) by discriminate.
  assert (H2 : 0 <= outputIndex (utxo understated_mainUtxo)) by (cbn; lia).
  assert (H3 : Forall (fun r => 0 <= outputAmount r /\ 0 <= txMaxFee r)
                      [sample_request 50000])
    by (repeat constructor; cbn; lia).
  assert (H4 : totalOutputs [sample_request 50000]
               + totalFee [sample_request 50000] <= MAX_SAFE_INTEGER)
    by (cbn; unfold MAX_SAFE_INTEGER; lia).
  assert (H5 : value (utxo understated_mainUtxo) <= MAX_SAFE_INTEGER)
    by (cbn; unfold MAX_SAFE_INTEGER; lia).
  assert (H6 : totalFee [sample_request 50000] <= sample_MAX_FEE)
    by (cbn; unfold sample_MAX_FEE; lia).
  assert (H7 : Z.max (value (utxo understated_mainUtxo))
                     (totalOutputs [sample_request 50000]
                      + totalFee [sample_request 50000]) <= 100300)
    by (cbn; lia).
  exact (conj H1 (conj H3 (conj H6 (conj H7
    (createRedemptionTransaction_surplus_to_change_or_fee sample_createKeyRing
       sample_dustThreshold sample_MAX_FEE "key" understated_mainUtxo
       [sample_request 50000] true sample_ring
       {| script := Script_fromAddress "wallet"; Bcoin.value := 100300 |}
       H1 eq_refl H2 eq_refl H3 H4 H5 H6 H7))))).
Defined.

Lemma createRedemptionTransaction_not_enough_funds_sample :
  [sample_request 50000] <> [] /\
  Forall (fun r => 0 <= outputAmount r /\ 0 <= txMaxFee r)
         [sample_request 50000] /\
  totalFee [sample_request 50000] <= sample_MAX_FEE /\
  100 < Z.max (value (utxo (sample_mainUtxo 100)))
              (totalOutputs [sample_request 50000]
               + totalFee [sample_request 50000]) /\
  createRedemptionTransaction sample_createKeyRing sample_dustThreshold
    sample_MAX_FEE "key" (sample_mainUtxo 100) [sample_request 50000] true
  = mkTraced
      [AddOutput {| script := Script_fromRaw (Buffer_from_hex sample_script);
                    Bcoin.value := 49500 |};
       Fund [fundingCoin (sample_mainUtxo 100)
               {| script := Script_fromAddress "wallet"; Bcoin.value := 100 |}]
            400]
      (Thrown "Not enough funds.").
Proof.
  assert (H1 : [sample_request 50000] <> []) by discriminate.
  assert (H2 : 0 <= outputIndex (utxo (sample_mainUtxo 100))) by (cbn; lia).
  assert (H3 : Forall (fun r => 0 <= outputAmount r /\ 0 <= txMaxFee r)
                      [sample_request 50000])
    by (repeat constructor; cbn; lia).
  assert (H4 : totalOutputs [sample_request 50000]
               + totalFee [sample_request 50000] <= MAX_SAFE_INTEGER)
    by (cbn; unfold MAX_SAFE_INTEGER; lia).
  assert (H5 : value (utxo (sample_mainUtxo 100)) <= MAX_SAFE_INTEGER)
    by (cbn; unfold MAX_SAFE_INTEGER; lia).
  assert (H6 : totalFee [sample_request 50000] <= sample_MAX_FEE)
    by (cbn; unfold sample_MAX_FEE; lia).
  assert (H7 : 100 < Z.max (value (utxo (sample_mainUtxo 100)))
                           (totalOutputs [sample_request 50000]
                            + totalFee [sample_request 50000]))
    by (cbn; lia).
  exact (conj H1 (conj H3 (conj H6 (conj H7
    (createRedemptionTransaction_not_enough_funds sample_createKeyRing
       sample_dustThreshold sample_MAX_FEE "key" (sample_mainUtxo 100)
       [sample_request 50000] true sample_ring
       {| script := Script_fromAddress "wallet"; Bcoin.value := 100 |}
       H1 eq_refl H2 eq_refl H3 H4 H5 H6 H7))))).
Defined.

Lemma createRedemptionTransaction_negative_output_sample :
  requestedAmount (sample_request 300)
    < txMaxFee (sample_request 300) + treasuryFee (sample_request 300) /\
  - MAX_SAFE_INTEGER <= outputAmount (sample_request 300) /\
  createRedemptionTransaction sample_createKeyRing sample_dustThreshold
    sample_MAX_FEE "key" (sample_mainUtxo 100000)
    [sample_request 300; sample_request 50000] true
  = mkTraced
      [AddOutput {| script := Script_fromRaw (Buffer_from_hex sample_script);
                    Bcoin.value := -200 |}]
      (Thrown "Value must be a uint64.").
Proof.
  assert (H1 : 0 <= outputIndex (utxo (sample_mainUtxo 100000))) by (cbn; lia).
  assert (H2 : requestedAmount (sample_request 300)
               < txMaxFee (sample_request 300)
                 + treasuryFee (sample_request 300)) by (cbn; lia).
  assert (H3 : - MAX_SAFE_INTEGER <= outputAmount (sample_request 300))
    by (cbn; unfold MAX_SAFE_INTEGER; lia).
  assert (H4 : - MAX_SAFE_INTEGER <= txMaxFee (sample_request 300)
               <= MAX_SAFE_INTEGER)
    by (cbn; unfold MAX_SAFE_INTEGER; lia).
  exact (conj H2 (conj H3
    (createRedemptionTransaction_negative_output_refused sample_createKeyRing
       sample_dustThreshold sample_MAX_FEE "key" (sample_mainUtxo 100000)
       [] (sample_request 300) [sample_request 50000] true sample_ring
       {| script := Script_fromAddress "wallet"; Bcoin.value := 100000 |}
       eq_refl H1 eq_refl (Forall_nil _) H2 H3 H4))).
Defined.

Lemma createRedemptionTransaction_misplaced_sample :
  [sample_request 50000] <> [] /\
  Z.of_nat (List.length (tx_outputs (transactionHex (raw misplaced_mainUtxo))))
    <= outputIndex (utxo misplaced_mainUtxo) /\
  exists m,
    createRedemptionTransaction sample_createKeyRing sample_dustThreshold
      sample_MAX_FEE "key" misplaced_mainUtxo [sample_request 50000] true
    = mkTraced [] (Thrown m).
Proof.
  assert (H1 : [sample_request 50000] <> []) by discriminate.
  assert (H2 : Z.of_nat (List.length (tx_outputs
                           (transactionHex (raw misplaced_mainUtxo))))
               <= outputIndex (utxo misplaced_mainUtxo)) by (cbn; lia).
  exact (conj H1 (conj H2
    (createRedemptionTransaction_fails_before_any_output sample_createKeyRing
       sample_dustThreshold sample_MAX_FEE "key" misplaced_mainUtxo
       [sample_request 50000] true H1 (or_intror (or_intror H2))))).
Defined.

End BuilderMore.

(** ** The whole redemption: fetch, build, broadcast *)

Module FlowFacts.
Import HexCodec Bcoin Redemption RedemptionSpec BuilderFacts BuilderMore
  FetchFacts RedemptionFlow.
Local Open Scope Z_scope.

Lemma fetch_loop_returned (bridge : Bridge) (w : string)
    (scripts : list string) :
  forall acc out,
  fetch_loop bridge w scripts acc = Returned out ->
  exists found, out = (acc ++ found)%list /\
                Forall2 (fetched bridge w) scripts found.
Proof.
  induction scripts as [|s rest IH]; intros acc out H.
  - cbn [fetch_loop] in H. injection H as <-. exists [].
    rewrite app_nil_r. split; constructor.
  - cbn [fetch_loop] in H.
    destruct (pendingRedemptions bridge w s) as [p|m] eqn:Hp;
      [|discriminate H].
    cbn [bind] in H.
    destruct (requestedAt p =? 0) eqn:E; [discriminate H|].
    apply Z.eqb_neq in E.
    apply IH in H as (found & -> & Hfound).
    exists (spread_with_script p s :: found). rewrite <- app_assoc.
    split; [reflexivity|]. constructor; [exists p; auto|assumption].
Qed.

Lemma fetch_loop_fetched (bridge : Bridge) (w : string)
    (scripts : list string) (requests : list RedemptionRequest) :
  Forall2 (fetched bridge w) scripts requests ->
  forall acc, fetch_loop bridge w scripts acc = Returned (acc ++ requests)%list.
Proof.
  induction 1 as [|s r scripts requests (p & Hp & Hat & ->) _ IH]; intros acc.
  - cbn [fetch_loop]. now rewrite app_nil_r.
  - cbn [fetch_loop]. rewrite Hp. cbn [bind].
    destruct (requestedAt p =? 0) eqn:E; [apply Z.eqb_eq in E; contradiction|].
    rewrite IH. now rewrite <- app_assoc.
Qed.

Lemma fetched_scripts (bridge : Bridge) (w : string)
    (scripts : list string) (requests : list RedemptionRequest) :
  Forall2 (fetched bridge w) scripts requests ->
  map redeemerOutputScript requests = scripts /\
  Forall (fun r => requestedAt r <> 0) requests.
Proof.
  induction 1 as [|s r scripts requests (p & Hp & Hat & ->) _ [IH1 IH2]].
  - split; constructor.
  - split.
    + cbn [map spread_with_script redeemerOutputScript]. now rewrite IH1.
    + constructor; assumption.
Qed.

Lemma changeOutputs_wallet (address : string) (fundingValue : Z)
    (requests : list RedemptionRequest) :
  Forall (fun o => script o = Script_fromAddress address)
         (changeOutputs address fundingValue requests).
Proof. unfold changeOutputs. destruct (0 <? _); repeat constructor. Qed.

Lemma redemptionOutput_scripts (requests : list RedemptionRequest) :
  map script (map redemptionOutput requests)
  = map (fun s => Script_fromRaw (Buffer_from_hex s))
        (map redeemerOutputScript requests).
Proof. rewrite !map_map. reflexivity. Qed.

Section Flow.
Variable createKeyRing : string -> option bool -> outcome KeyRing.
Variable hash160 : list byte -> list byte.
Variable dustThreshold : Script -> Z.
Variable MAX_FEE : Z.

(** X15: whenever [fetchRedemptionRequests] returns, it returns one request
    per script, in order and under the script given, each made of a record
    the ledger holds; none of them has a zero [requestedAt]. *)
Theorem fetchRedemptionRequests_returns_only_pending (bridge : Bridge)
    (walletPrivateKey : string) (redeemerOutputScripts : list string)
    (requests : list RedemptionRequest) :
  fetchRedemptionRequests createKeyRing hash160 bridge walletPrivateKey
    redeemerOutputScripts = Returned requests ->
  map redeemerOutputScript requests = redeemerOutputScripts /\
  Forall (fun r => requestedAt r <> 0) requests /\
  exists ring,
    createKeyRing walletPrivateKey None = Returned ring /\
    Forall2 (fun script request =>
               exists p,
                 pendingRedemptions bridge (walletPubKeyHash_of hash160 ring)
                   script = Returned p /\
                 request = spread_with_script p script)
            redeemerOutputScripts requests.
Proof.
  unfold fetchRedemptionRequests.
  destruct (createKeyRing walletPrivateKey None) as [ring|m] eqn:Hring;
    [|discriminate].
  cbn [bind]. fold (walletPubKeyHash_of hash160 ring). intros H.
  apply fetch_loop_returned in H as (found & -> & Hfound). cbn [app].
  destruct (fetched_scripts _ _ _ _ Hfound) as [Hscripts Hat].
  repeat split; try assumption.
  exists ring. split; [reflexivity|].
  eapply Forall2_impl; [|exact Hfound].
  intros s r (p & Hp & _ & Hr). eauto.
Qed.

(** X16: whatever [makeRedemptions] hands to [broadcast] is the one
    transaction the builder returned: it spends the output the main UTXO
    names in the raw transaction the client holds for its hash, is signed
    with the key ring of the private key, pays the scripts given (there is
    one at least), in their order, and then only the wallet's address; the
    function settles as the broadcast does. *)
Theorem makeRedemptions_broadcasts_signed_redemption
    (bitcoinClient : BitcoinClient) (bridge : Bridge)
    (walletPrivateKey : string) (mainUtxo : UnspentTransactionOutput)
    (redeemerOutputScripts : list string) (witness : bool)
    (t : RawTransaction) :
  In t (broadcasts (makeRedemptions createKeyRing hash160 dustThreshold MAX_FEE
                      bitcoinClient bridge walletPrivateKey mainUtxo
                      redeemerOutputScripts witness)) ->
  exists rawTransaction ring paid left,
    getRawTransaction bitcoinClient (transactionHash mainUtxo)
      = Returned rawTransaction /\
    createKeyRing walletPrivateKey (Some witness) = Returned ring /\
    broadcasts (makeRedemptions createKeyRing hash160 dustThreshold MAX_FEE
                  bitcoinClient bridge walletPrivateKey mainUtxo
                  redeemerOutputScripts witness) = [t] /\
    finished (makeRedemptions createKeyRing hash160 dustThreshold MAX_FEE
                bitcoinClient bridge walletPrivateKey mainUtxo
                redeemerOutputScripts witness) = broadcast bitcoinClient t /\
    transactionHex t =
      mkTX [mkOutpoint (transactionHex rawTransaction) (outputIndex mainUtxo)]
           (paid ++ left) (Some ring) /\
    map script paid
      = map (fun s => Script_fromRaw (Buffer_from_hex s)) redeemerOutputScripts /\
    redeemerOutputScripts <> [] /\
    Forall (fun o => script o = Script_fromAddress (getAddress ring)) left.
Proof.
  unfold makeRedemptions.
  destruct (getRawTransaction bitcoinClient (transactionHash mainUtxo))
    as [rawTransaction|m] eqn:Hraw; [|intros []].
  destruct (fetchRedemptionRequests createKeyRing hash160 bridge
              walletPrivateKey redeemerOutputScripts)
    as [requests|m] eqn:Hfetch; [|intros []].
  cbv zeta.
  destruct (settled (createRedemptionTransaction _ _ _ _ _ _ _))
    as [transaction|m] eqn:Hbuilt; [|intros []].
  cbn [broadcasts finished]. intros [<-|[]].
  apply createRedemptionTransaction_returned_inv in Hbuilt
    as (Hne & ring & fundingOutput & left & Hring & _ & _ & _ & -> & Hleft & _).
  unfold fetchRedemptionRequests in Hfetch.
  destruct (createKeyRing walletPrivateKey None) as [ring0|m];
    [|discriminate Hfetch].
  cbn [bind] in Hfetch.
  apply fetch_loop_returned in Hfetch as (found & -> & Hfound).
  cbn [app] in *. destruct (fetched_scripts _ _ _ _ Hfound) as [Hscripts _].
  exists rawTransaction, ring, (map redemptionOutput found),
    (changeOutputs (getAddress ring) (value mainUtxo) found ++ left)%list.
  cbn [transactionHex utxo raw] in *.
  repeat split; try assumption; try reflexivity.
  - now rewrite redemptionOutput_scripts, Hscripts.
  - intros ->. rewrite <- Hscripts in Hfound. apply Hne.
    now destruct found.
  - apply Forall_app. split; [apply changeOutputs_wallet|assumption].
Qed.

(** X17: with the raw transaction and the key ring at hand,
    [makeRedemptions] broadcasts nothing and calls nothing of the library
    when a script has no pending request (the not-found error) or when no
    script is given (the error of the empty list); and when it throws after
    a broadcast, it is the broadcast that threw. *)
Theorem makeRedemptions_failures_broadcast_nothing
    (bitcoinClient : BitcoinClient) (bridge : Bridge)
    (walletPrivateKey : string) (mainUtxo : UnspentTransactionOutput)
    (witness : bool) (rawTransaction : RawTransaction) (ring : KeyRing) :
  getRawTransaction bitcoinClient (transactionHash mainUtxo)
    = Returned rawTransaction ->
  createKeyRing walletPrivateKey None = Returned ring ->
  makeRedemptions createKeyRing hash160 dustThreshold MAX_FEE bitcoinClient
    bridge walletPrivateKey mainUtxo [] witness
    = mkFlow [] [] (Thrown InvalidRequestList) /\
  (forall found script rest p,
     Forall (pending bridge (walletPubKeyHash_of hash160 ring)) found ->
     pendingRedemptions bridge (walletPubKeyHash_of hash160 ring) script
       = Returned p ->
     requestedAt p = 0 ->
     makeRedemptions createKeyRing hash160 dustThreshold MAX_FEE bitcoinClient
       bridge walletPrivateKey mainUtxo (found ++ script :: rest) witness
       = mkFlow [] [] (Thrown NotFound)) /\
  (forall scripts m,
     finished (makeRedemptions createKeyRing hash160 dustThreshold MAX_FEE
                 bitcoinClient bridge walletPrivateKey mainUtxo scripts
                 witness) = Thrown m ->
     broadcasts (makeRedemptions createKeyRing hash160 dustThreshold MAX_FEE
                   bitcoinClient bridge walletPrivateKey mainUtxo scripts
                   witness) = [] \/
     exists t,
       broadcasts (makeRedemptions createKeyRing hash160 dustThreshold MAX_FEE
                     bitcoinClient bridge walletPrivateKey mainUtxo scripts
                     witness) = [t] /\
       broadcast bitcoinClient t = Thrown m).
Proof.
  intros Hraw Hring. split; [|split].
  - unfold makeRedemptions, fetchRedemptionRequests.
    rewrite Hraw, Hring. reflexivity.
  - intros found script rest p Hfound Hp Hat.
    unfold makeRedemptions, fetchRedemptionRequests.
    rewrite Hraw, Hring. cbn [bind].
    fold (walletPubKeyHash_of hash160 ring).
    now rewrite (fetch_loop_absent bridge _ found [] script rest p Hfound Hp Hat).
  - intros scripts m. unfold makeRedemptions. rewrite Hraw.
    destruct (fetchRedemptionRequests _ _ _ _ _) as [requests|m'];
      [|cbn; auto].
    cbv zeta.
    destruct (settled (createRedemptionTransaction _ _ _ _ _ _ _))
      as [transaction|m']; cbn [broadcasts finished]; eauto.
Qed.

Hypothesis dustThreshold_positive : forall s, 0 < dustThreshold s.

(** X18: when the client holds the raw transaction, every script has a
    pending request, no output amount or fee share is negative, the fee
    shares stay within the library's cap and the main UTXO is the output of
    its raw transaction and covers outputs and fees, [makeRedemptions]
    broadcasts, once, the transaction that spends the main UTXO, pays each
    request in the order of the scripts and returns the change to the
    wallet, and settles as the broadcast does. *)
Theorem makeRedemptions_broadcasts_redemption
    (bitcoinClient : BitcoinClient) (bridge : Bridge)
    (walletPrivateKey : string) (mainUtxo : UnspentTransactionOutput)
    (redeemerOutputScripts : list string) (witness : bool)
    (rawTransaction : RawTransaction) (ring0 ring : KeyRing)
    (fundingOutput : Output) (requests : list RedemptionRequest) :
  getRawTransaction bitcoinClient (transactionHash mainUtxo)
    = Returned rawTransaction ->
  createKeyRing walletPrivateKey None = Returned ring0 ->
  createKeyRing walletPrivateKey (Some witness) = Returned ring ->
  redeemerOutputScripts <> [] ->
  Forall2 (fetched bridge (walletPubKeyHash_of hash160 ring0))
          redeemerOutputScripts requests ->
  0 <= outputIndex mainUtxo ->
  nth_error (tx_outputs (transactionHex rawTransaction))
            (Z.to_nat (outputIndex mainUtxo)) = Some fundingOutput ->
  Bcoin.value fundingOutput = value mainUtxo ->
  Forall (fun r => 0 <= outputAmount r /\ 0 <= txMaxFee r) requests ->
  totalOutputs requests + totalFee requests <= value mainUtxo
    <= MAX_SAFE_INTEGER ->
  totalFee requests <= MAX_FEE ->
  let built :=
    {| transactionHex :=
         mkTX [mkOutpoint (transactionHex rawTransaction)
                 (outputIndex mainUtxo)]
              (map redemptionOutput requests
                 ++ changeOutputs (getAddress ring) (value mainUtxo) requests)
              (Some ring) |} in
  broadcasts (makeRedemptions createKeyRing hash160 dustThreshold MAX_FEE
                bitcoinClient bridge walletPrivateKey mainUtxo
                redeemerOutputScripts witness) = [built] /\
  finished (makeRedemptions createKeyRing hash160 dustThreshold MAX_FEE
              bitcoinClient bridge walletPrivateKey mainUtxo
              redeemerOutputScripts witness) = broadcast bitcoinClient built /\
  map redeemerOutputScript requests = redeemerOutputScripts.
Proof.
  intros Hraw Hring0 Hring Hne Hfetched Hidx Hnth Hval Hamounts Hfunds Hcap
    built.
  assert (Hreq : requests <> []).
  { intros ->. inversion Hfetched. congruence. }
  unfold makeRedemptions, fetchRedemptionRequests.
  rewrite Hraw, Hring0. cbn [bind].
  fold (walletPubKeyHash_of hash160 ring0).
  rewrite (fetch_loop_fetched _ _ _ _ Hfetched []). cbn [app]. cbv zeta.
  rewrite (createRedemptionTransaction_funded createKeyRing dustThreshold
             MAX_FEE dustThreshold_positive walletPrivateKey
             {| utxo := mainUtxo;
                raw := {| transactionHex := transactionHex rawTransaction |} |}
             requests witness ring fundingOutput Hreq Hring Hidx Hnth Hval
             Hamounts Hfunds Hcap).
  cbn [settled calls broadcasts finished].
  repeat split. apply (fetched_scripts _ _ _ _ Hfetched).
Qed.

End Flow.

Import Samples MoreSamples.

Lemma fetchRedemptionRequests_returned_sample :
  fetchRedemptionRequests sample_createKeyRing sample_hash sample_bridge "key"
    [sample_script]
    = Returned [spread_with_script (sample_record sample_script) sample_script] /\
  map redeemerOutputScript
      [spread_with_script (sample_record sample_script) sample_script]
    = [sample_script] /\
  Forall (fun r => requestedAt r <> 0)
         [spread_with_script (sample_record sample_script) sample_script] /\
  exists ring,
    sample_createKeyRing "key" None = Returned ring /\
    Forall2 (fun script request =>
               exists p,
                 pendingRedemptions sample_bridge
                   (walletPubKeyHash_of sample_hash ring) script = Returned p /\
                 request = spread_with_script p script)
            [sample_script]
            [spread_with_script (sample_record sample_script) sample_script].
Proof.
  assert (H1 : fetchRedemptionRequests sample_createKeyRing sample_hash
                 sample_bridge "key" [sample_script]
               = Returned [spread_with_script (sample_record sample_script)
                             sample_script]) by reflexivity.
  exact (conj H1
    (fetchRedemptionRequests_returns_only_pending sample_createKeyRing
       sample_hash sample_bridge "key" [sample_script] _ H1)).
Defined.

Lemma makeRedemptions_broadcast_sample :
  In sample_built
     (broadcasts (makeRedemptions sample_createKeyRing sample_hash
                    sample_dustThreshold sample_MAX_FEE sample_client
                    sample_bridge "key" (utxo (sample_mainUtxo 100000))
                    [sample_script] true)) /\
  exists rawTransaction ring paid left,
    getRawTransaction sample_client
      (transactionHash (utxo (sample_mainUtxo 100000)))
      = Returned rawTransaction /\
    sample_createKeyRing "key" (Some true) = Returned ring /\
    broadcasts (makeRedemptions sample_createKeyRing sample_hash
                  sample_dustThreshold sample_MAX_FEE sample_client
                  sample_bridge "key" (utxo (sample_mainUtxo 100000))
                  [sample_script] true) = [sample_built] /\
    finished (makeRedemptions sample_createKeyRing sample_hash
                sample_dustThreshold sample_MAX_FEE sample_client
                sample_bridge "key" (utxo (sample_mainUtxo 100000))
                [sample_script] true) = broadcast sample_client sample_built /\
    transactionHex sample_built =
      mkTX [mkOutpoint (transactionHex rawTransaction)
              (outputIndex (utxo (sample_mainUtxo 100000)))]
           (paid ++ left) (Some ring) /\
    map script paid
      = map (fun s => Script_fromRaw (Buffer_from_hex s)) [sample_script] /\
    [sample_script] <> [] /\
    Forall (fun o => script o = Script_fromAddress (getAddress ring)) left.
Proof.
  assert (H1 : In sample_built
     (broadcasts (makeRedemptions sample_createKeyRing sample_hash
                    sample_dustThreshold sample_MAX_FEE sample_client
                    sample_bridge "key" (utxo (sample_mainUtxo 100000))
                    [sample_script] true))) by (left; reflexivity).
  exact (conj H1
    (makeRedemptions_broadcasts_signed_redemption sample_createKeyRing
       sample_hash sample_dustThreshold sample_MAX_FEE sample_client
       sample_bridge "key" (utxo (sample_mainUtxo 100000)) [sample_script]
       true sample_built H1)).
Defined.

Lemma makeRedemptions_failures_sample :
  getRawTransaction sample_client
    (transactionHash (utxo (sample_mainUtxo 100000)))
    = Returned {| transactionHex := funding_tx 100000 |} /\
  sample_createKeyRing "key" None = Returned sample_ring /\
  makeRedemptions sample_createKeyRing sample_hash sample_dustThreshold
    sample_MAX_FEE sample_client sample_bridge "key"
    (utxo (sample_mainUtxo 100000)) [] true
    = mkFlow [] [] (Thrown InvalidRequestList) /\
  makeRedemptions sample_createKeyRing sample_hash sample_dustThreshold
    sample_MAX_FEE sample_client sample_bridge "key"
    (utxo (sample_mainUtxo 100000)) [sample_script; "0014"%string] true
    = mkFlow [] [] (Thrown NotFound).
Proof.
  assert (H1 : getRawTransaction sample_client
                 (transactionHash (utxo (sample_mainUtxo 100000)))
               = Returned {| transactionHex := funding_tx 100000 |})
    by reflexivity.
  assert (H2 : sample_createKeyRing "key" None = Returned sample_ring)
    by reflexivity.
  assert (H3 : Forall (pending sample_bridge
                         (walletPubKeyHash_of sample_hash sample_ring))
                      [sample_script])
    by (repeat constructor; exact sample_script_pending).
  pose proof (makeRedemptions_failures_broadcast_nothing sample_createKeyRing
                sample_hash sample_dustThreshold sample_MAX_FEE sample_client
                sample_bridge "key" (utxo (sample_mainUtxo 100000)) true
                {| transactionHex := funding_tx 100000 |} sample_ring H1 H2)
    as (Hempty & Habsent & _).
  exact (conj H1 (conj H2 (conj Hempty
    (Habsent [sample_script] "0014"%string [] (sample_record "0014") H3
       eq_refl eq_refl)))).
Defined.

Lemma makeRedemptions_sample :
  (forall s, 0 < sample_dustThreshold s) /\
  [sample_script] <> [] /\
  Forall2 (fetched sample_bridge (walletPubKeyHash_of sample_hash sample_ring))
          [sample_script]
          [spread_with_script (sample_record sample_script) sample_script] /\
  broadcasts (makeRedemptions sample_createKeyRing sample_hash
                sample_dustThreshold sample_MAX_FEE sample_client
                sample_bridge "key" (utxo (sample_mainUtxo 100000))
                [sample_script] true) = [sample_built] /\
  finished (makeRedemptions sample_createKeyRing sample_hash
              sample_dustThreshold sample_MAX_FEE sample_client
              sample_bridge "key" (utxo (sample_mainUtxo 100000))
              [sample_script] true) = broadcast sample_client sample_built /\
  map redeemerOutputScript
      [spread_with_script (sample_record sample_script) sample_script]
    = [sample_script].
Proof.
  assert (H1 : [sample_script] <> []) by discriminate.
  assert (H2 : Forall2 (fetched sample_bridge
                          (walletPubKeyHash_of sample_hash sample_ring))
                 [sample_script]
                 [spread_with_script (sample_record sample_script)
                    sample_script]).
  { constructor; [|constructor].
    exists (sample_record sample_script). repeat split. cbn. discriminate. }
  assert (H3 : 0 <= outputIndex (utxo (sample_mainUtxo 100000))) by (cbn; lia).
  assert (H4 : Forall (fun r => 0 <= outputAmount r /\ 0 <= txMaxFee r)
                 [spread_with_script (sample_record sample_script)
                    sample_script])
    by (repeat constructor; cbn; lia).
  assert (H5 : totalOutputs [spread_with_script (sample_record sample_script)
                               sample_script]
               + totalFee [spread_with_script (sample_record sample_script)
                             sample_script]
               <= value (utxo (sample_mainUtxo 100000)) <= MAX_SAFE_INTEGER)
    by (cbn; unfold MAX_SAFE_INTEGER; lia).
  assert (H6 : totalFee [spread_with_script (sample_record sample_script)
                           sample_script] <= sample_MAX_FEE)
    by (cbn; unfold sample_MAX_FEE; lia).
  exact (conj sample_dustThreshold_positive (conj H1 (conj H2
    (makeRedemptions_broadcasts_redemption sample_createKeyRing sample_hash
       sample_dustThreshold sample_MAX_FEE sample_dustThreshold_positive
       sample_client sample_bridge "key" (utxo (sample_mainUtxo 100000))
       [sample_script] true {| transactionHex := funding_tx 100000 |}
       sample_ring sample_ring
       {| script := Script_fromAddress "wallet"; Bcoin.value := 100000 |}
       [spread_with_script (sample_record sample_script) sample_script]
       eq_refl eq_refl eq_refl H1 H2 H3 eq_refl eq_refl H4 H5 H6)))).
Defined.

End FlowFacts.

(** ** Requesting a redemption and finding it again *)

Module RequestFacts.
Import HexCodec Ethers HexFacts Retry Bitcoin KeyDerivationFacts
  KeyDerivationMore EthereumBridgeReads.
Local Open Scope string_scope.
Local Open Scope Z_scope.
Local Open Scope js_scope.

Section Request.
Variable keccak_256 : list byte -> list byte.
Variable computeHash160 : string -> string.
Variable completed : EthereumBridge.ContractTransaction.

(** X19: the script [requestRedemption] sends, read back from the event of
    the request by [getRedemptionRequestedEvents] (its prefix taken as one
    byte long), is the script that was requested, as the lower-case digits
    of its bytes. *)
Theorem requestRedemption_script_comes_back
    (walletPublicKey : string) (mainUtxo : BitcoinUtxo)
    (redeemerOutputScript : string) (amount : Z) :
  exists prefixedScript,
    (forall this,
       EthereumBridgeWrites.requestRedemption computeHash160 completed this
         walletPublicKey mainUtxo redeemerOutputScript amount
       = let sent :=
           sendWithRetry
             (EthereumBridgeWrites.call_requestRedemption
                (EthereumBridgeWrites._instance this)
                ("0x" ++ computeHash160 walletPublicKey)
                {| EthereumBridgeWrites.txHash :=
                     Hex.toPrefixedString
                       (Hex.reverse (Bitcoin.transactionHash mainUtxo));
                   EthereumBridgeWrites.txOutputIndex := outputIndex mainUtxo;
                   EthereumBridgeWrites.txOutputValue := value mainUtxo |}
                prefixedScript amount)
             (EthereumBridgeWrites._totalRetryAttempts this) [] completed in
         mkRun (attempts sent) (_ <- settled sent ;; Returned tt)) /\
    (forall EthereumAddress_from CompactSizeUint_read_byteLength event who,
       args_redeemerOutputScript event = prefixedScript ->
       CompactSizeUint_read_byteLength (Hex.from prefixedScript) = Returned 1 ->
       - Bcoin.MAX_SAFE_INTEGER <= blockNumber event <= Bcoin.MAX_SAFE_INTEGER ->
       EthereumAddress_from (args_redeemer event) = Returned who ->
       exists found,
         getRedemptionRequestedEvents EthereumAddress_from
           CompactSizeUint_read_byteLength (Returned [event])
           = Returned [found] /\
         ev_redeemerOutputScript found
           = to_hex (Buffer_from_hex redeemerOutputScript)) /\
    (forall raw, redeemerOutputScript = to_hex raw ->
                 to_hex (Buffer_from_hex redeemerOutputScript)
                 = redeemerOutputScript).
Proof.
  exists (hexlify (byte_of_Z (Z.of_nat (List.length
                      (Buffer_from_hex redeemerOutputScript)))
                     :: Buffer_from_hex redeemerOutputScript)).
  split; [reflexivity|]. split.
  - intros EthereumAddress_from read event who Hscript Hread Hblock Hwho.
    unfold getRedemptionRequestedEvents. cbn [bind map_throwing].
    unfold parseRedemptionRequestedEvent. rewrite Hscript, Hread. cbn [bind].
    rewrite BuilderFacts.toNumber_safe by assumption. cbn [bind].
    rewrite Hwho. cbn [bind]. eexists. split; [reflexivity|].
    cbn [ev_redeemerOutputScript]. unfold Hex.toString.
    rewrite Hex_from_hexlify. change (1 * 2) with 2.
    now rewrite ReadsFacts.slice_to_hex.
  - intros raw ->. now rewrite Buffer_from_hex_to_hex.
Qed.

Hypothesis keccak_256_length : forall bs, List.length (keccak_256 bs) = 32%nat.

(** X20: what [requestRedemption] sends is what the lookups hash: for a
    20-byte wallet hash, the redemption key of [pendingRedemptions] is the
    digest of the digest of the script bytes sent, followed by the wallet
    hash bytes sent; and for a well-formed main UTXO, the UTXO hash is the
    digest of the hash bytes sent followed by the index on four and the value
    on eight bytes. *)
Theorem requestRedemption_sends_what_the_keys_hash
    (walletPublicKey : string) (mainUtxo : BitcoinUtxo)
    (redeemerOutputScript : string) (amount : Z) (pkh : list byte) :
  arrayify ("0x" ++ computeHash160 walletPublicKey) = Returned pkh ->
  List.length pkh = 20%nat ->
  List.length (Hex.bytes (Bitcoin.transactionHash mainUtxo)) = 32%nat ->
  0 <= outputIndex mainUtxo < 2 ^ 32 ->
  0 <= value mainUtxo < 2 ^ 64 ->
  exists walletPublicKeyHash mainUtxoParam prefixedScript scriptBytes hashBytes,
    (forall this,
       EthereumBridgeWrites.requestRedemption computeHash160 completed this
         walletPublicKey mainUtxo redeemerOutputScript amount
       = let sent :=
           sendWithRetry
             (EthereumBridgeWrites.call_requestRedemption
                (EthereumBridgeWrites._instance this) walletPublicKeyHash
                mainUtxoParam prefixedScript amount)
             (EthereumBridgeWrites._totalRetryAttempts this) [] completed in
         mkRun (attempts sent) (_ <- settled sent ;; Returned tt)) /\
    arrayify walletPublicKeyHash = Returned pkh /\
    arrayify prefixedScript = Returned scriptBytes /\
    arrayify (EthereumBridgeWrites.txHash mainUtxoParam) = Returned hashBytes /\
    EthereumBridge.buildRedemptionKey keccak_256
      (computeHash160 walletPublicKey) redeemerOutputScript
      = Returned (hexlify (keccak_256 (keccak_256 scriptBytes ++ pkh))) /\
    EthereumBridge.buildUtxoHash keccak_256 mainUtxo
      = Returned
          (Hex.of_bytes
             (keccak_256
                (hashBytes
                   ++ big_endian 4
                        (EthereumBridgeWrites.txOutputIndex mainUtxoParam)
                   ++ big_endian 8
                        (EthereumBridgeWrites.txOutputValue mainUtxoParam)))).
Proof.
  intros Hw Hl Hh Hidx Hval.
  exists ("0x" ++ computeHash160 walletPublicKey),
    {| EthereumBridgeWrites.txHash :=
         Hex.toPrefixedString (Hex.reverse (Bitcoin.transactionHash mainUtxo));
       EthereumBridgeWrites.txOutputIndex := outputIndex mainUtxo;
       EthereumBridgeWrites.txOutputValue := value mainUtxo |},
    (hexlify (byte_of_Z (Z.of_nat (List.length
                 (Buffer_from_hex redeemerOutputScript)))
                :: Buffer_from_hex redeemerOutputScript)),
    (byte_of_Z (Z.of_nat (List.length (Buffer_from_hex redeemerOutputScript)))
       :: Buffer_from_hex redeemerOutputScript),
    (rev (Hex.bytes (Bitcoin.transactionHash mainUtxo))).
  split; [reflexivity|]. split; [exact Hw|].
  split; [apply arrayify_hexlify|].
  split; [apply arrayify_hexlify|]. split.
  - now apply buildRedemptionKey_eq.
  - now apply buildUtxoHash_eq.
Qed.

End Request.

Import Samples MoreSamples.

Lemma requestRedemption_script_sample :
  exists prefixedScript,
    (forall this,
       EthereumBridgeWrites.requestRedemption sample_computeHash160 sample_tx
         this "02aa" sample_utxo sample_script 50000
       = let sent :=
           sendWithRetry
             (EthereumBridgeWrites.call_requestRedemption
                (EthereumBridgeWrites._instance this)
                ("0x" ++ sample_computeHash160 "02aa")
                {| EthereumBridgeWrites.txHash :=
                     Hex.toPrefixedString
                       (Hex.reverse (Bitcoin.transactionHash sample_utxo));
                   EthereumBridgeWrites.txOutputIndex := outputIndex sample_utxo;
                   EthereumBridgeWrites.txOutputValue := value sample_utxo |}
                prefixedScript 50000)
             (EthereumBridgeWrites._totalRetryAttempts this) [] sample_tx in
         mkRun (attempts sent) (_ <- settled sent ;; Returned tt)) /\
    (forall EthereumAddress_from CompactSizeUint_read_byteLength event who,
       args_redeemerOutputScript event = prefixedScript ->
       CompactSizeUint_read_byteLength (Hex.from prefixedScript) = Returned 1 ->
       - Bcoin.MAX_SAFE_INTEGER <= blockNumber event <= Bcoin.MAX_SAFE_INTEGER ->
       EthereumAddress_from (args_redeemer event) = Returned who ->
       exists found,
         getRedemptionRequestedEvents EthereumAddress_from
           CompactSizeUint_read_byteLength (Returned [event])
           = Returned [found] /\
         ev_redeemerOutputScript found
           = to_hex (Buffer_from_hex sample_script)) /\
    (forall raw, sample_script = to_hex raw ->
                 to_hex (Buffer_from_hex sample_script) = sample_script).
Proof.
  exact (requestRedemption_script_comes_back sample_computeHash160 sample_tx
           "02aa" sample_utxo sample_script 50000).
Defined.

Lemma requestRedemption_keys_sample :
  (forall bs, List.length (sample_hash bs) = 32%nat) /\
  arrayify ("0x" ++ sample_computeHash160 "02aa")
    = Returned (Buffer_from_hex sample_walletPublicKeyHash) /\
  List.length (Hex.bytes (Bitcoin.transactionHash sample_utxo)) = 32%nat /\
  0 <= outputIndex sample_utxo < 2 ^ 32 /\
  0 <= value sample_utxo < 2 ^ 64 /\
  exists walletPublicKeyHash mainUtxoParam prefixedScript scriptBytes hashBytes,
    (forall this,
       EthereumBridgeWrites.requestRedemption sample_computeHash160 sample_tx
         this "02aa" sample_utxo sample_script 50000
       = let sent :=
           sendWithRetry
             (EthereumBridgeWrites.call_requestRedemption
                (EthereumBridgeWrites._instance this) walletPublicKeyHash
                mainUtxoParam prefixedScript 50000)
             (EthereumBridgeWrites._totalRetryAttempts this) [] sample_tx in
         mkRun (attempts sent) (_ <- settled sent ;; Returned tt)) /\
    arrayify walletPublicKeyHash
      = Returned (Buffer_from_hex sample_walletPublicKeyHash) /\
    arrayify prefixedScript = Returned scriptBytes /\
    arrayify (EthereumBridgeWrites.txHash mainUtxoParam) = Returned hashBytes /\
    EthereumBridge.buildRedemptionKey sample_hash
      (sample_computeHash160 "02aa") sample_script
      = Returned
          (hexlify (sample_hash
             (sample_hash scriptBytes
                ++ Buffer_from_hex sample_walletPublicKeyHash))) /\
    EthereumBridge.buildUtxoHash sample_hash sample_utxo
      = Returned
          (Hex.of_bytes
             (sample_hash
                (hashBytes
                   ++ big_endian 4
                        (EthereumBridgeWrites.txOutputIndex mainUtxoParam)
                   ++ big_endian 8
                        (EthereumBridgeWrites.txOutputValue mainUtxoParam)))).
Proof.
  assert (H1 : arrayify ("0x" ++ sample_computeHash160 "02aa")
               = Returned (Buffer_from_hex sample_walletPublicKeyHash))
    by reflexivity.
  assert (H2 : List.length (Hex.bytes (Bitcoin.transactionHash sample_utxo)) = 32%nat)
    by reflexivity.
  assert (H3 : 0 <= outputIndex sample_utxo < 2 ^ 32) by (cbn; lia).
  assert (H4 : 0 <= value sample_utxo < 2 ^ 64) by (cbn; lia).
  exact (conj sample_hash_length (conj H1 (conj H2 (conj H3 (conj H4
    (requestRedemption_sends_what_the_keys_hash sample_hash
       sample_computeHash160 sample_tx sample_hash_length "02aa" sample_utxo
       sample_script 50000 _ H1 eq_refl H2 H3 H4)))))).
Defined.

End RequestFacts.
